(** * gokvm: the VCPU run loop, the I/O port router and machine bring-up

    A shallow embedding of [kvm/kvm.go] and [machine/machine.go].

    - Unsigned machine integers are [Z] with the masks, shifts and
      wrap-arounds of the source written out.
    - Process memory is a total byte map indexed by absolute address; the
      [kvm_run] page and the guest RAM are views into it, as the source
      obtains them through [mmap] and [unsafe.Pointer].  Faults on
      unmapped addresses are outside the model.
    - A Go slice is its header (pointer, length, capacity).
    - Everything behind a system call or inside the packages [serial],
      [pci], [virtio], [tap], [ebda] and [bootparam] is an operation of the
      [Platform] interface: it transforms the outside world ([Sys]) and
      the model makes no assumption about what it answers.
    - Effects are a small monad: state ([Sys]), a call trace ([Event]) and
      Go run-time panics ([Panic]). *)

From Stdlib Require Import ZArith List String Lia Bool.
From stdpp Require Import base list.
Import ListNotations.
Open Scope string_scope.
Open Scope list_scope.
Open Scope Z_scope.

(** ** Go errors *)

Inductive fmt_arg :=
| FInt (v : Z)
| FBytes (b : list Z).

(** [Errno] is [syscall.Errno]; [ErrorString] is the value of [errors.New]
    or of [fmt.Errorf] without a [%w] verb; [Wrapf] is [fmt.Errorf] with
    exactly one [%w] operand, the other operands listed in order. *)
Inductive error :=
| Errno (e : Z)
| ErrorString (msg : string)
| Wrapf (format : string) (wrapped : error) (args : list fmt_arg).

(** [err == target] on interface values.  Sentinels are compared by their
    message (their allocation sites carry distinct messages); a wrapping
    error is a fresh allocation and equals no target. *)
Definition same_error (a b : error) : bool :=
  match a, b with
  | Errno x, Errno y => x =? y
  | ErrorString s, ErrorString t => String.eqb s t
  | _, _ => false
  end.

(** [errors.Is]: walk the [Unwrap] chain. *)
Fixpoint errors_Is (err target : error) : bool :=
  same_error err target ||
  match err with
  | Wrapf _ inner _ => errors_Is inner target
  | _ => false
  end.

(** The text of the format string mentions [needle]. *)
Definition mentions (needle : string) (e : error) : bool :=
  match e with
  | Wrapf format _ _ =>
      match String.index 0 needle format with Some _ => true | None => false end
  | ErrorString msg =>
      match String.index 0 needle msg with Some _ => true | None => false end
  | Errno _ => false
  end.

Definition EAGAIN : Z := 11.
Definition EINTR : Z := 4.

(** ** Process memory and slices *)

Definition Memory := Z -> Z.

Definition load8 (mem : Memory) (a : Z) : Z := mem a mod 256.

Definition store8 (mem : Memory) (a v : Z) : Memory :=
  fun x => if x =? a then v mod 256 else mem x.

(** Little-endian load of [n] bytes. *)
Fixpoint loadLE (n : nat) (mem : Memory) (a : Z) : Z :=
  match n with
  | O => 0
  | S k => load8 mem a + 256 * loadLE k mem (a + 1)
  end.

Definition load32 := loadLE 4.
Definition load64 := loadLE 8.

(** Store the bytes [bs] from address [a] on, at most [room] of them. *)
Fixpoint copy_bytes (mem : Memory) (a room : Z) (bs : list Z) : Memory :=
  match bs with
  | [] => mem
  | b :: rest =>
      if 0 <? room then copy_bytes (store8 mem a b) (a + 1) (room - 1) rest
      else mem
  end.

Record Slice := mkSlice { ptr : Z; len : Z; cap : Z }.

Definition nil_slice : Slice := mkSlice 0 0 0.

Definition slice_bytes (mem : Memory) (s : Slice) : list Z :=
  map (fun k => load8 mem (ptr s + k)) (seqZ 0 (len s)).

(** ** Outcomes: a Go function returns or panics *)

Inductive outcome (A : Type) :=
| Ret (a : A)
| Panic (why : string).
Arguments Ret {A} a.
Arguments Panic {A} why.

(** ** Package kvm: constants and ABI structures *)

Module kvm.

Definition kvmGetAPIVersion : Z := 44544.
Definition kvmCreateVM : Z := 44545.
Definition kvmCreateVCPU : Z := 44609.
Definition kvmRun : Z := 44672.
Definition kvmGetVCPUMMapSize : Z := 44548.
Definition kvmGetSregs : Z := 0x8138ae83.
Definition kvmSetSregs : Z := 0x4138ae84.
Definition kvmGetRegs : Z := 0x8090ae81.
Definition kvmSetRegs : Z := 0x4090ae82.
Definition kvmSetUserMemoryRegion : Z := 1075883590.
Definition kvmSetTSSAddr : Z := 0xae47.
Definition kvmSetIdentityMapAddr : Z := 0x4008AE48.
Definition kvmCreateIRQChip : Z := 0xAE60.
Definition kvmCreatePIT2 : Z := 0x4040AE77.
Definition kvmGetSupportedCPUID : Z := 0xC008AE05.
Definition kvmSetCPUID2 : Z := 0x4008AE90.
Definition kvmIRQLine : Z := 0xc008ae67.

Definition EXITUNKNOWN : Z := 0.
Definition EXITEXCEPTION : Z := 1.
Definition EXITIO : Z := 2.
Definition EXITHYPERCALL : Z := 3.
Definition EXITDEBUG : Z := 4.
Definition EXITHLT : Z := 5.
Definition EXITMMIO : Z := 6.
Definition EXITIRQWINDOWOPEN : Z := 7.
Definition EXITSHUTDOWN : Z := 8.
Definition EXITFAILENTRY : Z := 9.
Definition EXITINTR : Z := 10.
Definition EXITSETTPR : Z := 11.
Definition EXITTPRACCESS : Z := 12.
Definition EXITS390SIEIC : Z := 13.
Definition EXITS390RESET : Z := 14.
Definition EXITDCR : Z := 15.
Definition EXITNMI : Z := 16.
Definition EXITINTERNALERROR : Z := 17.

Definition EXITIOIN : Z := 0.
Definition EXITIOOUT : Z := 1.

Definition numInterrupts : Z := 0x100.
Definition CPUIDFeatures : Z := 0x40000001.
Definition CPUIDSignature : Z := 0x40000000.
Definition CPUIDFuncPerMon : Z := 0x0A.

Definition ErrorUnexpectedEXITReason : error :=
  ErrorString "unexpected kvm exit reason".

Record Regs := mkRegs {
  RAX : Z; RBX : Z; RCX : Z; RDX : Z; RSI : Z; RDI : Z; RSP : Z; RBP : Z;
  R8 : Z; R9 : Z; R10 : Z; R11 : Z; R12 : Z; R13 : Z; R14 : Z; R15 : Z;
  RIP : Z; RFLAGS : Z }.

Definition Regs_zero : Regs := mkRegs 0 0 0 0 0 0 0 0 0 0 0 0 0 0 0 0 0 0.

Definition set_RFLAGS (v : Z) (r : Regs) : Regs :=
  mkRegs (RAX r) (RBX r) (RCX r) (RDX r) (RSI r) (RDI r) (RSP r) (RBP r)
    (R8 r) (R9 r) (R10 r) (R11 r) (R12 r) (R13 r) (R14 r) (R15 r) (RIP r) v.
Definition set_RIP (v : Z) (r : Regs) : Regs :=
  mkRegs (RAX r) (RBX r) (RCX r) (RDX r) (RSI r) (RDI r) (RSP r) (RBP r)
    (R8 r) (R9 r) (R10 r) (R11 r) (R12 r) (R13 r) (R14 r) (R15 r) v (RFLAGS r).
Definition set_RSI (v : Z) (r : Regs) : Regs :=
  mkRegs (RAX r) (RBX r) (RCX r) (RDX r) v (RDI r) (RSP r) (RBP r)
    (R8 r) (R9 r) (R10 r) (R11 r) (R12 r) (R13 r) (R14 r) (R15 r) (RIP r)
    (RFLAGS r).

Record Segment := mkSegment {
  Base : Z; Limit : Z; Selector : Z; Typ : Z; Present : Z; DPL : Z; DB : Z;
  S : Z; L : Z; G : Z; AVL : Z; Unusable : Z }.

Definition Segment_zero : Segment := mkSegment 0 0 0 0 0 0 0 0 0 0 0 0.

(** [seg.Base, seg.Limit, seg.G = base, limit, g] *)
Definition set_Base_Limit_G (base limit g : Z) (s : Segment) : Segment :=
  mkSegment base limit (Selector s) (Typ s) (Present s) (DPL s) (DB s)
    (S s) (L s) g (AVL s) (Unusable s).
Definition set_DB (v : Z) (s : Segment) : Segment :=
  mkSegment (Base s) (Limit s) (Selector s) (Typ s) (Present s) (DPL s) v
    (S s) (L s) (G s) (AVL s) (Unusable s).

Record Descriptor := mkDescriptor { DBase : Z; DLimit : Z }.

Record Sregs := mkSregs {
  CS : Segment; DS : Segment; ES : Segment; FS : Segment; GS : Segment;
  SS : Segment; TR : Segment; LDT : Segment;
  GDT : Descriptor; IDT : Descriptor;
  CR0 : Z; CR2 : Z; CR3 : Z; CR4 : Z; CR8 : Z; EFER : Z; ApicBase : Z;
  InterruptBitmap : list Z }.

Definition Sregs_zero : Sregs :=
  mkSregs Segment_zero Segment_zero Segment_zero Segment_zero Segment_zero
    Segment_zero Segment_zero Segment_zero (mkDescriptor 0 0)
    (mkDescriptor 0 0) 0 0 0 0 0 0 0
    (replicate (Z.to_nat ((numInterrupts + 63) / 64)) 0).

Definition set_CS (v : Segment) (s : Sregs) : Sregs :=
  mkSregs v (DS s) (ES s) (FS s) (GS s) (SS s) (TR s) (LDT s) (GDT s) (IDT s)
    (CR0 s) (CR2 s) (CR3 s) (CR4 s) (CR8 s) (EFER s) (ApicBase s)
    (InterruptBitmap s).
Definition set_DS (v : Segment) (s : Sregs) : Sregs :=
  mkSregs (CS s) v (ES s) (FS s) (GS s) (SS s) (TR s) (LDT s) (GDT s) (IDT s)
    (CR0 s) (CR2 s) (CR3 s) (CR4 s) (CR8 s) (EFER s) (ApicBase s)
    (InterruptBitmap s).
Definition set_ES (v : Segment) (s : Sregs) : Sregs :=
  mkSregs (CS s) (DS s) v (FS s) (GS s) (SS s) (TR s) (LDT s) (GDT s) (IDT s)
    (CR0 s) (CR2 s) (CR3 s) (CR4 s) (CR8 s) (EFER s) (ApicBase s)
    (InterruptBitmap s).
Definition set_FS (v : Segment) (s : Sregs) : Sregs :=
  mkSregs (CS s) (DS s) (ES s) v (GS s) (SS s) (TR s) (LDT s) (GDT s) (IDT s)
    (CR0 s) (CR2 s) (CR3 s) (CR4 s) (CR8 s) (EFER s) (ApicBase s)
    (InterruptBitmap s).
Definition set_GS (v : Segment) (s : Sregs) : Sregs :=
  mkSregs (CS s) (DS s) (ES s) (FS s) v (SS s) (TR s) (LDT s) (GDT s) (IDT s)
    (CR0 s) (CR2 s) (CR3 s) (CR4 s) (CR8 s) (EFER s) (ApicBase s)
    (InterruptBitmap s).
Definition set_SS (v : Segment) (s : Sregs) : Sregs :=
  mkSregs (CS s) (DS s) (ES s) (FS s) (GS s) v (TR s) (LDT s) (GDT s) (IDT s)
    (CR0 s) (CR2 s) (CR3 s) (CR4 s) (CR8 s) (EFER s) (ApicBase s)
    (InterruptBitmap s).
Definition set_CR0 (v : Z) (s : Sregs) : Sregs :=
  mkSregs (CS s) (DS s) (ES s) (FS s) (GS s) (SS s) (TR s) (LDT s) (GDT s)
    (IDT s) v (CR2 s) (CR3 s) (CR4 s) (CR8 s) (EFER s) (ApicBase s)
    (InterruptBitmap s).

Record UserspaceMemoryRegion := mkRegion {
  Slot : Z; Flags : Z; GuestPhysAddr : Z; MemorySize : Z; UserspaceAddr : Z }.

(** [func (r *UserspaceMemoryRegion) SetMemLogDirtyPages()] and
    [SetMemReadonly()]: the region after the call.  [Flags] is a [uint32];
    or-ing a bit below 32 into it cannot carry out of the 32 bits. *)
Definition SetMemLogDirtyPages (r : UserspaceMemoryRegion)
  : UserspaceMemoryRegion :=
  mkRegion (Slot r) (Z.lor (Flags r) (Z.shiftl 1 0)) (GuestPhysAddr r)
    (MemorySize r) (UserspaceAddr r).

Definition SetMemReadonly (r : UserspaceMemoryRegion)
  : UserspaceMemoryRegion :=
  mkRegion (Slot r) (Z.lor (Flags r) (Z.shiftl 1 1)) (GuestPhysAddr r)
    (MemorySize r) (UserspaceAddr r).

Record IRQLevel := mkIRQLevel { IRQ : Z; Level : Z }.

Record PitConfig := mkPit { PitFlags : Z }.

Record CPUIDEntry2 := mkEntry {
  Function : Z; Index : Z; EFlags : Z; Eax : Z; Ebx : Z; Ecx : Z; Edx : Z }.

Definition Entry_zero : CPUIDEntry2 := mkEntry 0 0 0 0 0 0 0.

Definition set_Eax (v : Z) (e : CPUIDEntry2) : CPUIDEntry2 :=
  mkEntry (Function e) (Index e) (EFlags e) v (Ebx e) (Ecx e) (Edx e).
Definition set_Ebx (v : Z) (e : CPUIDEntry2) : CPUIDEntry2 :=
  mkEntry (Function e) (Index e) (EFlags e) (Eax e) v (Ecx e) (Edx e).
Definition set_Ecx (v : Z) (e : CPUIDEntry2) : CPUIDEntry2 :=
  mkEntry (Function e) (Index e) (EFlags e) (Eax e) (Ebx e) v (Edx e).
Definition set_Edx (v : Z) (e : CPUIDEntry2) : CPUIDEntry2 :=
  mkEntry (Function e) (Index e) (EFlags e) (Eax e) (Ebx e) (Ecx e) v.

(** [Entries] is the array [[100]CPUIDEntry2]. *)
Record CPUID := mkCPUID { Nent : Z; Padding : Z; Entries : list CPUIDEntry2 }.

Definition CPUID_zero : CPUID := mkCPUID 0 0 (replicate 100%nat Entry_zero).

(** What the third argument of an ioctl points to (or is, for a scalar). *)
Inductive ioarg :=
| ArgInt (v : Z)
| ArgU64 (v : Z)
| ArgRegs (r : Regs)
| ArgSregs (s : Sregs)
| ArgMemRegion (r : UserspaceMemoryRegion)
| ArgIRQLevel (l : IRQLevel)
| ArgPit (p : PitConfig)
| ArgCPUID (c : CPUID).

(** *** The [kvm_run] page as a typed view of mapped bytes

    [RunData] is laid out as the C structure: [ExitReason] is the 32-bit
    word at byte 8 and [Data] the array of 64-bit words at byte 32. *)
Definition off_ExitReason : Z := 8.
Definition off_Data : Z := 32.

Definition ExitReason (mem : Memory) (run : Z) : Z :=
  load32 mem (run + off_ExitReason).

Definition Data (mem : Memory) (run : Z) (k : Z) : Z :=
  load64 mem (run + off_Data + 8 * k).

(** [func (r *RunData) IO() (uint64, uint64, uint64, uint64, uint64)] *)
Definition IO (mem : Memory) (run : Z) : Z * Z * Z * Z * Z :=
  let direction := Z.land (Data mem run 0) 0xFF in
  let size := Z.land (Z.shiftr (Data mem run 0) 8) 0xFF in
  let port := Z.land (Z.shiftr (Data mem run 0) 16) 0xFFFF in
  let count := Z.land (Z.shiftr (Data mem run 0) 32) 0xFFFFFFFF in
  let offset := Data mem run 1 in
  (direction, size, port, count, offset).

End kvm.

(** ** The outside world

    [Sys] is everything the Go structures point into: process memory and
    the state [K] of the host kernel and of the device packages. *)

Record Sys (K : Type) := mkSys { memory : Memory; kern : K }.
Arguments mkSys {K} memory kern.
Arguments memory {K} s.
Arguments kern {K} s.

Definition with_memory {K} (f : Memory -> Memory) (s : Sys K) : Sys K :=
  mkSys (f (memory s)) (kern s).

(** The closures stored in [Machine.ioportHandlers], one constructor per
    function literal (or named function) of [machine.go]; none captures a
    variable.  [nilFunc] is the zero value of a Go function variable. *)
Inductive Handler :=
| nilFunc
| funcNone
| funcError
| funcOutbCF9
| funcPS2In
| funcSerialIn
| funcSerialOut
| funcPciConfAddrIn
| funcPciConfAddrOut
| funcPciConfDataIn
| funcPciConfDataOut
| pciInFunc
| pciOutFunc.

(** The call trace: system calls issued by the embedded code, calls of a
    port handler from the dispatch loop, standard output, goroutines. *)
Inductive Event :=
| EvOpen (path : string)
| EvIoctl (fd op : Z) (arg : kvm.ioarg) (errno : Z)
| EvMmap (fd length flags : Z)
| EvCall (h : Handler) (port : Z) (bytes : Slice) (res : option error)
| EvPrintln (text : string)
| EvGo (entry : string).

(** The fields of [bootparam.KernelHeader] that [LoadLinux] reads or
    assigns; the package itself is not part of the sources at hand. *)
Record KernelHeader := mkHdr {
  SetupSects : Z; VidMode : Z; TypeOfLoader : Z; LoadFlags : Z;
  RamdiskImage : Z; RamdiskSize : Z; HeapEndPtr : Z; ExtLoaderVer : Z;
  CmdlinePtr : Z; CmdlineSize : Z }.

(** The operations the embedded code calls but does not define. *)
Class Platform := {
  K : Type;
  (** [syscall.Syscall(SYS_IOCTL, fd, op, arg)]: the result, the errno and
      the pointee of [arg] after the call. *)
  sys_ioctl : Z -> Z -> kvm.ioarg -> Sys K -> (Z * Z * kvm.ioarg) * Sys K;
  (** [os.OpenFile(path, O_RDWR, 0o644)] followed by [Fd()]. *)
  sys_open : string -> Sys K -> (Z * option error) * Sys K;
  (** [syscall.Mmap(fd, 0, length, PROT_READ|PROT_WRITE, flags)]. *)
  sys_mmap : Z -> Z -> Z -> Sys K -> (Slice * option error) * Sys K;
  (** Package [pci]. *)
  PCI : Type;
  Device : Type;
  Devices : PCI -> list Device;
  GetIORange : Device -> Z * Z;
  IOInHandler : Device -> Z -> Slice -> Sys K -> option error * Sys K;
  IOOutHandler : Device -> Z -> Slice -> Sys K -> option error * Sys K;
  PciConfAddrIn : PCI -> Z -> Slice -> Sys K -> option error * Sys K;
  PciConfAddrOut : PCI -> Z -> Slice -> Sys K -> option error * Sys K;
  PciConfDataIn : PCI -> Z -> Slice -> Sys K -> option error * Sys K;
  PciConfDataOut : PCI -> Z -> Slice -> Sys K -> option error * Sys K;
  pci_NewBridge : Device;
  pci_New : list Device -> PCI;
  (** Package [serial]. *)
  Serial : Type;
  serial_New : Sys K -> (option Serial * option error) * Sys K;
  serial_In : Serial -> Z -> Slice -> Sys K -> option error * Sys K;
  serial_Out : Serial -> Z -> Slice -> Sys K -> option error * Sys K;
  (** Packages [tap] and [virtio]. *)
  Tap : Type;
  tap_New : string -> Sys K -> (option Tap * option error) * Sys K;
  virtio_NewNet : Z -> option Tap -> Slice -> Device;
  virtio_NewBlk : string -> Z -> Slice -> Sys K -> (Device * option error) * Sys K;
  (** Package [ebda]: [New(nCpus)] followed by [Bytes()]. *)
  EBDA : Type;
  ebda_New : Z -> EBDA * option error;
  ebda_Bytes : EBDA -> list Z * option error;
  (** Package [bootparam]. *)
  BootParam : Type;
  RealModeIvtBegin : Z;
  VGARAMBegin : Z;
  MBBIOSBegin : Z;
  MBBIOSEnd : Z;
  E820Ram : Z;
  E820Reserved : Z;
  CanUseHeap : Z;
  LoadedHigh : Z;
  KeepSegments : Z;
  (** [io.ReaderAt]: [ReadAt(dst, off)] gives the count and the error. *)
  ReaderAt : Type;
  ReadAt : ReaderAt -> Slice -> Z -> Sys K -> (Z * option error) * Sys K;
  bootparam_New : ReaderAt -> Sys K -> (BootParam * option error) * Sys K;
  AddE820Entry : Z -> Z -> Z -> BootParam -> BootParam;
  get_Hdr : BootParam -> KernelHeader;
  put_Hdr : KernelHeader -> BootParam -> BootParam;
  bootparam_Bytes : BootParam -> list Z * option error
}.

(** ** The effect monad *)

Section Effects.
Context `{Platform}.

Definition M (A : Type) : Type := Sys K -> outcome (A * Sys K * list Event).

Definition ret {A} (a : A) : M A := fun s => Ret (a, s, []).

Definition bind {A B} (c : M A) (k : A -> M B) : M B :=
  fun s =>
    match c s with
    | Panic why => Panic why
    | Ret (a, s1, t1) =>
        match k a s1 with
        | Panic why => Panic why
        | Ret (b, s2, t2) => Ret (b, s2, t1 ++ t2)
        end
    end.

Definition panic {A} (why : string) : M A := fun _ => Panic why.

Definition emit (e : Event) : M unit := fun s => Ret (tt, s, [e]).

(** Run an operation of the platform. *)
Definition ext {A} (f : Sys K -> A * Sys K) : M A :=
  fun s => let (a, s') := f s in Ret (a, s', []).

Definition get_memory : M Memory := fun s => Ret (memory s, s, []).

Definition update_memory (f : Memory -> Memory) : M unit :=
  fun s => Ret (tt, with_memory f s, []).

End Effects.

Notation "x <- c ;; k" := (bind c (fun x => k))
  (at level 100, c at next level, right associativity).
Notation "c ;;; k" := (bind c (fun _ => k))
  (at level 100, right associativity).

Section GoPrimitives.
Context `{Platform}.

(** [xs[i]] on a slice of integers: bounds-checked. *)
Definition index {A} (xs : list A) (i : Z) : M A :=
  if (0 <=? i) then
    match xs !! Z.to_nat i with
    | Some x => ret x
    | None => panic "index out of range"
    end
  else panic "index out of range".

(** [b[i]] and [b[i] = v] on a byte slice. *)
Definition byte_at (b : Slice) (i : Z) : M Z :=
  if (0 <=? i) && (i <? len b) then
    mem <- get_memory ;; ret (load8 mem (ptr b + i))
  else panic "index out of range".

Definition set_byte_at (b : Slice) (i v : Z) : M unit :=
  if (0 <=? i) && (i <? len b) then
    update_memory (fun mem => store8 mem (ptr b + i) v)
  else panic "index out of range".

(** [b[lo:]] *)
Definition slice_from (b : Slice) (lo : Z) : M Slice :=
  if (0 <=? lo) && (lo <=? len b) then
    ret (mkSlice (ptr b + lo) (len b - lo) (cap b - lo))
  else panic "slice bounds out of range".

(** [copy(dst, src)] from a Go value into memory: as many bytes as both
    hold. *)
Definition copy (dst : Slice) (src : list Z) : M unit :=
  update_memory (fun mem => copy_bytes mem (ptr dst) (len dst) src).

(** [for i := lo; i < hi; i++ { body }] over a state [S]; [n] is the
    number of iterations left. *)
Fixpoint for_loop {S} (n : nat) (i : Z) (body : Z -> S -> outcome S) (s : S)
  : outcome S :=
  match n with
  | O => Ret s
  | Datatypes.S k =>
      match body i s with
      | Ret s' => for_loop k (i + 1) body s'
      | Panic why => Panic why
      end
  end.

Definition for_below {S} (lo hi : Z) (body : Z -> S -> outcome S) :=
  for_loop (Z.to_nat (hi - lo)) lo body.

(** [for i := lo; i <= hi; i++ { body }] *)
Definition for_upto {S} (lo hi : Z) (body : Z -> S -> outcome S) :=
  for_loop (Z.to_nat (hi + 1 - lo)) lo body.

End GoPrimitives.

(** ** Package kvm: the ioctl wrappers *)

Section KvmCalls.
Context `{Platform}.

(** [func ioctl(fd, op, arg uintptr) (uintptr, error)]; the pointee of
    [arg] after the call is returned with the result. *)
Definition ioctl (fd op : Z) (arg : kvm.ioarg) : M (Z * kvm.ioarg * option error) :=
  r <- ext (sys_ioctl fd op arg) ;;
  let '(res, errno, out) := r in
  emit (EvIoctl fd op arg errno) ;;;
  if errno =? 0 then ret (res, out, None)
  else ret (res, out, Some (Errno errno)).

Definition GetAPIVersion (kvmFd : Z) : M (Z * option error) :=
  r <- ioctl kvmFd kvm.kvmGetAPIVersion (kvm.ArgInt 0) ;;
  let '(res, _, err) := r in ret (res, err).

Definition CreateVM (kvmFd : Z) : M (Z * option error) :=
  r <- ioctl kvmFd kvm.kvmCreateVM (kvm.ArgInt 0) ;;
  let '(res, _, err) := r in ret (res, err).

Definition CreateVCPU (vmFd : Z) (vcpuID : Z) : M (Z * option error) :=
  r <- ioctl vmFd kvm.kvmCreateVCPU (kvm.ArgInt vcpuID) ;;
  let '(res, _, err) := r in ret (res, err).

(** [func Run(vcpuFd uintptr) error] *)
Definition Run (vcpuFd : Z) : M (option error) :=
  r <- ioctl vcpuFd kvm.kvmRun (kvm.ArgInt 0) ;;
  let '(_, _, err) := r in
  match err with
  | Some e =>
      if errors_Is e (Errno EAGAIN) || errors_Is e (Errno EINTR)
      then ret None
      else ret err
  | None => ret err
  end.

Definition GetVCPUMMmapSize (kvmFd : Z) : M (Z * option error) :=
  r <- ioctl kvmFd kvm.kvmGetVCPUMMapSize (kvm.ArgInt 0) ;;
  let '(res, _, err) := r in ret (res, err).

Definition GetSregs (vcpuFd : Z) : M (kvm.Sregs * option error) :=
  let sregs := kvm.Sregs_zero in
  r <- ioctl vcpuFd kvm.kvmGetSregs (kvm.ArgSregs sregs) ;;
  let '(_, out, err) := r in
  ret (match out with kvm.ArgSregs s => s | _ => sregs end, err).

Definition SetSregs (vcpuFd : Z) (sregs : kvm.Sregs) : M (option error) :=
  r <- ioctl vcpuFd kvm.kvmSetSregs (kvm.ArgSregs sregs) ;;
  let '(_, _, err) := r in ret err.

Definition GetRegs (vcpuFd : Z) : M (kvm.Regs * option error) :=
  let regs := kvm.Regs_zero in
  r <- ioctl vcpuFd kvm.kvmGetRegs (kvm.ArgRegs regs) ;;
  let '(_, out, err) := r in
  ret (match out with kvm.ArgRegs g => g | _ => regs end, err).

Definition SetRegs (vcpuFd : Z) (regs : kvm.Regs) : M (option error) :=
  r <- ioctl vcpuFd kvm.kvmSetRegs (kvm.ArgRegs regs) ;;
  let '(_, _, err) := r in ret err.

Definition SetUserMemoryRegion (vmFd : Z) (region : kvm.UserspaceMemoryRegion)
  : M (option error) :=
  r <- ioctl vmFd kvm.kvmSetUserMemoryRegion (kvm.ArgMemRegion region) ;;
  let '(_, _, err) := r in ret err.

Definition SetTSSAddr (vmFd : Z) : M (option error) :=
  r <- ioctl vmFd kvm.kvmSetTSSAddr (kvm.ArgInt 0xffffd000) ;;
  let '(_, _, err) := r in ret err.

Definition SetIdentityMapAddr (vmFd : Z) : M (option error) :=
  let mapAddr := 0xffffc000 in
  r <- ioctl vmFd kvm.kvmSetIdentityMapAddr (kvm.ArgU64 mapAddr) ;;
  let '(_, _, err) := r in ret err.

(** [func IRQLine(vmFd uintptr, irq, level uint32) error] *)
Definition IRQLine (vmFd : Z) (irq level : Z) : M (option error) :=
  let irqLevel := kvm.mkIRQLevel irq level in
  r <- ioctl vmFd kvm.kvmIRQLine (kvm.ArgIRQLevel irqLevel) ;;
  let '(_, _, err) := r in ret err.

Definition CreateIRQChip (vmFd : Z) : M (option error) :=
  r <- ioctl vmFd kvm.kvmCreateIRQChip (kvm.ArgInt 0) ;;
  let '(_, _, err) := r in ret err.

Definition CreatePIT2 (vmFd : Z) : M (option error) :=
  let pit := kvm.mkPit 0 in
  r <- ioctl vmFd kvm.kvmCreatePIT2 (kvm.ArgPit pit) ;;
  let '(_, _, err) := r in ret err.

(** The caller's [CPUID] is updated in place; it is returned here. *)
Definition GetSupportedCPUID (kvmFd : Z) (kvmCPUID : kvm.CPUID)
  : M (kvm.CPUID * option error) :=
  r <- ioctl kvmFd kvm.kvmGetSupportedCPUID (kvm.ArgCPUID kvmCPUID) ;;
  let '(_, out, err) := r in
  ret (match out with kvm.ArgCPUID c => c | _ => kvmCPUID end, err).

Definition SetCPUID2 (vcpuFd : Z) (kvmCPUID : kvm.CPUID) : M (option error) :=
  r <- ioctl vcpuFd kvm.kvmSetCPUID2 (kvm.ArgCPUID kvmCPUID) ;;
  let '(_, _, err) := r in ret err.

End KvmCalls.

(** ** Package machine *)

Definition memSize : Z := Z.shiftl 1 30.
Definition bootParamAddr : Z := 0x10000.
Definition cmdlineAddr : Z := 0x20000.
Definition kernelAddr : Z := 0x100000.
Definition initrdAddr : Z := 0xf000000.

Definition serialIRQ : Z := 4.
Definition virtioNetIRQ : Z := 10.
Definition virtioBlkIRQ : Z := 9.

Definition errorPCIDeviceNotFoundForPort : error :=
  ErrorString "pci device cannot be found for port".
Definition ErrorWriteToCF9 : error := ErrorString "power cycle via 0xcf9".

Definition io_EOF : error := ErrorString "EOF".

(** [[0x10000][2]func(m *Machine, port uint64, bytes []byte) error]: a
    fixed-size array.  Its size is part of the type, so the array is a
    total map and every indexing carries Go's bounds check against the
    two dimensions. *)
Definition Table := Z -> Z -> Handler.

Definition nPorts : Z := 0x10000.
Definition nDirections : Z := 2.

Definition in_table (port dir : Z) : bool :=
  (0 <=? port) && (port <? nPorts) && (0 <=? dir) && (dir <? nDirections).

Definition table_get (t : Table) (port dir : Z) : outcome Handler :=
  if in_table port dir then Ret (t port dir)
  else Panic "index out of range".

Definition table_set (port dir : Z) (f : Handler) (t : Table) : outcome Table :=
  if in_table port dir then
    Ret (fun p d => if (p =? port) && (d =? dir) then f else t p d)
  else Panic "index out of range".

Section MachineSec.
Context `{Platform}.

Record Machine := mkMachine {
  kvmFd : Z;
  vmFd : Z;
  vcpuFds : list Z;
  mem : Slice;
  runs : list Z;
  pci : option PCI;
  serial : option Serial;
  ioportHandlers : Table }.

(** [&Machine{}] *)
Definition Machine_zero : Machine :=
  mkMachine 0 0 [] nil_slice [] None None (fun _ _ => nilFunc).

Definition set_kvmFd v (m : Machine) :=
  mkMachine v (vmFd m) (vcpuFds m) (mem m) (runs m) (pci m) (serial m)
    (ioportHandlers m).
Definition set_vmFd v (m : Machine) :=
  mkMachine (kvmFd m) v (vcpuFds m) (mem m) (runs m) (pci m) (serial m)
    (ioportHandlers m).
Definition set_vcpuFds v (m : Machine) :=
  mkMachine (kvmFd m) (vmFd m) v (mem m) (runs m) (pci m) (serial m)
    (ioportHandlers m).
Definition set_mem v (m : Machine) :=
  mkMachine (kvmFd m) (vmFd m) (vcpuFds m) v (runs m) (pci m) (serial m)
    (ioportHandlers m).
Definition set_runs v (m : Machine) :=
  mkMachine (kvmFd m) (vmFd m) (vcpuFds m) (mem m) v (pci m) (serial m)
    (ioportHandlers m).
Definition set_pci v (m : Machine) :=
  mkMachine (kvmFd m) (vmFd m) (vcpuFds m) (mem m) (runs m) v (serial m)
    (ioportHandlers m).
Definition set_serial v (m : Machine) :=
  mkMachine (kvmFd m) (vmFd m) (vcpuFds m) (mem m) (runs m) (pci m) v
    (ioportHandlers m).
Definition set_ioportHandlers v (m : Machine) :=
  mkMachine (kvmFd m) (vmFd m) (vcpuFds m) (mem m) (runs m) (pci m)
    (serial m) v.

(** A loop whose body may leave the function with an error:
    [for i := lo; ...; i++ { ...; if err != nil { return ..., err } }]. *)
Fixpoint loop_err {S} (n : nat) (i : Z) (body : Z -> S -> M (S * option error))
  (s : S) : M (S * option error) :=
  match n with
  | O => ret (s, None)
  | Datatypes.S k =>
      r <- body i s ;;
      match snd r with
      | Some e => ret (fst r, Some e)
      | None => loop_err k (i + 1) body (fst r)
      end
  end.

Definition lift {A} (o : outcome A) : M A :=
  match o with
  | Ret a => ret a
  | Panic why => panic why
  end.

(** *** [initRegs], [initSregs], [initCPUID] *)

Definition initRegs (m : Machine) (i : Z) : M (option error) :=
  fd <- index (vcpuFds m) i ;;
  r <- GetRegs fd ;;
  let (regs, err) := r in
  match err with
  | Some e => ret (Some e)
  | None =>
      let regs := kvm.set_RFLAGS 2 regs in
      let regs := kvm.set_RIP kernelAddr regs in
      let regs := kvm.set_RSI bootParamAddr regs in
      fd <- index (vcpuFds m) i ;;
      err <- SetRegs fd regs ;;
      match err with
      | Some e => ret (Some e)
      | None => ret None
      end
  end.

Definition initSregs (m : Machine) (i : Z) : M (option error) :=
  fd <- index (vcpuFds m) i ;;
  r <- GetSregs fd ;;
  let (sregs, err) := r in
  match err with
  | Some e => ret (Some e)
  | None =>
      (* set all segment flat *)
      let sregs := kvm.set_CS (kvm.set_Base_Limit_G 0 0xFFFFFFFF 1 (kvm.CS sregs)) sregs in
      let sregs := kvm.set_DS (kvm.set_Base_Limit_G 0 0xFFFFFFFF 1 (kvm.DS sregs)) sregs in
      let sregs := kvm.set_FS (kvm.set_Base_Limit_G 0 0xFFFFFFFF 1 (kvm.FS sregs)) sregs in
      let sregs := kvm.set_GS (kvm.set_Base_Limit_G 0 0xFFFFFFFF 1 (kvm.GS sregs)) sregs in
      let sregs := kvm.set_ES (kvm.set_Base_Limit_G 0 0xFFFFFFFF 1 (kvm.ES sregs)) sregs in
      let sregs := kvm.set_SS (kvm.set_Base_Limit_G 0 0xFFFFFFFF 1 (kvm.SS sregs)) sregs in
      let sregs := kvm.set_SS (kvm.set_DB 1 (kvm.SS sregs))
                     (kvm.set_CS (kvm.set_DB 1 (kvm.CS sregs)) sregs) in
      (* protected mode *)
      let sregs := kvm.set_CR0 (Z.lor (kvm.CR0 sregs) 1) sregs in
      fd <- index (vcpuFds m) i ;;
      err <- SetSregs fd sregs ;;
      match err with
      | Some e => ret (Some e)
      | None => ret None
      end
  end.

(** The body of the loop of [initCPUID] on entry [i] of the array
    [[100]CPUIDEntry2]. *)
Definition patch_entry (i : Z) (cpuid : kvm.CPUID) : outcome kvm.CPUID :=
  if (0 <=? i) && (i <? 100) then
    let e := default kvm.Entry_zero (kvm.Entries cpuid !! Z.to_nat i) in
    let e' :=
      if kvm.Function e =? kvm.CPUIDFuncPerMon then kvm.set_Eax 0 e
      else if kvm.Function e =? kvm.CPUIDSignature then
        kvm.set_Edx 0x4d (kvm.set_Ecx 0x564b4d56 (kvm.set_Ebx 0x4b4d564b
          (kvm.set_Eax kvm.CPUIDFeatures e)))
      else e in
    Ret (kvm.mkCPUID (kvm.Nent cpuid) (kvm.Padding cpuid)
           (<[Z.to_nat i := e']> (kvm.Entries cpuid)))
  else Panic "index out of range".

Definition initCPUID (m : Machine) (i : Z) : M (option error) :=
  let cpuid := kvm.mkCPUID 100 0 (kvm.Entries kvm.CPUID_zero) in
  r <- GetSupportedCPUID (kvmFd m) cpuid ;;
  let (cpuid, err) := r in
  match err with
  | Some e => ret (Some e)
  | None =>
      cpuid <- lift (for_below 0 (kvm.Nent cpuid) patch_entry cpuid) ;;
      fd <- index (vcpuFds m) i ;;
      err <- SetCPUID2 fd cpuid ;;
      match err with
      | Some e => ret (Some e)
      | None => ret None
      end
  end.

End MachineSec.

(** Modelled from the spec: the constant [serial.COM1Addr], whose package
    is not part of the sources at hand; the spec places COM1 at I/O ports
    0x3F8..0x3FF. *)
Definition COM1Addr : Z := 0x3f8.

(** Modelled from the spec: the constant [bootparam.EBDAStart], whose
    package is not part of the sources at hand; the spec places the EBDA at
    guest physical 0x9FC00. *)
Definition EBDAStart : Z := 0x9FC00.

(** A block of statements over a state that a panic aborts. *)
Fixpoint block {S} (stmts : list (S -> outcome S)) (s : S) : outcome S :=
  match stmts with
  | [] => Ret s
  | stmt :: rest =>
      match stmt s with
      | Ret s' => block rest s'
      | Panic why => Panic why
      end
  end.

Section Router.
Context `{Platform}.

(** *** The port handlers *)

Definition nil_deref {A} : M A := panic "nil pointer dereference".

(** [func pciInFunc(m *Machine, port uint64, bytes []byte) error] *)
Fixpoint pci_scan (io : Device -> Z -> Slice -> Sys K -> option error * Sys K)
  (devs : list Device) (port : Z) (bytes : Slice) : M (option error) :=
  match devs with
  | [] => ret (Some errorPCIDeviceNotFoundForPort)
  | d :: rest =>
      let (start, end_) := GetIORange d in
      if (start <=? port) && (port <? end_) then ext (io d port bytes)
      else pci_scan io rest port bytes
  end.

(** The body of each function stored in the table. *)
Definition apply_handler (f : Handler) (m : Machine) (port : Z) (bytes : Slice)
  : M (option error) :=
  match f with
  | nilFunc => nil_deref
  | funcNone => ret None
  | funcError =>
      ret (Some (Wrapf "%w: unexpected io port 0x%x"
                   kvm.ErrorUnexpectedEXITReason [FInt port]))
  | funcOutbCF9 =>
      b0 <- (if len bytes =? 1 then byte_at bytes 0 else ret 0) ;;
      if (len bytes =? 1) && (b0 =? 0xe) then
        ret (Some (Wrapf "write 0xe to cf9: %w" ErrorWriteToCF9 []))
      else
        mem <- get_memory ;;
        ret (Some (Wrapf "write %#x to cf9: %w" ErrorWriteToCF9
                     [FBytes (slice_bytes mem bytes)]))
  | funcPS2In => set_byte_at bytes 0 0x20 ;;; ret None
  | funcSerialIn =>
      match serial m with
      | Some s => ext (serial_In s port bytes)
      | None => nil_deref
      end
  | funcSerialOut =>
      match serial m with
      | Some s => ext (serial_Out s port bytes)
      | None => nil_deref
      end
  | funcPciConfAddrIn =>
      match pci m with Some p => ext (PciConfAddrIn p port bytes) | None => nil_deref end
  | funcPciConfAddrOut =>
      match pci m with Some p => ext (PciConfAddrOut p port bytes) | None => nil_deref end
  | funcPciConfDataIn =>
      match pci m with Some p => ext (PciConfDataIn p port bytes) | None => nil_deref end
  | funcPciConfDataOut =>
      match pci m with Some p => ext (PciConfDataOut p port bytes) | None => nil_deref end
  | pciInFunc =>
      match pci m with
      | Some p => pci_scan IOInHandler (Devices p) port bytes
      | None => nil_deref
      end
  | pciOutFunc =>
      match pci m with
      | Some p => pci_scan IOOutHandler (Devices p) port bytes
      | None => nil_deref
      end
  end.

(** *** [initIOPortHandlers] *)

(** [for port := start; port < end; port++] of one PCI device. *)
Definition install_device (device : Device) : Table -> outcome Table :=
  let (start, end_) := GetIORange device in
  for_below start end_ (fun port => block [
    table_set port kvm.EXITIOIN pciInFunc;
    table_set port kvm.EXITIOOUT pciOutFunc ]).

Definition init_default : Table -> outcome Table :=
  for_below 0 0x10000 (fun port =>
    for_upto kvm.EXITIOIN kvm.EXITIOOUT (fun dir =>
      table_set port dir funcError)).

Definition init_overrides (devices : list Device) : Table -> outcome Table :=
  block [
    for_upto kvm.EXITIOIN kvm.EXITIOOUT (fun dir => block [
      (* CF9 *)
      table_set 0xcf9 dir funcNone;
      table_set 0xcf9 dir funcOutbCF9;
      (* VGA *)
      for_upto 0x3c0 0x3da (fun port => table_set port dir funcNone);
      for_upto 0x3b4 0x3b5 (fun port => table_set port dir funcNone);
      (* CMOS clock *)
      for_upto 0x70 0x71 (fun port => table_set port dir funcNone);
      (* DMA Page Registers *)
      for_upto 0x80 0x9f (fun port => table_set port dir funcNone);
      (* Serial port 2 *)
      for_upto 0x2f8 0x2ff (fun port => table_set port dir funcNone);
      (* Serial port 3 *)
      for_upto 0x3e8 0x3ef (fun port => table_set port dir funcNone);
      (* Serial port 4 *)
      for_upto 0x2e8 0x2ef (fun port => table_set port dir funcNone);
      (* unknown *)
      for_upto 0xcfe 0xcfe (fun port => table_set port dir funcNone);
      for_upto 0xcfa 0xcfb (fun port => table_set port dir funcNone);
      (* PCI Configuration Space Access Mechanism #2 *)
      for_upto 0xc000 0xcfff (fun port => table_set port dir funcNone) ]);
    (* PS/2 Keyboard *)
    for_upto 0x60 0x6f (fun port => block [
      table_set port kvm.EXITIOIN funcPS2In;
      table_set port kvm.EXITIOOUT funcNone ]);
    (* Serial port 1 *)
    for_below COM1Addr (COM1Addr + 8) (fun port => block [
      table_set port kvm.EXITIOIN funcSerialIn;
      table_set port kvm.EXITIOOUT funcSerialOut ]);
    (* PCI configuration *)
    table_set 0xCF8 kvm.EXITIOIN funcPciConfAddrIn;
    table_set 0xCF8 kvm.EXITIOOUT funcPciConfAddrOut;
    for_below 0xcfc (0xcfc + 4) (fun port => block [
      table_set port kvm.EXITIOIN funcPciConfDataIn;
      table_set port kvm.EXITIOOUT funcPciConfDataOut ]);
    (* PCI devices *)
    block (map install_device devices) ].

(** [func (m *Machine) initIOPortHandlers()]; the receiver after the call
    is returned. *)
Definition initIOPortHandlers (m : Machine) : M Machine :=
  match pci m with
  | None =>
      t <- lift (block [init_default; init_overrides []] (ioportHandlers m)) ;;
      nil_deref
  | Some p =>
      t <- lift (block [init_default; init_overrides (Devices p)]
                   (ioportHandlers m)) ;;
      ret (set_ioportHandlers t m)
  end.

(** *** The run loop *)

(** The call [f(m, port, bytes)] in the dispatch loop, recorded in the
    trace with its result. *)
Definition call (f : Handler) (m : Machine) (port : Z) (bytes : Slice)
  : M (option error) :=
  r <- apply_handler f m port bytes ;;
  emit (EvCall f port bytes r) ;;;
  ret r.

(** The first [size] bytes of the 100-byte array that the source lays
    over address [run + offset]: the slice expression [[0:size]] on a
    pointer to [[100]byte]. *)
Definition io_window (run offset size : Z) : M Slice :=
  if size <=? 100 then
    ret (mkSlice ((run + offset) mod 2 ^ 64) size 100)
  else panic "slice bounds out of range".

(** [func (m *Machine) RunOnce(i int) (bool, error)] *)
Definition RunOnce (m : Machine) (i : Z) : M (bool * option error) :=
  fd <- index (vcpuFds m) i ;;
  err <- Run fd ;;
  run <- index (runs m) i ;;
  mem0 <- get_memory ;;
  let reason := kvm.ExitReason mem0 run in
  if reason =? kvm.EXITHLT then
    emit (EvPrintln "KVM_EXIT_HLT") ;;;
    ret (false, err)
  else if reason =? kvm.EXITIO then
    let '(direction, size, port, count, offset) := kvm.IO mem0 run in
    f <- lift (table_get (ioportHandlers m) port direction) ;;
    bytes <- io_window run offset size ;;
    r <- loop_err (Z.to_nat count) 0
           (fun _ _ => e <- call f m port bytes ;; ret (tt, e)) tt ;;
    match snd r with
    | Some e => ret (false, Some e)
    | None => ret (true, err)
    end
  else if reason =? kvm.EXITUNKNOWN then
    ret (true, err)
  else if reason =? kvm.EXITINTR then
    ret (true, None)
  else
    match err with
    | Some e => ret (false, Some e)
    | None =>
        ret (false, Some (Wrapf "%w: %d" kvm.ErrorUnexpectedEXITReason
                            [FInt reason]))
    end.

(** [func (m *Machine) RunInfiniteLoop(i int) error].  [fuel] bounds the
    number of iterations observed; [None] means the loop is still running
    when the fuel is spent.  Pinning the goroutine to its OS thread has no
    counterpart in a sequential model. *)
Fixpoint RunInfiniteLoop (fuel : nat) (m : Machine) (i : Z)
  : M (option (option error)) :=
  match fuel with
  | O => ret None
  | Datatypes.S k =>
      r <- RunOnce m i ;;
      let (isContinue, err) := r in
      match err with
      | Some e => ret (Some (Some e))
      | None =>
          if negb isContinue then ret (Some None)
          else RunInfiniteLoop k m i
      end
  end.

(** *** Interrupt injection *)

Definition InjectSerialIRQ (m : Machine) : M (option error) :=
  err <- IRQLine (vmFd m) serialIRQ 0 ;;
  match err with
  | Some e => ret (Some e)
  | None =>
      err <- IRQLine (vmFd m) serialIRQ 1 ;;
      match err with
      | Some e => ret (Some e)
      | None => ret None
      end
  end.

Definition InjectVirtioNetIRQ (m : Machine) : M (option error) :=
  err <- IRQLine (vmFd m) virtioNetIRQ 0 ;;
  match err with
  | Some e => ret (Some e)
  | None =>
      err <- IRQLine (vmFd m) virtioNetIRQ 1 ;;
      match err with
      | Some e => ret (Some e)
      | None => ret None
      end
  end.

Definition InjectVirtioBlkIRQ (m : Machine) : M (option error) :=
  err <- IRQLine (vmFd m) virtioBlkIRQ 0 ;;
  match err with
  | Some e => ret (Some e)
  | None =>
      err <- IRQLine (vmFd m) virtioBlkIRQ 1 ;;
      match err with
      | Some e => ret (Some e)
      | None => ret None
      end
  end.

End Router.

Definition bytes_of_string (s : string) : list Z :=
  map (fun c => Z.of_nat (Ascii.nat_of_ascii c)) (list_ascii_of_string s).

Definition MAP_SHARED : Z := 0x1.
Definition MAP_ANONYMOUS : Z := 0x20.

Section BringUp.
Context `{Platform}.

Definition mmap (fd length flags : Z) : M (Slice * option error) :=
  emit (EvMmap fd length flags) ;;;
  ext (sys_mmap fd length flags).

(** One iteration of the per-CPU loop of [New]. *)
Definition new_vcpu (mmapSize : Z) (i : Z) (m : Machine)
  : M (Machine * option error) :=
  (* Create vCPU *)
  r <- CreateVCPU (vmFd m) i ;;
  let (fd, err) := r in
  let m := set_vcpuFds (<[Z.to_nat i := fd]> (vcpuFds m)) m in
  match err with
  | Some e => ret (m, Some e)
  | None =>
      (* init CPUID *)
      err <- initCPUID m i ;;
      match err with
      | Some e => ret (m, Some e)
      | None =>
          (* init kvm_run structure *)
          fd <- index (vcpuFds m) i ;;
          r <- mmap fd mmapSize MAP_SHARED ;;
          let (r, err) := r in
          match err with
          | Some e => ret (m, Some e)
          | None =>
              if 0 <? len r then
                ret (set_runs (<[Z.to_nat i := ptr r]> (runs m)) m, None)
              else panic "index out of range"
          end
      end
  end.

(** [func New(nCpus int, tapIfName string, diskPath string)]: the machine
    pointer ([None] is [nil]) and the error. *)
Definition New (nCpus : Z) (tapIfName diskPath : string)
  : M (option Machine * option error) :=
  let m := Machine_zero in
  emit (EvOpen "/dev/kvm") ;;;
  r <- ext (sys_open "/dev/kvm") ;;
  let (devKVM, err) := r in
  match err with
  | Some e => ret (Some m, Some (Wrapf "/dev/kvm: %w" e []))
  | None =>
  let m := set_kvmFd devKVM m in
  if nCpus <? 0 then panic "makeslice: len out of range" else
  let m := set_vcpuFds (replicate (Z.to_nat nCpus) 0) m in
  let m := set_runs (replicate (Z.to_nat nCpus) 0) m in
  r <- CreateVM (kvmFd m) ;;
  let (fd, err) := r in
  let m := set_vmFd fd m in
  match err with
  | Some e => ret (Some m, Some (Wrapf "CreateVM: %w" e []))
  | None =>
  err <- SetTSSAddr (vmFd m) ;;
  match err with Some e => ret (Some m, Some e) | None =>
  err <- SetIdentityMapAddr (vmFd m) ;;
  match err with Some e => ret (Some m, Some e) | None =>
  err <- CreateIRQChip (vmFd m) ;;
  match err with Some e => ret (Some m, Some e) | None =>
  err <- CreatePIT2 (vmFd m) ;;
  match err with Some e => ret (Some m, Some e) | None =>
  r <- GetVCPUMMmapSize (kvmFd m) ;;
  let (mmapSize, err) := r in
  match err with Some e => ret (Some m, Some e) | None =>
  r <- loop_err (Z.to_nat nCpus) 0 (new_vcpu mmapSize) m ;;
  let (m, err) := r in
  match err with Some e => ret (Some m, Some e) | None =>
  r <- mmap (-1) memSize (Z.lor MAP_SHARED MAP_ANONYMOUS) ;;
  let (memory, err) := r in
  let m := set_mem memory m in
  match err with Some e => ret (Some m, Some e) | None =>
  if negb (0 <? len (mem m)) then panic "index out of range" else
  err <- SetUserMemoryRegion (vmFd m)
           (kvm.mkRegion 0 0 0 (Z.shiftl 1 30) (ptr (mem m))) ;;
  match err with Some e => ret (Some m, Some e) | None =>
  (* Extended BIOS Data Area (EBDA). *)
  let (e, err) := ebda_New nCpus in
  match err with Some e => ret (Some m, Some e) | None =>
  let (bytes, err) := ebda_Bytes e in
  match err with Some e => ret (Some m, Some e) | None =>
  dst <- slice_from (mem m) EBDAStart ;;
  copy dst bytes ;;;
  r <- ext (tap_New tapIfName) ;;
  let (t, err) := r in
  match err with Some e => ret (None, Some e) | None =>
  let virtioNet := virtio_NewNet virtioNetIRQ t (mem m) in
  emit (EvGo "virtioNet.TxThreadEntry") ;;;
  emit (EvGo "virtioNet.RxThreadEntry") ;;;
  r <- ext (virtio_NewBlk diskPath virtioBlkIRQ (mem m)) ;;
  let (virtioBlk, err) := r in
  match err with Some e => ret (None, Some e) | None =>
  emit (EvGo "virtioBlk.IOThreadEntry") ;;;
  let m := set_pci (Some (pci_New [pci_NewBridge; virtioNet; virtioBlk])) m in
  ret (Some m, None)
  end end end end end end end end end end end end end end.

(** The body of the loop over [m.vcpuFds] in [LoadLinux]. *)
Definition init_vcpu (m : Machine) (i : Z) (_ : unit) : M (unit * option error) :=
  err <- initRegs m i ;;
  match err with
  | Some e => ret (tt, Some e)
  | None =>
      err <- initSregs m i ;;
      match err with
      | Some e => ret (tt, Some e)
      | None => ret (tt, None)
      end
  end.

(** [func (m *Machine) LoadLinux(kernel, initrd io.ReaderAt, params string) error];
    the receiver after the call is returned with the error. *)
Definition LoadLinux (m : Machine) (kernel initrd : ReaderAt) (params : string)
  : M (Machine * option error) :=
  (* Load initrd *)
  dst <- slice_from (mem m) initrdAddr ;;
  r <- ext (ReadAt initrd dst 0) ;;
  let (initrdSize, err) := r in
  match (match err with
         | Some e =>
             if (initrdSize =? 0) && negb (errors_Is e io_EOF)
             then Some (Wrapf "initrd: (%v, %w)" e [FInt initrdSize])
             else None
         | None => None
         end) with
  | Some e => ret (m, Some e)
  | None =>
  (* Load kernel command-line parameters *)
  dst <- slice_from (mem m) cmdlineAddr ;;
  copy dst (bytes_of_string params) ;;;
  set_byte_at (mem m) (cmdlineAddr + Z.of_nat (String.length params)) 0 ;;;
  (* Load Boot Param *)
  r <- ext (bootparam_New kernel) ;;
  let (bootParam, err) := r in
  match err with Some e => ret (m, Some e) | None =>
  let bootParam :=
    AddE820Entry RealModeIvtBegin (EBDAStart - RealModeIvtBegin) E820Ram bootParam in
  let bootParam :=
    AddE820Entry EBDAStart (VGARAMBegin - EBDAStart) E820Reserved bootParam in
  let bootParam :=
    AddE820Entry MBBIOSBegin (MBBIOSEnd - MBBIOSBegin) E820Reserved bootParam in
  let bootParam :=
    AddE820Entry kernelAddr (memSize - kernelAddr) E820Ram bootParam in
  let h := get_Hdr bootParam in
  let bootParam :=
    put_Hdr (mkHdr (SetupSects h) 0xFFFF 0xFF
               (Z.lor (LoadFlags h) (Z.lor (Z.lor CanUseHeap LoadedHigh) KeepSegments))
               initrdAddr (initrdSize mod 2 ^ 32) 0xFE00 0 cmdlineAddr
               ((Z.of_nat (String.length params) + 1) mod 2 ^ 32))
      bootParam in
  let (bytes, err) := bootparam_Bytes bootParam in
  match err with Some e => ret (m, Some e) | None =>
  dst <- slice_from (mem m) bootParamAddr ;;
  copy dst bytes ;;;
  (* Load kernel *)
  let offset := ((SetupSects (get_Hdr bootParam) + 1) mod 2 ^ 8) * 512 in
  dst <- slice_from (mem m) kernelAddr ;;
  r <- ext (ReadAt kernel dst offset) ;;
  let (kernSize, err) := r in
  match (match err with
         | Some e =>
             if (kernSize =? 0) && negb (errors_Is e io_EOF)
             then Some (Wrapf "kernel: (%v, %w)" e [FInt kernSize])
             else None
         | None => None
         end) with
  | Some e => ret (m, Some e)
  | None =>
  r <- loop_err (length (vcpuFds m)) 0 (init_vcpu m) tt ;;
  match snd r with Some e => ret (m, Some e) | None =>
  m <- initIOPortHandlers m ;;
  r <- ext serial_New ;;
  let (s, err) := r in
  let m := set_serial s m in
  match err with Some e => ret (m, Some e) | None =>
  ret (m, None)
  end end end end end end.

End BringUp.

(** ** A scripted host

    A concrete [Platform] on which the embedded code runs by computation:
    every ioctl consumes one step of a script that fixes its errno and,
    for [KVM_RUN], what the kernel leaves in the [kvm_run] page.  PCI
    devices are their I/O ranges; every device operation succeeds and
    does nothing. *)

Module Script.

Record Step := mkStep {
  step_errno : Z;
  step_exit : option (Z * Z * Z)   (* ExitReason, Data[0], Data[1] *) }.

Definition ok : Step := mkStep 0 None.
Definition fails (errno : Z) : Step := mkStep errno None.
Definition exits (errno reason data0 data1 : Z) : Step :=
  mkStep errno (Some (reason, data0, data1)).

Fixpoint storeLE (n : nat) (mem : Memory) (a v : Z) : Memory :=
  match n with
  | O => mem
  | Datatypes.S k => storeLE k (store8 mem a v) (a + 1) (v / 256)
  end.

(** Where the scripted kernel maps the [kvm_run] page of every VCPU and
    the guest RAM. *)
Definition run_base : Z := 0x7f0000001000.
Definition ram_base : Z := 0x7e0000000000.

Definition write_exit (x : Z * Z * Z) (mem : Memory) : Memory :=
  let '(reason, data0, data1) := x in
  storeLE 8 (storeLE 8 (storeLE 4 mem (run_base + kvm.off_ExitReason) reason)
                (run_base + kvm.off_Data) data0)
    (run_base + kvm.off_Data + 8) data1.

Definition ioctl_result (op : Z) (arg : kvm.ioarg) : Z :=
  if op =? kvm.kvmGetVCPUMMapSize then 12288
  else if op =? kvm.kvmCreateVM then 4
  else if op =? kvm.kvmCreateVCPU then
    5 + match arg with kvm.ArgInt v => v | _ => 0 end
  else 0.

Definition answer_ioctl (fd op : Z) (arg : kvm.ioarg) (s : Sys (list Step))
  : (Z * Z * kvm.ioarg) * Sys (list Step) :=
  match kern s with
  | [] => ((ioctl_result op arg, 0, arg), s)
  | st :: rest =>
      let mem' :=
        match step_exit st with
        | Some x => if op =? kvm.kvmRun then write_exit x (memory s) else memory s
        | None => memory s
        end in
      ((if step_errno st =? 0 then ioctl_result op arg else -1,
        step_errno st, arg), mkSys mem' rest)
  end.

Definition answer_mmap (fd length flags : Z) (s : Sys (list Step))
  : (Slice * option error) * Sys (list Step) :=
  ((mkSlice (if fd =? -1 then ram_base else run_base) length length, None), s).

Definition quiet {A} (_ : A) (_ : Z) (_ : Slice) (s : Sys (list Step))
  : option error * Sys (list Step) := (None, s).

#[local] Instance host : Platform := {|
  K := list Step;
  sys_ioctl := answer_ioctl;
  sys_open := fun _ s => ((3, None), s);
  sys_mmap := answer_mmap;
  PCI := list (Z * Z);
  Device := Z * Z;
  Devices := fun p => p;
  GetIORange := fun d => d;
  IOInHandler := quiet;
  IOOutHandler := quiet;
  PciConfAddrIn := quiet;
  PciConfAddrOut := quiet;
  PciConfDataIn := quiet;
  PciConfDataOut := quiet;
  pci_NewBridge := (0, 0);
  pci_New := fun ds => ds;
  Serial := unit;
  serial_New := fun s => ((Some tt, None), s);
  serial_In := quiet;
  serial_Out := quiet;
  Tap := unit;
  tap_New := fun _ s => ((Some tt, None), s);
  virtio_NewNet := fun _ _ _ => (0x6200, 0x6300);
  virtio_NewBlk := fun _ _ _ s => (((0x6300, 0x6400), None), s);
  EBDA := unit;
  ebda_New := fun _ => (tt, None);
  ebda_Bytes := fun _ => ([], None);
  BootParam := KernelHeader;
  RealModeIvtBegin := 0;
  VGARAMBegin := 0xa0000;
  MBBIOSBegin := 0xf0000;
  MBBIOSEnd := 0xfffff;
  E820Ram := 1;
  E820Reserved := 2;
  CanUseHeap := 0x80;
  LoadedHigh := 0x1;
  KeepSegments := 0x40;
  ReaderAt := unit;
  ReadAt := fun _ _ _ s => ((0, Some io_EOF), s);
  bootparam_New := fun _ s => ((mkHdr 0 0 0 0 0 0 0 0 0 0, None), s);
  AddE820Entry := fun _ _ _ b => b;
  get_Hdr := fun b => b;
  put_Hdr := fun h _ => h;
  bootparam_Bytes := fun _ => ([], None)
|}.

(** A machine as [New] leaves it for one VCPU, with the router installed
    by [initIOPortHandlers] and the serial port attached. *)
Definition pci_three : list (Z * Z) := [(0, 0); (0x6200, 0x6300); (0x6300, 0x6400)].

Definition machine0 : Machine :=
  mkMachine 3 4 [5] (mkSlice ram_base memSize memSize) [run_base]
    (Some pci_three) None (fun _ _ => nilFunc).

Definition world (script : list Step) : Sys (list Step) :=
  mkSys (fun _ => 0) script.

(** Pack the fields of an I/O exit as the kernel does in [Data[0]]. *)
Definition io_word (direction size port count : Z) : Z :=
  direction + size * 2 ^ 8 + port * 2 ^ 16 + count * 2 ^ 32.

End Script.

(** * Verification *)

(** ** The router table

    A statement over the table is summarised by its write map: the slots
    it assigns and the handler each one holds afterwards. *)

Definition WriteMap := Z -> Z -> option Handler.

Definition no_write : WriteMap := fun _ _ => None.

Definition over (later earlier : WriteMap) : WriteMap :=
  fun p d => match later p d with Some f => Some f | None => earlier p d end.

Definition at_port (port : Z) (V : Z -> option Handler) : WriteMap :=
  fun p d => if p =? port then V d else None.

Definition in_range (lo hi : Z) (V : Z -> option Handler) : WriteMap :=
  fun p d => if (lo <=? p) && (p <? hi) then V d else None.

Definition one_dir (dir : Z) (f : Handler) : Z -> option Handler :=
  fun d => if d =? dir then Some f else None.

Definition both_dirs (f g : Handler) : Z -> option Handler :=
  fun d => if d =? kvm.EXITIOIN then Some f
           else if d =? kvm.EXITIOOUT then Some g else None.

Lemma in_range_empty lo hi V p d :
  hi <= lo -> in_range lo hi V p d = None.
Proof.
  intros Hle. unfold in_range.
  destruct (Z.leb_spec lo p), (Z.ltb_spec p hi); simpl; try reflexivity; lia.
Qed.

(** What the table holds if the statement returns. *)
Definition writes_if (c : Table -> outcome Table) (W : WriteMap) : Prop :=
  forall t t',
    c t = Ret t' ->
    forall p d, t' p d = match W p d with Some f => f | None => t p d end.

Definition returns (c : Table -> outcome Table) : Prop :=
  forall t, exists t', c t = Ret t'.

Lemma writes_if_ext c W W' :
  writes_if c W -> (forall p d, W p d = W' p d) -> writes_if c W'.
Proof. intros Hc HW t t' E p d. rewrite <- HW. exact (Hc t t' E p d). Qed.

Lemma writes_if_set port dir f :
  writes_if (table_set port dir f) (at_port port (one_dir dir f)).
Proof.
  intros t t'. unfold table_set.
  destruct (in_table port dir); [|discriminate].
  intros [= <-] p d. unfold at_port, one_dir.
  destruct (p =? port); destruct (d =? dir); reflexivity.
Qed.

Lemma returns_set port dir f :
  in_table port dir = true -> returns (table_set port dir f).
Proof. intros Hin t. unfold table_set. rewrite Hin. eauto. Qed.

Lemma writes_if_nil : writes_if (block []) no_write.
Proof. intros t t' [= <-] p d. reflexivity. Qed.

Lemma writes_if_cons c cs W Ws :
  writes_if c W -> writes_if (block cs) Ws ->
  writes_if (block (c :: cs)) (over Ws W).
Proof.
  intros Hc Hcs t t'. simpl. destruct (c t) as [t1|] eqn:E1; [|discriminate].
  intros E2 p d. rewrite (Hcs t1 t' E2), (Hc t t1 E1). unfold over.
  destruct (Ws p d); reflexivity.
Qed.

Lemma returns_cons c cs :
  returns c -> returns (block cs) -> returns (block (c :: cs)).
Proof.
  intros Hc Hcs t. destruct (Hc t) as (t1 & E1).
  destruct (Hcs t1) as (t2 & E2). exists t2. simpl. rewrite E1. exact E2.
Qed.

Lemma returns_nil : returns (@block Table []).
Proof. intros t. exists t. reflexivity. Qed.

Lemma in_range_step lo n V p d :
  over (in_range (lo + 1) (lo + 1 + Z.of_nat n) V) (at_port lo V) p d
  = in_range lo (lo + Z.of_nat (Datatypes.S n)) V p d.
Proof.
  unfold over, in_range, at_port.
  destruct (Z.eqb_spec p lo) as [E|Hne];
    destruct (Z.leb_spec (lo + 1) p), (Z.leb_spec lo p),
      (Z.ltb_spec p (lo + 1 + Z.of_nat n)),
      (Z.ltb_spec p (lo + Z.of_nat (Datatypes.S n)));
    simpl; try lia; try reflexivity; destruct (V d); reflexivity.
Qed.

Lemma writes_if_ports n : forall lo body V,
  (forall port, writes_if (body port) (at_port port V)) ->
  writes_if (for_loop n lo body) (in_range lo (lo + Z.of_nat n) V).
Proof.
  induction n as [|n IH]; intros lo body V Hbody t t'.
  - simpl. intros [= <-] p d. rewrite in_range_empty by lia. reflexivity.
  - simpl. destruct (body lo t) as [t1|] eqn:E1; [|discriminate].
    intros E2 p d. rewrite <- in_range_step. unfold over.
    rewrite (IH (lo + 1) body V Hbody t1 t' E2),
      (Hbody lo t t1 E1). destruct (in_range _ _ V p d); reflexivity.
Qed.

Lemma writes_if_below lo hi body V :
  (forall port, writes_if (body port) (at_port port V)) ->
  writes_if (for_below lo hi body) (in_range lo hi V).
Proof.
  intros Hbody. unfold for_below. eapply writes_if_ext.
  - apply writes_if_ports, Hbody.
  - intros p d. destruct (Z_lt_le_dec lo hi).
    + replace (lo + Z.of_nat (Z.to_nat (hi - lo))) with hi by lia. reflexivity.
    + rewrite !in_range_empty by lia. reflexivity.
Qed.

Lemma returns_ports n : forall lo (body : Z -> Table -> outcome Table),
  (forall port, lo <= port < lo + Z.of_nat n -> returns (body port)) ->
  returns (for_loop n lo body).
Proof.
  induction n as [|n IH]; intros lo body Hbody t.
  - exists t. reflexivity.
  - destruct (Hbody lo ltac:(lia) t) as (t1 & E1).
    destruct (IH (lo + 1) body ltac:(intros; apply Hbody; lia) t1) as (t2 & E2).
    exists t2. simpl. rewrite E1. exact E2.
Qed.

Lemma writes_if_upto lo hi body V :
  (forall port, writes_if (body port) (at_port port V)) ->
  writes_if (for_upto lo hi body) (in_range lo (hi + 1) V).
Proof. intros Hbody. exact (writes_if_below lo (hi + 1) body V Hbody). Qed.

Lemma returns_below lo hi (body : Z -> Table -> outcome Table) :
  (forall port, lo <= port < hi -> returns (body port)) ->
  returns (for_below lo hi body).
Proof.
  intros Hbody. unfold for_below. apply returns_ports.
  intros port Hp. apply Hbody. lia.
Qed.

Lemma returns_upto lo hi (body : Z -> Table -> outcome Table) :
  (forall port, lo <= port <= hi -> returns (body port)) ->
  returns (for_upto lo hi body).
Proof.
  intros Hbody. unfold for_upto. apply returns_ports.
  intros port Hp. apply Hbody. lia.
Qed.

Lemma writes_if_pair port f g :
  writes_if (block [table_set port kvm.EXITIOIN f; table_set port kvm.EXITIOOUT g])
    (at_port port (both_dirs f g)).
Proof.
  eapply writes_if_ext.
  - apply writes_if_cons; [apply writes_if_set|].
    apply writes_if_cons; [apply writes_if_set|]. apply writes_if_nil.
  - intros p d. unfold over, no_write, at_port, one_dir, both_dirs.
    destruct (p =? port); [|reflexivity].
    unfold kvm.EXITIOIN, kvm.EXITIOOUT.
    destruct (Z.eqb_spec d 1), (Z.eqb_spec d 0); try reflexivity; lia.
Qed.

Lemma returns_pair port f g :
  0 <= port < nPorts ->
  returns (block [table_set port kvm.EXITIOIN f; table_set port kvm.EXITIOOUT g]).
Proof.
  intros Hp.
  assert (Hlo : (0 <=? port) = true) by (apply Z.leb_le; lia).
  assert (Hhi : (port <? nPorts) = true) by (apply Z.ltb_lt; lia).
  repeat apply returns_cons; try apply returns_nil;
    apply returns_set; unfold in_table; rewrite Hlo, Hhi; reflexivity.
Qed.

(** The write map of a block: later statements win. *)
Fixpoint overs (Ws : list WriteMap) : WriteMap :=
  match Ws with
  | [] => no_write
  | W :: rest => over (overs rest) W
  end.

Lemma writes_if_block cs Ws :
  Forall2 writes_if cs Ws -> writes_if (block cs) (overs Ws).
Proof.
  induction 1 as [|c W cs Ws Hc _ IH]; simpl.
  - apply writes_if_nil.
  - apply writes_if_cons; assumption.
Qed.

Lemma returns_block (cs : list (Table -> outcome Table)) :
  Forall returns cs -> returns (block cs).
Proof.
  induction 1 as [|c cs Hc _ IH]; [apply returns_nil | apply returns_cons; assumption].
Qed.

(** The loop over the two directions. *)
Lemma writes_if_dirs body W0 W1 :
  writes_if (body kvm.EXITIOIN) W0 -> writes_if (body kvm.EXITIOOUT) W1 ->
  writes_if (for_upto kvm.EXITIOIN kvm.EXITIOOUT body) (over W1 W0).
Proof.
  intros H0 H1 t t'. unfold for_upto.
  change (Z.to_nat (kvm.EXITIOOUT + 1 - kvm.EXITIOIN)) with 2%nat. simpl.
  destruct (body kvm.EXITIOIN t) as [t0|] eqn:E0; [|discriminate].
  change (kvm.EXITIOIN + 1) with kvm.EXITIOOUT.
  destruct (body kvm.EXITIOOUT t0) as [t1|] eqn:E1; [|discriminate].
  intros [= <-] p d. rewrite (H1 t0 t1 E1), (H0 t t0 E0). unfold over.
  destruct (W1 p d); reflexivity.
Qed.

Lemma returns_dirs (body : Z -> Table -> outcome Table) :
  returns (body kvm.EXITIOIN) -> returns (body kvm.EXITIOOUT) ->
  returns (for_upto kvm.EXITIOIN kvm.EXITIOOUT body).
Proof.
  intros H0 H1. apply returns_upto. intros port Hp.
  assert (port = kvm.EXITIOIN \/ port = kvm.EXITIOOUT) as [-> | ->]
    by (unfold kvm.EXITIOIN, kvm.EXITIOOUT in *; lia); assumption.
Qed.

(** *** The write map of [initIOPortHandlers] *)

Definition default_writes : WriteMap :=
  in_range 0 0x10000 (both_dirs funcError funcError).

Definition dir_writes (dir : Z) : list WriteMap := [
  at_port 0xcf9 (one_dir dir funcNone);
  at_port 0xcf9 (one_dir dir funcOutbCF9);
  in_range 0x3c0 (0x3da + 1) (one_dir dir funcNone);
  in_range 0x3b4 (0x3b5 + 1) (one_dir dir funcNone);
  in_range 0x70 (0x71 + 1) (one_dir dir funcNone);
  in_range 0x80 (0x9f + 1) (one_dir dir funcNone);
  in_range 0x2f8 (0x2ff + 1) (one_dir dir funcNone);
  in_range 0x3e8 (0x3ef + 1) (one_dir dir funcNone);
  in_range 0x2e8 (0x2ef + 1) (one_dir dir funcNone);
  in_range 0xcfe (0xcfe + 1) (one_dir dir funcNone);
  in_range 0xcfa (0xcfb + 1) (one_dir dir funcNone);
  in_range 0xc000 (0xcfff + 1) (one_dir dir funcNone) ].

Definition legacy_writes : list WriteMap := [
  over (overs (dir_writes kvm.EXITIOOUT)) (overs (dir_writes kvm.EXITIOIN));
  in_range 0x60 (0x6f + 1) (both_dirs funcPS2In funcNone);
  in_range COM1Addr (COM1Addr + 8) (both_dirs funcSerialIn funcSerialOut);
  at_port 0xCF8 (one_dir kvm.EXITIOIN funcPciConfAddrIn);
  at_port 0xCF8 (one_dir kvm.EXITIOOUT funcPciConfAddrOut);
  in_range 0xcfc (0xcfc + 4) (both_dirs funcPciConfDataIn funcPciConfDataOut) ].

(** Everything but the PCI devices. *)
Definition fixed_writes : WriteMap := over (overs legacy_writes) default_writes.

Lemma init_default_writes : writes_if init_default default_writes.
Proof.
  unfold init_default, default_writes. apply writes_if_below. intros port.
  eapply writes_if_ext.
  - apply writes_if_dirs; apply writes_if_set.
  - intros p d. unfold over, at_port, one_dir, both_dirs.
    destruct (p =? port); [|reflexivity].
    unfold kvm.EXITIOIN, kvm.EXITIOOUT.
    destruct (Z.eqb_spec d 1), (Z.eqb_spec d 0); try reflexivity; lia.
Qed.

Lemma init_default_returns : returns init_default.
Proof.
  unfold init_default. apply returns_below. intros port Hp.
  assert (Hlo : (0 <=? port) = true) by (apply Z.leb_le; lia).
  assert (Hhi : (port <? nPorts) = true) by (apply Z.ltb_lt; unfold nPorts; lia).
  apply returns_dirs; apply returns_set; unfold in_table; rewrite Hlo, Hhi;
    reflexivity.
Qed.

Lemma in_table_intro port dir :
  0 <= port < nPorts -> 0 <= dir < nDirections -> in_table port dir = true.
Proof.
  intros Hp Hd. unfold in_table.
  rewrite (proj2 (Z.leb_le 0 port)), (proj2 (Z.ltb_lt port nPorts)),
    (proj2 (Z.leb_le 0 dir)), (proj2 (Z.ltb_lt dir nDirections)) by lia.
  reflexivity.
Qed.

Lemma in_table_elim port dir :
  in_table port dir = true -> 0 <= port < nPorts /\ 0 <= dir < nDirections.
Proof.
  unfold in_table. rewrite !andb_true_iff, !Z.leb_le, !Z.ltb_lt. lia.
Qed.

Lemma overs_snoc Ws W p d :
  overs (Ws ++ [W]) p d
  = match W p d with Some f => Some f | None => overs Ws p d end.
Proof.
  induction Ws as [|W0 Ws IH]; simpl; unfold over.
  - unfold no_write. destruct (W p d); reflexivity.
  - fold (overs (Ws ++ [W])). rewrite IH. destruct (W p d); reflexivity.
Qed.

#[global] Instance Handler_eq_dec : EqDecision Handler.
Proof. solve_decision. Defined.

(** *** The routing table in closed form *)

Definition between (lo hi p : Z) : bool := (lo <=? p) && (p <=? hi).

(** Ports answered by the handler that does nothing. *)
Definition noop_port (p : Z) : bool :=
  between 0x70 0x71 p || between 0x80 0x9f p || between 0x2e8 0x2ef p
  || between 0x2f8 0x2ff p || between 0x3b4 0x3b5 p || between 0x3c0 0x3da p
  || between 0x3e8 0x3ef p || between 0xcfa 0xcfb p || between 0xc000 0xcfff p.

(** Ports on which [initIOPortHandlers] installs a handler of its own,
    PCI device ranges apart. *)
Definition legacy_port (p : Z) : bool :=
  between 0x60 0x6f p || noop_port p || between 0x3f8 0x3ff p
  || between 0xcf8 0xcf9 p || between 0xcfc 0xcff p.

Definition by_dir (d : Z) (f g : Handler) : Handler :=
  if d =? kvm.EXITIOIN then f else g.

Definition fixed_route (p d : Z) : Handler :=
  if between 0xcfc 0xcff p then by_dir d funcPciConfDataIn funcPciConfDataOut
  else if p =? 0xcf8 then by_dir d funcPciConfAddrIn funcPciConfAddrOut
  else if p =? 0xcf9 then funcOutbCF9
  else if between 0x3f8 0x3ff p then by_dir d funcSerialIn funcSerialOut
  else if between 0x60 0x6f p then by_dir d funcPS2In funcNone
  else if noop_port p then funcNone
  else funcError.

(** The integers [lo], [lo + 1], ..., [n] of them. *)
Fixpoint count_from (n : nat) (lo : Z) : list Z :=
  match n with
  | O => []
  | Datatypes.S k => lo :: count_from k (lo + 1)
  end.

Lemma In_count_from n : forall lo p,
  lo <= p < lo + Z.of_nat n -> In p (count_from n lo).
Proof.
  induction n as [|n IH]; intros lo p Hp; [lia|].
  simpl. destruct (Z.eq_dec lo p); [left; assumption|].
  right. apply IH. lia.
Qed.

Definition all_slots (P : Z -> Z -> bool) : bool :=
  forallb (fun p => P p kvm.EXITIOIN && P p kvm.EXITIOOUT)
    (count_from (Z.to_nat nPorts) 0).

Lemma all_slots_spec P :
  all_slots P = true ->
  forall p d, in_table p d = true -> P p d = true.
Proof.
  unfold all_slots. rewrite forallb_forall. intros Hall p d Hin.
  apply in_table_elim in Hin. destruct Hin as [Hp Hd].
  assert (Hmem : In p (count_from (Z.to_nat nPorts) 0)).
  { apply In_count_from. unfold nPorts in *. lia. }
  specialize (Hall p Hmem). apply andb_true_iff in Hall.
  unfold nDirections in Hd.
  assert (d = kvm.EXITIOIN \/ d = kvm.EXITIOOUT) as [-> | ->]
    by (unfold kvm.EXITIOIN, kvm.EXITIOOUT; lia); tauto.
Qed.

(** The write map of the source and the closed form agree on all 131072
    slots: checked slot by slot. *)
Lemma fixed_writes_checked :
  all_slots (fun p d => bool_decide (fixed_writes p d = Some (fixed_route p d)))
  = true.
Proof. vm_compute. reflexivity. Qed.

Lemma fixed_writes_route p d :
  in_table p d = true -> fixed_writes p d = Some (fixed_route p d).
Proof.
  intros Hin.
  pose proof (all_slots_spec _ fixed_writes_checked p d Hin) as Hc.
  apply bool_decide_eq_true in Hc. exact Hc.
Qed.

Lemma fixed_route_checked :
  all_slots (fun p d => Bool.eqb (bool_decide (fixed_route p d = funcError))
                          (negb (legacy_port p)))
  = true.
Proof. vm_compute. reflexivity. Qed.

Lemma fixed_route_default p d :
  in_table p d = true ->
  (fixed_route p d = funcError <-> legacy_port p = false).
Proof.
  intros Hin. pose proof (all_slots_spec _ fixed_route_checked p d Hin) as Hc.
  apply Bool.eqb_prop in Hc.
  destruct (legacy_port p); simpl in Hc.
  - split; [|discriminate]. intros E.
    pose proof (bool_decide_eq_true_2 _ E) as E'. rewrite E' in Hc. discriminate.
  - split; [reflexivity|]. intros _. apply bool_decide_eq_true in Hc. exact Hc.
Qed.

Section RouterFacts.
Context `{Platform}.

Definition in_device (p : Z) (dev : Device) : bool :=
  (fst (GetIORange dev) <=? p) && (p <? snd (GetIORange dev)).

(** [p] lies in the I/O range of one of the PCI devices. *)
Definition device_port (devs : list Device) (p : Z) : bool :=
  existsb (in_device p) devs.

(** A device whose I/O range, if not empty, lies in the port space. *)
Definition device_ok (dev : Device) : Prop :=
  fst (GetIORange dev) < snd (GetIORange dev) ->
  0 <= fst (GetIORange dev) /\ snd (GetIORange dev) <= nPorts.

Definition device_writes (devs : list Device) : WriteMap :=
  overs (map (fun dev =>
                in_range (fst (GetIORange dev)) (snd (GetIORange dev))
                  (both_dirs pciInFunc pciOutFunc)) devs).

(** The table after [initIOPortHandlers], slot by slot. *)
Definition route (devs : list Device) (p d : Z) : Handler :=
  if device_port devs p then by_dir d pciInFunc pciOutFunc
  else fixed_route p d.

Lemma install_device_writes dev :
  writes_if (install_device dev)
    (in_range (fst (GetIORange dev)) (snd (GetIORange dev))
       (both_dirs pciInFunc pciOutFunc)).
Proof.
  unfold install_device. destruct (GetIORange dev) as [start end_]. simpl.
  apply writes_if_below. intros port. apply writes_if_pair.
Qed.

Lemma install_device_returns dev :
  device_ok dev -> returns (install_device dev).
Proof.
  unfold device_ok, install_device.
  destruct (GetIORange dev) as [start end_]. simpl. intros Hok.
  apply returns_below. intros port Hp. apply returns_pair. lia.
Qed.

Lemma devices_writes devs :
  writes_if (block (map install_device devs)) (device_writes devs).
Proof.
  unfold device_writes. apply writes_if_block.
  induction devs as [|dev devs IH]; simpl; constructor;
    [apply install_device_writes | exact IH].
Qed.

Lemma devices_returns devs :
  Forall device_ok devs -> returns (block (map install_device devs)).
Proof.
  intros Hok. apply returns_block.
  induction Hok as [|dev devs Hd _ IH]; simpl; constructor;
    [apply install_device_returns; exact Hd | exact IH].
Qed.

Lemma device_writes_spec devs p d :
  device_writes devs p d
  = if device_port devs p then both_dirs pciInFunc pciOutFunc d else None.
Proof.
  unfold device_writes, device_port.
  induction devs as [|dev devs IH]; simpl; [reflexivity|].
  unfold over. rewrite IH. unfold in_range, in_device.
  destruct (existsb _ devs);
    destruct ((fst (GetIORange dev) <=? p) && (p <? snd (GetIORange dev)));
    simpl; try reflexivity;
    destruct (both_dirs pciInFunc pciOutFunc d); reflexivity.
Qed.

Lemma dir_block_writes dir :
  writes_if (block [
      table_set 0xcf9 dir funcNone;
      table_set 0xcf9 dir funcOutbCF9;
      for_upto 0x3c0 0x3da (fun port => table_set port dir funcNone);
      for_upto 0x3b4 0x3b5 (fun port => table_set port dir funcNone);
      for_upto 0x70 0x71 (fun port => table_set port dir funcNone);
      for_upto 0x80 0x9f (fun port => table_set port dir funcNone);
      for_upto 0x2f8 0x2ff (fun port => table_set port dir funcNone);
      for_upto 0x3e8 0x3ef (fun port => table_set port dir funcNone);
      for_upto 0x2e8 0x2ef (fun port => table_set port dir funcNone);
      for_upto 0xcfe 0xcfe (fun port => table_set port dir funcNone);
      for_upto 0xcfa 0xcfb (fun port => table_set port dir funcNone);
      for_upto 0xc000 0xcfff (fun port => table_set port dir funcNone) ])
    (overs (dir_writes dir)).
Proof.
  apply writes_if_block. unfold dir_writes.
  repeat constructor;
    first [ apply writes_if_set
          | apply writes_if_upto; intros port; apply writes_if_set ].
Qed.

Lemma dir_block_returns dir :
  0 <= dir < nDirections ->
  returns (block [
      table_set 0xcf9 dir funcNone;
      table_set 0xcf9 dir funcOutbCF9;
      for_upto 0x3c0 0x3da (fun port => table_set port dir funcNone);
      for_upto 0x3b4 0x3b5 (fun port => table_set port dir funcNone);
      for_upto 0x70 0x71 (fun port => table_set port dir funcNone);
      for_upto 0x80 0x9f (fun port => table_set port dir funcNone);
      for_upto 0x2f8 0x2ff (fun port => table_set port dir funcNone);
      for_upto 0x3e8 0x3ef (fun port => table_set port dir funcNone);
      for_upto 0x2e8 0x2ef (fun port => table_set port dir funcNone);
      for_upto 0xcfe 0xcfe (fun port => table_set port dir funcNone);
      for_upto 0xcfa 0xcfb (fun port => table_set port dir funcNone);
      for_upto 0xc000 0xcfff (fun port => table_set port dir funcNone) ]).
Proof.
  intros Hd. apply returns_block.
  repeat constructor;
    first [ apply returns_set; apply in_table_intro; [unfold nPorts; lia | exact Hd]
          | apply returns_upto; intros port Hp; apply returns_set;
            apply in_table_intro; [unfold nPorts; lia | exact Hd] ].
Qed.

Lemma init_overrides_writes devs :
  writes_if (init_overrides devs) (overs (legacy_writes ++ [device_writes devs])).
Proof.
  unfold init_overrides. apply writes_if_block. unfold legacy_writes.
  cbn [app].
  repeat constructor.
  - apply writes_if_dirs; apply dir_block_writes.
  - apply writes_if_upto. intros port. apply writes_if_pair.
  - apply writes_if_below. intros port. apply writes_if_pair.
  - apply writes_if_set.
  - apply writes_if_set.
  - apply writes_if_below. intros port. apply writes_if_pair.
  - apply devices_writes.
Qed.

Lemma init_overrides_returns devs :
  Forall device_ok devs -> returns (init_overrides devs).
Proof.
  intros Hok. unfold init_overrides. apply returns_block.
  repeat constructor.
  - apply returns_dirs; apply dir_block_returns;
      unfold nDirections, kvm.EXITIOIN, kvm.EXITIOOUT; lia.
  - apply returns_upto. intros port Hp. apply returns_pair. unfold nPorts. lia.
  - apply returns_below. intros port Hp. apply returns_pair.
    unfold nPorts, COM1Addr in *. lia.
  - apply returns_set. reflexivity.
  - apply returns_set. reflexivity.
  - apply returns_below. intros port Hp. apply returns_pair. unfold nPorts. lia.
  - apply devices_returns. exact Hok.
Qed.

(** The table that the statements of [initIOPortHandlers] leave is
    [route], whatever it held before. *)
Lemma init_table_route devs t t' :
  block [init_default; init_overrides devs] t = Ret t' ->
  forall p d, in_table p d = true -> t' p d = route devs p d.
Proof.
  intros E p d Hin.
  assert (Hw : writes_if (block [init_default; init_overrides devs])
                 (overs [default_writes; overs (legacy_writes ++ [device_writes devs])])).
  { apply writes_if_block.
    repeat constructor;
      [apply init_default_writes | apply init_overrides_writes]. }
  rewrite (Hw t t' E p d). unfold route.
  change (overs [default_writes; overs (legacy_writes ++ [device_writes devs])] p d)
    with (match overs (legacy_writes ++ [device_writes devs]) p d with
          | Some f => Some f
          | None => default_writes p d
          end).
  rewrite overs_snoc, device_writes_spec.
  pose proof (fixed_writes_route p d Hin) as Hfix.
  unfold fixed_writes, over in Hfix.
  apply in_table_elim in Hin. destruct Hin as [_ Hd]. unfold nDirections in Hd.
  destruct (device_port devs p).
  - unfold both_dirs, by_dir, kvm.EXITIOIN, kvm.EXITIOOUT.
    destruct (Z.eqb_spec d 0); [reflexivity|].
    destruct (Z.eqb_spec d 1); [reflexivity|lia].
  - destruct (overs legacy_writes p d); cbv beta iota;
      [injection Hfix as ->; reflexivity | rewrite Hfix; reflexivity].
Qed.

Lemma init_table_returns devs t :
  Forall device_ok devs ->
  exists t', block [init_default; init_overrides devs] t = Ret t'.
Proof.
  intros Hok. apply returns_block.
  repeat constructor;
    [apply init_default_returns | apply init_overrides_returns; exact Hok].
Qed.

End RouterFacts.

(** ** The run loop *)

Section RunLoopFacts.
Context `{Platform}.

(** An outcome with events put in front of its trace. *)
Definition after {A} (evs : list Event) (o : outcome (A * Sys K * list Event))
  : outcome (A * Sys K * list Event) :=
  match o with
  | Ret (a, s, t) => Ret (a, s, evs ++ t)
  | Panic why => Panic why
  end.

(** What [Run] makes of the errno of the ioctl. *)
Definition Run_result (errno : Z) : option error :=
  if errno =? 0 then None
  else if (errno =? EAGAIN) || (errno =? EINTR) then None
  else Some (Errno errno).

Definition ran (fd errno : Z) : Event :=
  EvIoctl fd kvm.kvmRun (kvm.ArgInt 0) errno.

Lemma Run_eq fd s res errno out s1 :
  sys_ioctl fd kvm.kvmRun (kvm.ArgInt 0) s = ((res, errno, out), s1) ->
  Run fd s = Ret (Run_result errno, s1, [ran fd errno]).
Proof.
  intros E. unfold Run, ioctl, bind, ext, emit, ret, Run_result, ran.
  rewrite E. simpl.
  destruct (errno =? 0); simpl; [reflexivity|].
  rewrite !orb_false_r.
  destruct ((errno =? EAGAIN) || (errno =? EINTR)); reflexivity.
Qed.

(** The [switch] of [RunOnce], entered with the error of [Run] and the
    address of the [kvm_run] page. *)
Definition dispatch (m : Machine) (run : Z) (err : option error)
  : M (bool * option error) :=
  mem0 <- get_memory ;;
  let reason := kvm.ExitReason mem0 run in
  if reason =? kvm.EXITHLT then
    emit (EvPrintln "KVM_EXIT_HLT") ;;;
    ret (false, err)
  else if reason =? kvm.EXITIO then
    let '(direction, size, port, count, offset) := kvm.IO mem0 run in
    f <- lift (table_get (ioportHandlers m) port direction) ;;
    bytes <- io_window run offset size ;;
    r <- loop_err (Z.to_nat count) 0
           (fun _ _ => e <- call f m port bytes ;; ret (tt, e)) tt ;;
    match snd r with
    | Some e => ret (false, Some e)
    | None => ret (true, err)
    end
  else if reason =? kvm.EXITUNKNOWN then
    ret (true, err)
  else if reason =? kvm.EXITINTR then
    ret (true, None)
  else
    match err with
    | Some e => ret (false, Some e)
    | None =>
        ret (false, Some (Wrapf "%w: %d" kvm.ErrorUnexpectedEXITReason
                            [FInt reason]))
    end.

Lemma RunOnce_eq m i fd run s res errno out s1 :
  0 <= i ->
  vcpuFds m !! Z.to_nat i = Some fd ->
  runs m !! Z.to_nat i = Some run ->
  sys_ioctl fd kvm.kvmRun (kvm.ArgInt 0) s = ((res, errno, out), s1) ->
  RunOnce m i s = after [ran fd errno] (dispatch m run (Run_result errno) s1).
Proof.
  intros Hi Hfd Hrun E.
  unfold RunOnce, dispatch.
  unfold bind at 1. unfold index at 1.
  rewrite (proj2 (Z.leb_le 0 i) Hi), Hfd. unfold ret at 1.
  unfold bind at 1. rewrite (Run_eq fd s res errno out s1 E).
  unfold bind at 1. unfold index at 1.
  rewrite (proj2 (Z.leb_le 0 i) Hi), Hrun. unfold ret at 1.
  unfold after.
  match goal with
  | |- _ = match ?d with _ => _ end =>
      destruct d as [[[r s2] t2]|]; reflexivity
  end.
Qed.

(** The run loop stops with the error of a step that reports one. *)
Lemma RunInfiniteLoop_error fuel m i s b e s' evs :
  RunOnce m i s = Ret ((b, Some e), s', evs) ->
  RunInfiniteLoop (Datatypes.S fuel) m i s = Ret (Some (Some e), s', evs).
Proof.
  intros E. simpl. unfold bind. rewrite E. unfold ret.
  rewrite app_nil_r. reflexivity.
Qed.

(** The run loop goes on after a step that reports continue. *)
Lemma RunInfiniteLoop_continue fuel m i s s' evs :
  RunOnce m i s = Ret ((true, None), s', evs) ->
  RunInfiniteLoop (Datatypes.S fuel) m i s
  = after evs (RunInfiniteLoop fuel m i s').
Proof.
  intros E. simpl. unfold bind. rewrite E. simpl.
  destruct (RunInfiniteLoop fuel m i s') as [[[r s2] t2]|]; reflexivity.
Qed.

End RunLoopFacts.

(** *** Decoding an I/O exit *)

Lemma load8_range mem a : 0 <= load8 mem a < 256.
Proof. unfold load8. apply Z.mod_pos_bound. lia. Qed.

Lemma loadLE_range n : forall mem a, 0 <= loadLE n mem a < 256 ^ Z.of_nat n.
Proof.
  induction n as [|n IH]; intros mem a.
  - simpl. lia.
  - change (loadLE (Datatypes.S n) mem a)
      with (load8 mem a + 256 * loadLE n mem (a + 1)).
    rewrite Nat2Z.inj_succ, Z.pow_succ_r by lia.
    pose proof (load8_range mem a). pose proof (IH mem (a + 1)). nia.
Qed.

Lemma Data_range mem run k : 0 <= kvm.Data mem run k < 2 ^ 64.
Proof. unfold kvm.Data, load64. apply (loadLE_range 8). Qed.

(** The five fields of [IO] as bit fields of [Data[0]] and [Data[1]]. *)
Lemma IO_fields mem run :
  kvm.IO mem run =
  (kvm.Data mem run 0 mod 2 ^ 8,
   (kvm.Data mem run 0 / 2 ^ 8) mod 2 ^ 8,
   (kvm.Data mem run 0 / 2 ^ 16) mod 2 ^ 16,
   (kvm.Data mem run 0 / 2 ^ 32) mod 2 ^ 32,
   kvm.Data mem run 1).
Proof.
  unfold kvm.IO.
  change 0xFF with (Z.ones 8). change 0xFFFF with (Z.ones 16).
  change 0xFFFFFFFF with (Z.ones 32).
  rewrite !Z.land_ones, !Z.shiftr_div_pow2 by lia. reflexivity.
Qed.

Section DispatchFacts.
Context `{Platform}.

(** No handler issues a system call of its own: its trace is empty. *)
Lemma pci_scan_silent io devs port bytes s r s' t :
  pci_scan io devs port bytes s = Ret (r, s', t) -> t = [].
Proof.
  induction devs as [|d devs IH]; simpl.
  - unfold ret. intros [= _ _ <-]. reflexivity.
  - destruct (GetIORange d) as [start end_].
    destruct ((start <=? port) && (port <? end_)); [|exact IH].
    unfold ext. destruct (io d port bytes s). intros [= _ _ <-]. reflexivity.
Qed.

Lemma apply_handler_silent f m port bytes s r s' t :
  apply_handler f m port bytes s = Ret (r, s', t) -> t = [].
Proof.
  destruct f; simpl;
    unfold nil_deref, panic, ret, bind, byte_at, set_byte_at, get_memory,
      update_memory, ext;
    repeat (match goal with
      | |- context [match ?o with Some _ => _ | None => _ end] => destruct o
      | |- context [if ?b then _ else _] => destruct b
      | |- context [let (_, _) := ?x in _] => destruct x
      end; simpl);
    try discriminate; try (intros [= _ _ <-]; reflexivity);
    try apply pci_scan_silent.
Qed.

Definition io_body (f : Handler) (m : Machine) (port : Z) (bytes : Slice)
  : Z -> unit -> M (unit * option error) :=
  fun _ _ => e <- call f m port bytes ;; ret (tt, e).

Lemma io_body_eq f m port bytes i u s :
  io_body f m port bytes i u s =
  match apply_handler f m port bytes s with
  | Ret (r, s', _) => Ret ((tt, r), s', [EvCall f port bytes r])
  | Panic why => Panic why
  end.
Proof.
  unfold io_body, call, bind, emit, ret.
  destruct (apply_handler f m port bytes s) as [[[r s'] t]|] eqn:E; [|reflexivity].
  apply apply_handler_silent in E. subst t. reflexivity.
Qed.

(** The dispatch loop: [n] calls that all return nil, or fewer calls the
    last of which fails; it panics only if a call does. *)
Lemma io_loop_spec f m port bytes n : forall i0 s,
  match loop_err n i0 (io_body f m port bytes) tt s with
  | Ret ((_, None), _, evs) => evs = repeat (EvCall f port bytes None) n
  | Ret ((_, Some e), _, evs) =>
      exists k, (k < n)%nat /\
        evs = repeat (EvCall f port bytes None) k ++ [EvCall f port bytes (Some e)]
  | Panic _ => exists s' why, apply_handler f m port bytes s' = Panic why
  end.
Proof.
  induction n as [|n IH]; intros i0 s.
  - reflexivity.
  - change (loop_err (Datatypes.S n) i0 (io_body f m port bytes) tt s)
      with (bind (io_body f m port bytes i0 tt)
              (fun r => match snd r with
                        | Some e => ret (fst r, Some e)
                        | None => loop_err n (i0 + 1) (io_body f m port bytes) (fst r)
                        end) s).
    unfold bind. rewrite io_body_eq.
    destruct (apply_handler f m port bytes s) as [[[r s1] t]|] eqn:E;
      [|eauto].
    destruct r as [e|]; simpl.
    + exists 0%nat. split; [lia|reflexivity].
    + specialize (IH (i0 + 1) s1).
      destruct (loop_err n (i0 + 1) (io_body f m port bytes) tt s1)
        as [[[[u [e|]] s2] t2]|]; simpl.
      * destruct IH as (k & Hk & ->). exists (Datatypes.S k).
        split; [lia|reflexivity].
      * rewrite IH. reflexivity.
      * exact IH.
Qed.

End DispatchFacts.

Section ExitFacts.
Context `{Platform}.

(** The I/O case of the switch, as one expression. *)
Lemma dispatch_io m run err s1 direction size port count offset :
  kvm.ExitReason (memory s1) run = kvm.EXITIO ->
  kvm.IO (memory s1) run = (direction, size, port, count, offset) ->
  dispatch m run err s1 =
  match table_get (ioportHandlers m) port direction with
  | Panic why => Panic why
  | Ret f =>
      if size <=? 100 then
        match loop_err (Z.to_nat count) 0
                (io_body f m port (mkSlice ((run + offset) mod 2 ^ 64) size 100))
                tt s1 with
        | Ret ((_, Some e), s', t) => Ret ((false, Some e), s', t)
        | Ret ((_, None), s', t) => Ret ((true, err), s', t)
        | Panic why => Panic why
        end
      else Panic "slice bounds out of range"
  end.
Proof.
  intros Hreason HIO. unfold dispatch. unfold bind at 1. unfold get_memory at 1.
  cbv beta iota. rewrite Hreason, HIO.
  change (kvm.EXITIO =? kvm.EXITHLT) with false.
  change (kvm.EXITIO =? kvm.EXITIO) with true. cbv beta iota.
  unfold bind at 1.
  destruct (table_get (ioportHandlers m) port direction) as [f|why];
    [|reflexivity].
  unfold lift, ret at 1. unfold bind at 1. unfold io_window.
  destruct (size <=? 100); [|reflexivity].
  unfold ret at 1. unfold bind at 1.
  fold (io_body f m port (mkSlice ((run + offset) mod 2 ^ 64) size 100)).
  destruct (loop_err (Z.to_nat count) 0
              (io_body f m port (mkSlice ((run + offset) mod 2 ^ 64) size 100))
              tt s1) as [[[[u [e|]] s2] t2]|]; simpl;
    rewrite ?app_nil_r; reflexivity.
Qed.

(** Every exit reason without a case of its own, taken by [default]. *)
Definition unhandled (reason : Z) : Prop :=
  reason <> kvm.EXITHLT /\ reason <> kvm.EXITIO /\
  reason <> kvm.EXITUNKNOWN /\ reason <> kvm.EXITINTR.

(** The error of the [default] case. *)
Definition default_error (errno reason : Z) : error :=
  match Run_result errno with
  | Some e => e
  | None => Wrapf "%w: %d" kvm.ErrorUnexpectedEXITReason [FInt reason]
  end.

Lemma dispatch_default m run err s1 :
  unhandled (kvm.ExitReason (memory s1) run) ->
  dispatch m run err s1 =
  Ret ((false,
        Some (match err with
              | Some e => e
              | None => Wrapf "%w: %d" kvm.ErrorUnexpectedEXITReason
                          [FInt (kvm.ExitReason (memory s1) run)]
              end)), s1, []).
Proof.
  intros (H1 & H2 & H3 & H4). unfold dispatch, bind, get_memory.
  rewrite (proj2 (Z.eqb_neq _ _) H1), (proj2 (Z.eqb_neq _ _) H2),
    (proj2 (Z.eqb_neq _ _) H3), (proj2 (Z.eqb_neq _ _) H4).
  destruct err; reflexivity.
Qed.

Lemma RunOnce_default m i fd run s res errno out s1 :
  0 <= i ->
  vcpuFds m !! Z.to_nat i = Some fd ->
  runs m !! Z.to_nat i = Some run ->
  sys_ioctl fd kvm.kvmRun (kvm.ArgInt 0) s = ((res, errno, out), s1) ->
  unhandled (kvm.ExitReason (memory s1) run) ->
  RunOnce m i s =
  Ret ((false, Some (default_error errno (kvm.ExitReason (memory s1) run))),
       s1, [ran fd errno]).
Proof.
  intros Hi Hfd Hrun E Hun.
  rewrite (RunOnce_eq m i fd run s res errno out s1 Hi Hfd Hrun E).
  rewrite (dispatch_default m run _ s1 Hun). reflexivity.
Qed.

Lemma dispatch_benign m run err s1 :
  kvm.ExitReason (memory s1) run = kvm.EXITUNKNOWN \/
  kvm.ExitReason (memory s1) run = kvm.EXITINTR ->
  dispatch m run err s1 =
  Ret ((true, if kvm.ExitReason (memory s1) run =? kvm.EXITINTR
              then None else err), s1, []).
Proof.
  intros [E|E]; unfold dispatch, bind, get_memory; rewrite E; reflexivity.
Qed.

End ExitFacts.

(** What a caller sees of an outcome: the result and the trace. *)
Definition observe `{Platform} {A} (o : outcome (A * Sys K * list Event))
  : outcome (A * list Event) :=
  match o with
  | Ret (a, _, t) => Ret (a, t)
  | Panic why => Panic why
  end.

(** The result of an outcome, [d] if it is a panic, and its trace. *)
Definition value_or `{Platform} {A} (d : A) (o : outcome (A * Sys K * list Event))
  : A :=
  match o with
  | Ret (a, _, _) => a
  | Panic _ => d
  end.

Definition trace_of `{Platform} {A} (o : outcome (A * Sys K * list Event))
  : list Event :=
  match o with
  | Ret (_, _, t) => t
  | Panic _ => []
  end.

Module Booted.
Import Script.

(** The machine [machine0] once [LoadLinux] has run on the scripted host:
    router installed, serial port attached. *)
Definition machine : Machine :=
  fst (value_or (machine0, None)
         (LoadLinux machine0 tt tt "console=ttyS0" (world []))).

(** One step of the VCPU on a host that answers [KVM_RUN] with [errno]
    and leaves the given exit in the [kvm_run] page. *)
Definition step (errno reason data0 data1 : Z)
  : outcome (bool * option error * list Event) :=
  observe (RunOnce machine 0 (world [exits errno reason data0 data1])).

End Booted.

Section RunOnceTheorems.
Context `{Platform}.

(** How [RunOnce] may end on an I/O exit routed to handler [f]. *)
Definition io_exit_shape (m : Machine) (fd errno : Z) (f : Handler) (port : Z)
  (bytes : Slice) (count : nat)
  (o : outcome ((bool * option error) * Sys K * list Event)) : Prop :=
  match o with
  | Ret ((isContinue, err), _, evs) =>
      (isContinue = true /\ err = Run_result errno /\
       evs = ran fd errno :: repeat (EvCall f port bytes None) count)
      \/
      (exists e k, isContinue = false /\ err = Some e /\ (k < count)%nat /\
         evs = ran fd errno :: repeat (EvCall f port bytes None) k
                 ++ [EvCall f port bytes (Some e)])
  | Panic _ => exists s' why, apply_handler f m port bytes s' = Panic why
  end.

(** C1 (amended).  On an I/O exit whose decoded direction is IN or OUT and
    whose decoded size is at most 100, [RunOnce] decodes direction, size,
    port and count as the bit fields 0..7, 8..15, 16..31 and 32..63 of
    [Data[0]] and the offset as [Data[1]], takes the handler at
    [[port][direction]] of the table, and calls it on the slice of length
    size at the offset inside the [kvm_run] page: count times when every
    call returns nil, reporting continue; otherwise up to the first call
    that returns an error, which [RunOnce] returns with isContinue false.
    It panics only if the handler itself does. *)
Theorem RunOnce_io_exit m i fd run s res errno out s1 :
  0 <= i ->
  vcpuFds m !! Z.to_nat i = Some fd ->
  runs m !! Z.to_nat i = Some run ->
  sys_ioctl fd kvm.kvmRun (kvm.ArgInt 0) s = ((res, errno, out), s1) ->
  kvm.ExitReason (memory s1) run = kvm.EXITIO ->
  let word := kvm.Data (memory s1) run 0 in
  let direction := word mod 2 ^ 8 in
  let size := (word / 2 ^ 8) mod 2 ^ 8 in
  let port := (word / 2 ^ 16) mod 2 ^ 16 in
  let count := (word / 2 ^ 32) mod 2 ^ 32 in
  let offset := kvm.Data (memory s1) run 1 in
  direction < 2 ->
  size <= 100 ->
  io_exit_shape m fd errno (ioportHandlers m port direction) port
    (mkSlice ((run + offset) mod 2 ^ 64) size 100) (Z.to_nat count)
    (RunOnce m i s).
Proof.
  intros Hi Hfd Hrun E Hreason word direction size port count offset Hdir Hsize.
  rewrite (RunOnce_eq m i fd run s res errno out s1 Hi Hfd Hrun E).
  rewrite (dispatch_io m run _ s1 direction size port count offset Hreason
             (IO_fields (memory s1) run)).
  assert (Hin : in_table port direction = true).
  { apply in_table_intro; unfold nPorts, nDirections.
    - subst port. pose proof (Z.mod_pos_bound (word / 2 ^ 16) (2 ^ 16)). lia.
    - subst direction. pose proof (Z.mod_pos_bound word (2 ^ 8)). lia. }
  unfold table_get. rewrite Hin.
  rewrite (proj2 (Z.leb_le size 100) Hsize).
  pose proof (io_loop_spec (ioportHandlers m port direction) m port
                (mkSlice ((run + offset) mod 2 ^ 64) size 100)
                (Z.to_nat count) 0 s1) as Hloop.
  destruct (loop_err (Z.to_nat count) 0 _ tt s1) as [[[[u [e|]] s2] t2]|];
    simpl.
  - right. destruct Hloop as (k & Hk & ->). exists e, k. auto.
  - left. rewrite Hloop. auto.
  - exact Hloop.
Qed.

End RunOnceTheorems.

(** The world before a step, and what the scripted kernel makes of it. *)
Definition before_step (errno reason data0 data1 : Z) : Sys (list Script.Step) :=
  Script.world [Script.exits errno reason data0 data1].

Definition after_run (errno reason data0 data1 : Z) : Sys (list Script.Step) :=
  snd (Script.answer_ioctl 5 kvm.kvmRun (kvm.ArgInt 0)
         (before_step errno reason data0 data1)).

(** C1 (witness): a three-byte [rep outsb] to COM1 on the scripted host. *)
Lemma RunOnce_io_exit_witness :
  io_exit_shape Booted.machine 5 0 funcSerialOut 0x3f8
    (mkSlice (Script.run_base + 0x1000) 1 100) 3
    (RunOnce Booted.machine 0
       (before_step 0 kvm.EXITIO (Script.io_word 1 1 0x3f8 3) 0x1000)).
Proof.
  pose proof
    (RunOnce_io_exit Booted.machine 0 5 Script.run_base
       (before_step 0 kvm.EXITIO (Script.io_word 1 1 0x3f8 3) 0x1000)
       0 0 (kvm.ArgInt 0)
       (after_run 0 kvm.EXITIO (Script.io_word 1 1 0x3f8 3) 0x1000)
       ltac:(lia)
       ltac:(vm_compute; reflexivity)
       ltac:(vm_compute; reflexivity)
       ltac:(vm_compute; reflexivity)
       ltac:(vm_compute; reflexivity)
       ltac:(vm_compute; reflexivity)
       ltac:(vm_compute; discriminate)) as W.
  vm_compute in W. vm_compute. exact W.
Defined.

(** C1 (counterexample).  On the booted machine: an exit of decoded size
    200 makes [RunOnce] panic on the slice expression before any handler
    is called; an exit of decoded direction 2 makes it panic on the table
    index; and an exit of count 2 on a port whose handler fails calls the
    handler once, not twice. *)
Lemma RunOnce_io_exit_counterexample :
  Booted.step 0 kvm.EXITIO (Script.io_word 1 200 0x3f8 1) 0x1000
    = Panic "slice bounds out of range"
  /\ Booted.step 0 kvm.EXITIO (Script.io_word 2 1 0x3f8 1) 0x1000
    = Panic "index out of range"
  /\ Booted.step 0 kvm.EXITIO (Script.io_word 1 1 0x1234 2) 0x1000
    = Ret ((false,
            Some (Wrapf "%w: unexpected io port 0x%x"
                    kvm.ErrorUnexpectedEXITReason [FInt 0x1234])),
           [EvIoctl 5 kvm.kvmRun (kvm.ArgInt 0) 0;
            EvCall funcError 0x1234
              (mkSlice (Script.run_base + 0x1000) 1 100)
              (Some (Wrapf "%w: unexpected io port 0x%x"
                       kvm.ErrorUnexpectedEXITReason [FInt 0x1234]))]).
Proof. vm_compute. repeat split; reflexivity. Qed.

Section HandlerErrors.
Context `{Platform}.

Lemma dispatch_hlt m run err s1 :
  kvm.ExitReason (memory s1) run = kvm.EXITHLT ->
  dispatch m run err s1 = Ret ((false, err), s1, [EvPrintln "KVM_EXIT_HLT"]).
Proof.
  intros E. unfold dispatch, bind, get_memory. rewrite E. reflexivity.
Qed.

Lemma exit_reason_cases (reason : Z) :
  reason = kvm.EXITHLT \/ reason = kvm.EXITIO \/
  (reason = kvm.EXITUNKNOWN \/ reason = kvm.EXITINTR) \/ unhandled reason.
Proof. unfold unhandled. lia. Qed.

(** A failed call in the trace of the switch is the last event of an I/O
    exit, after fewer than count calls that returned nil, and its error is
    the result of the switch. *)
Lemma dispatch_failed_call m run err s1 r s' t h p b e :
  dispatch m run err s1 = Ret (r, s', t) ->
  In (EvCall h p b (Some e)) t ->
  kvm.ExitReason (memory s1) run = kvm.EXITIO /\
  r = (false, Some e) /\
  exists k,
    (k < Z.to_nat ((kvm.Data (memory s1) run 0 / 2 ^ 32) mod 2 ^ 32))%nat /\
    t = repeat (EvCall h p b None) k ++ [EvCall h p b (Some e)].
Proof.
  intros Hd Hin.
  destruct (exit_reason_cases (kvm.ExitReason (memory s1) run))
    as [E|[E|[E|E]]].
  - rewrite (dispatch_hlt m run err s1 E) in Hd. injection Hd as _ _ <-.
    destruct Hin as [Hin|[]]. discriminate.
  - split; [exact E|].
    rewrite (dispatch_io m run err s1 _ _ _ _ _ E (IO_fields (memory s1) run))
      in Hd.
    destruct (table_get _ _ _) as [f|]; [|discriminate].
    destruct (_ <=? 100); [|discriminate].
    match type of Hd with
    | context [loop_err ?n ?i0 (io_body ?f ?m ?port ?bytes) tt ?s] =>
        pose proof (io_loop_spec f m port bytes n i0 s) as Hloop;
        destruct (loop_err n i0 (io_body f m port bytes) tt s)
          as [[[[u [e'|]] s2] t2]|]; [| |discriminate]
    end.
    + injection Hd as <- _ <-. destruct Hloop as (k & Hk & ->).
      apply in_app_or in Hin. destruct Hin as [Hin|[Hin|[]]].
      * apply repeat_spec in Hin. discriminate.
      * injection Hin as <- <- <- <-. split; [reflexivity|].
        exists k. split; [exact Hk|reflexivity].
    + injection Hd as _ _ <-. rewrite Hloop in Hin.
      apply repeat_spec in Hin. discriminate.
  - rewrite (dispatch_benign m run err s1 E) in Hd. injection Hd as _ _ <-.
    destruct Hin.
  - rewrite (dispatch_default m run err s1 E) in Hd. injection Hd as _ _ <-.
    destruct Hin.
Qed.

Lemma after_Ret {A} evs (o : outcome (A * Sys K * list Event)) a s' t :
  after evs o = Ret (a, s', t) ->
  exists t', o = Ret (a, s', t') /\ t = evs ++ t'.
Proof.
  destruct o as [[[a0 s0] t0]|]; simpl; [|discriminate].
  intros [= <- <- <-]. eauto.
Qed.

(** C10.  When a call of the port handler made by [RunOnce] returns a
    non-nil error, the exit is an I/O exit, that call is the last one
    ([RunOnce] makes none of the repetitions still due: fewer than count
    calls came before it, all returning nil), [RunOnce] returns
    isContinue false together with that error, and [RunInfiniteLoop]
    returns the error at this step. *)
Theorem handler_error_stops_run m i fd run s res errno out s1 r s' evs h p b e fuel :
  0 <= i ->
  vcpuFds m !! Z.to_nat i = Some fd ->
  runs m !! Z.to_nat i = Some run ->
  sys_ioctl fd kvm.kvmRun (kvm.ArgInt 0) s = ((res, errno, out), s1) ->
  RunOnce m i s = Ret (r, s', evs) ->
  In (EvCall h p b (Some e)) evs ->
  kvm.ExitReason (memory s1) run = kvm.EXITIO /\
  r = (false, Some e) /\
  (exists k,
     (k < Z.to_nat ((kvm.Data (memory s1) run 0 / 2 ^ 32) mod 2 ^ 32))%nat /\
     evs = ran fd errno :: repeat (EvCall h p b None) k
             ++ [EvCall h p b (Some e)]) /\
  RunInfiniteLoop (Datatypes.S fuel) m i s = Ret (Some (Some e), s', evs).
Proof.
  intros Hi Hfd Hrun E Hret Hin.
  pose proof Hret as Hret'.
  rewrite (RunOnce_eq m i fd run s res errno out s1 Hi Hfd Hrun E) in Hret'.
  apply after_Ret in Hret'. destruct Hret' as (t' & Hd & ->).
  destruct Hin as [Hin|Hin]; [discriminate|].
  destruct (dispatch_failed_call m run _ s1 r s' t' h p b e Hd Hin)
    as (Hreason & -> & k & Hk & ->).
  repeat split; try assumption.
  - exists k. split; [exact Hk|reflexivity].
  - apply (RunInfiniteLoop_error fuel m i s false e s' _ Hret).
Qed.

End HandlerErrors.

(** The error of the default handler on port [port]. *)
Definition unexpected_port (port : Z) : error :=
  Wrapf "%w: unexpected io port 0x%x" kvm.ErrorUnexpectedEXITReason [FInt port].

(** C10 (witness): [rep outsb] of three bytes to port 0x1234, which has
    the default handler, on the scripted host: one call, and the run loop
    ends with its error. *)
Lemma handler_error_stops_run_witness :
  RunInfiniteLoop 1 Booted.machine 0
    (before_step 0 kvm.EXITIO (Script.io_word 1 1 0x1234 3) 0x1000)
  = Ret (Some (Some (unexpected_port 0x1234)),
         after_run 0 kvm.EXITIO (Script.io_word 1 1 0x1234 3) 0x1000,
         [ran 5 0;
          EvCall funcError 0x1234 (mkSlice (Script.run_base + 0x1000) 1 100)
            (Some (unexpected_port 0x1234))]).
Proof.
  exact (proj2 (proj2 (proj2
    (handler_error_stops_run Booted.machine 0 5 Script.run_base
       (before_step 0 kvm.EXITIO (Script.io_word 1 1 0x1234 3) 0x1000)
       0 0 (kvm.ArgInt 0)
       (after_run 0 kvm.EXITIO (Script.io_word 1 1 0x1234 3) 0x1000)
       (false, Some (unexpected_port 0x1234))
       (after_run 0 kvm.EXITIO (Script.io_word 1 1 0x1234 3) 0x1000)
       [ran 5 0;
        EvCall funcError 0x1234 (mkSlice (Script.run_base + 0x1000) 1 100)
          (Some (unexpected_port 0x1234))]
       funcError 0x1234 (mkSlice (Script.run_base + 0x1000) 1 100)
       (unexpected_port 0x1234) 0%nat
       ltac:(lia)
       ltac:(vm_compute; reflexivity)
       ltac:(vm_compute; reflexivity)
       ltac:(vm_compute; reflexivity)
       ltac:(vm_compute; reflexivity)
       ltac:(right; left; reflexivity))))).
Defined.

Section UnhandledExits.
Context `{Platform}.

Lemma unhandled_debug : unhandled kvm.EXITDEBUG.
Proof. unfold unhandled. repeat split; discriminate. Qed.

Lemma unhandled_mmio : unhandled kvm.EXITMMIO.
Proof. unfold unhandled. repeat split; discriminate. Qed.

(** C2 (amended).  On a DEBUG exit [RunOnce] takes the default case of
    its switch: it returns isContinue false with the error of the run
    ioctl if there is one, and otherwise with the generic error that wraps
    [ErrorUnexpectedEXITReason] and carries the reason number, as for any
    other exit reason without a case; no handler is called and the run
    loop ends with that error. *)
Theorem RunOnce_debug_exit m i fd run s res errno out s1 fuel :
  0 <= i ->
  vcpuFds m !! Z.to_nat i = Some fd ->
  runs m !! Z.to_nat i = Some run ->
  sys_ioctl fd kvm.kvmRun (kvm.ArgInt 0) s = ((res, errno, out), s1) ->
  kvm.ExitReason (memory s1) run = kvm.EXITDEBUG ->
  RunOnce m i s =
    Ret ((false, Some (default_error errno kvm.EXITDEBUG)), s1, [ran fd errno]) /\
  (Run_result errno = None ->
   default_error errno kvm.EXITDEBUG
     = Wrapf "%w: %d" kvm.ErrorUnexpectedEXITReason [FInt kvm.EXITDEBUG] /\
   errors_Is (default_error errno kvm.EXITDEBUG) kvm.ErrorUnexpectedEXITReason
     = true) /\
  RunInfiniteLoop (Datatypes.S fuel) m i s =
    Ret (Some (Some (default_error errno kvm.EXITDEBUG)), s1, [ran fd errno]).
Proof.
  intros Hi Hfd Hrun E Hreason.
  assert (Hret : RunOnce m i s =
    Ret ((false, Some (default_error errno kvm.EXITDEBUG)), s1, [ran fd errno])).
  { rewrite <- Hreason. apply (RunOnce_default m i fd run s res errno out s1);
      try assumption. rewrite Hreason. apply unhandled_debug. }
  split; [exact Hret|]. split.
  - intros Hnone. unfold default_error. rewrite Hnone. split; reflexivity.
  - apply (RunInfiniteLoop_error fuel m i s false _ s1 _ Hret).
Qed.

(** C3 (amended).  On an MMIO exit [RunOnce] takes the default case of
    its switch: nothing is decoded or routed and no handler is called; it
    returns isContinue false with the error of the run ioctl if there is
    one and otherwise with the generic error that wraps
    [ErrorUnexpectedEXITReason]; the run loop ends with that error. *)
Theorem RunOnce_mmio_exit m i fd run s res errno out s1 fuel :
  0 <= i ->
  vcpuFds m !! Z.to_nat i = Some fd ->
  runs m !! Z.to_nat i = Some run ->
  sys_ioctl fd kvm.kvmRun (kvm.ArgInt 0) s = ((res, errno, out), s1) ->
  kvm.ExitReason (memory s1) run = kvm.EXITMMIO ->
  RunOnce m i s =
    Ret ((false, Some (default_error errno kvm.EXITMMIO)), s1, [ran fd errno]) /\
  (Run_result errno = None ->
   errors_Is (default_error errno kvm.EXITMMIO) kvm.ErrorUnexpectedEXITReason
     = true) /\
  RunInfiniteLoop (Datatypes.S fuel) m i s =
    Ret (Some (Some (default_error errno kvm.EXITMMIO)), s1, [ran fd errno]).
Proof.
  intros Hi Hfd Hrun E Hreason.
  assert (Hret : RunOnce m i s =
    Ret ((false, Some (default_error errno kvm.EXITMMIO)), s1, [ran fd errno])).
  { rewrite <- Hreason. apply (RunOnce_default m i fd run s res errno out s1);
      try assumption. rewrite Hreason. apply unhandled_mmio. }
  split; [exact Hret|]. split.
  - intros Hnone. unfold default_error. rewrite Hnone. reflexivity.
  - apply (RunInfiniteLoop_error fuel m i s false _ s1 _ Hret).
Qed.

End UnhandledExits.

(** C2 (witness): a DEBUG exit on the scripted host. *)
Lemma RunOnce_debug_exit_witness :
  RunOnce Booted.machine 0 (before_step 0 kvm.EXITDEBUG 0 0) =
  Ret ((false, Some (default_error 0 kvm.EXITDEBUG)),
       after_run 0 kvm.EXITDEBUG 0 0, [ran 5 0]).
Proof.
  exact (proj1
    (RunOnce_debug_exit Booted.machine 0 5 Script.run_base
       (before_step 0 kvm.EXITDEBUG 0 0) 0 0 (kvm.ArgInt 0)
       (after_run 0 kvm.EXITDEBUG 0 0) 0%nat
       ltac:(lia)
       ltac:(vm_compute; reflexivity)
       ltac:(vm_compute; reflexivity)
       ltac:(vm_compute; reflexivity)
       ltac:(vm_compute; reflexivity))).
Defined.

(** C2 (counterexample).  After a successful run that leaves a DEBUG
    exit, the error that [RunOnce] returns is the generic one:
    [errors.Is(err, ErrorUnexpectedEXITReason)] holds, and the error
    differs from that of another unhandled exit (here IRQ_WINDOW_OPEN)
    only in the reason number. *)
Lemma RunOnce_debug_exit_counterexample :
  Booted.step 0 kvm.EXITDEBUG 0 0
    = Ret ((false,
            Some (Wrapf "%w: %d" kvm.ErrorUnexpectedEXITReason [FInt 4])),
           [ran 5 0])
  /\ errors_Is (Wrapf "%w: %d" kvm.ErrorUnexpectedEXITReason [FInt 4])
       kvm.ErrorUnexpectedEXITReason = true
  /\ Booted.step 0 kvm.EXITIRQWINDOWOPEN 0 0
    = Ret ((false,
            Some (Wrapf "%w: %d" kvm.ErrorUnexpectedEXITReason [FInt 7])),
           [ran 5 0]).
Proof. vm_compute. repeat split; reflexivity. Qed.

(** C3 (witness): an MMIO exit on the scripted host. *)
Lemma RunOnce_mmio_exit_witness :
  RunOnce Booted.machine 0 (before_step 0 kvm.EXITMMIO 0xfee00000 4) =
  Ret ((false, Some (default_error 0 kvm.EXITMMIO)),
       after_run 0 kvm.EXITMMIO 0xfee00000 4, [ran 5 0]).
Proof.
  exact (proj1
    (RunOnce_mmio_exit Booted.machine 0 5 Script.run_base
       (before_step 0 kvm.EXITMMIO 0xfee00000 4) 0 0 (kvm.ArgInt 0)
       (after_run 0 kvm.EXITMMIO 0xfee00000 4) 0%nat
       ltac:(lia)
       ltac:(vm_compute; reflexivity)
       ltac:(vm_compute; reflexivity)
       ltac:(vm_compute; reflexivity)
       ltac:(vm_compute; reflexivity))).
Defined.

(** C3 (counterexample).  After a successful run that leaves an MMIO
    exit, [RunOnce] reports isContinue false with the unexpected-exit
    error and its trace holds the run ioctl only: no handler was called. *)
Lemma RunOnce_mmio_exit_counterexample :
  Booted.step 0 kvm.EXITMMIO 0xfee00000 4
    = Ret ((false,
            Some (Wrapf "%w: %d" kvm.ErrorUnexpectedEXITReason [FInt 6])),
           [ran 5 0]).
Proof. vm_compute. reflexivity. Qed.

Section RunErrors.
Context `{Platform}.

Lemma Run_result_transient errno :
  errno = EAGAIN \/ errno = EINTR -> Run_result errno = None.
Proof. intros [-> | ->]; reflexivity. Qed.

Lemma Run_result_fatal errno :
  errno <> 0 -> errno <> EAGAIN -> errno <> EINTR ->
  Run_result errno = Some (Errno errno).
Proof.
  intros H0 H1 H2. unfold Run_result.
  rewrite (proj2 (Z.eqb_neq _ _) H0), (proj2 (Z.eqb_neq _ _) H1),
    (proj2 (Z.eqb_neq _ _) H2). reflexivity.
Qed.

(** C4 (amended).  When the run ioctl fails with EAGAIN or EINTR the
    wrapper [Run] returns nil, so [RunOnce] goes through its switch as
    after a successful run, and on an UNKNOWN or INTR exit the run loop
    goes on.  Every other error of the ioctl is returned by [Run] to
    [RunOnce]; on a HLT, UNKNOWN or unhandled exit [RunOnce] returns it
    and the run loop ends with it, whereas on an INTR exit [RunOnce]
    returns (true, nil): the error is dropped and the loop goes on. *)
Theorem Run_errno_policy m i fd run s res errno out s1 fuel :
  0 <= i ->
  vcpuFds m !! Z.to_nat i = Some fd ->
  runs m !! Z.to_nat i = Some run ->
  sys_ioctl fd kvm.kvmRun (kvm.ArgInt 0) s = ((res, errno, out), s1) ->
  errno <> 0 ->
  let reason := kvm.ExitReason (memory s1) run in
  (errno = EAGAIN \/ errno = EINTR ->
     Run fd s = Ret (None, s1, [ran fd errno]) /\
     RunOnce m i s = after [ran fd errno] (dispatch m run None s1) /\
     (reason = kvm.EXITUNKNOWN \/ reason = kvm.EXITINTR ->
        RunOnce m i s = Ret ((true, None), s1, [ran fd errno]) /\
        RunInfiniteLoop (Datatypes.S fuel) m i s
          = after [ran fd errno] (RunInfiniteLoop fuel m i s1)))
  /\
  (errno <> EAGAIN -> errno <> EINTR ->
     Run fd s = Ret (Some (Errno errno), s1, [ran fd errno]) /\
     (reason = kvm.EXITHLT \/ reason = kvm.EXITUNKNOWN \/ unhandled reason ->
        exists b evs,
          RunOnce m i s = Ret ((b, Some (Errno errno)), s1, evs) /\
          RunInfiniteLoop (Datatypes.S fuel) m i s
            = Ret (Some (Some (Errno errno)), s1, evs)) /\
     (reason = kvm.EXITINTR ->
        RunOnce m i s = Ret ((true, None), s1, [ran fd errno]) /\
        RunInfiniteLoop (Datatypes.S fuel) m i s
          = after [ran fd errno] (RunInfiniteLoop fuel m i s1))).
Proof.
  intros Hi Hfd Hrun E Hne reason.
  pose proof (Run_eq fd s res errno out s1 E) as HRun.
  pose proof (RunOnce_eq m i fd run s res errno out s1 Hi Hfd Hrun E) as HOnce.
  split.
  - intros Ht. rewrite (Run_result_transient errno Ht) in HRun, HOnce.
    split; [exact HRun|]. split; [exact HOnce|]. intros Hb.
    assert (Hret : RunOnce m i s = Ret ((true, None), s1, [ran fd errno])).
    { rewrite HOnce, (dispatch_benign m run None s1 Hb).
      destruct (_ =? _); reflexivity. }
    split; [exact Hret|].
    apply (RunInfiniteLoop_continue fuel m i s s1 _ Hret).
  - intros H1 H2. rewrite (Run_result_fatal errno Hne H1 H2) in HRun, HOnce.
    split; [exact HRun|]. split.
    + intros [Hr|[Hr|Hr]].
      * exists false, [ran fd errno; EvPrintln "KVM_EXIT_HLT"].
        assert (Hret : RunOnce m i s =
                  Ret ((false, Some (Errno errno)), s1,
                       [ran fd errno; EvPrintln "KVM_EXIT_HLT"])).
        { rewrite HOnce, (dispatch_hlt m run _ s1 Hr). reflexivity. }
        split; [exact Hret|].
        apply (RunInfiniteLoop_error fuel m i s false _ s1 _ Hret).
      * exists true, [ran fd errno].
        assert (Hret : RunOnce m i s =
                  Ret ((true, Some (Errno errno)), s1, [ran fd errno])).
        { rewrite HOnce, (dispatch_benign m run _ s1 (or_introl Hr)).
          fold reason. rewrite Hr. reflexivity. }
        split; [exact Hret|].
        apply (RunInfiniteLoop_error fuel m i s true _ s1 _ Hret).
      * exists false, [ran fd errno].
        assert (Hret : RunOnce m i s =
                  Ret ((false, Some (Errno errno)), s1, [ran fd errno])).
        { rewrite HOnce, (dispatch_default m run _ s1 Hr). reflexivity. }
        split; [exact Hret|].
        apply (RunInfiniteLoop_error fuel m i s false _ s1 _ Hret).
    + intros Hr.
      assert (Hret : RunOnce m i s = Ret ((true, None), s1, [ran fd errno])).
      { rewrite HOnce, (dispatch_benign m run _ s1 (or_intror Hr)).
        fold reason. rewrite Hr. reflexivity. }
      split; [exact Hret|].
      apply (RunInfiniteLoop_continue fuel m i s s1 _ Hret).
Qed.

End RunErrors.

(** C4 (witness): the run ioctl interrupted by a signal (EINTR, exit
    reason INTR) on the scripted host. *)
Lemma Run_errno_policy_witness :
  @Run Script.host 5 (before_step EINTR kvm.EXITINTR 0 0)
  = Ret (None, after_run EINTR kvm.EXITINTR 0 0, [ran 5 EINTR]).
Proof.
  exact (proj1 (proj1
    (Run_errno_policy Booted.machine 0 5 Script.run_base
       (before_step EINTR kvm.EXITINTR 0 0) (-1) EINTR (kvm.ArgInt 0)
       (after_run EINTR kvm.EXITINTR 0 0) 0%nat
       ltac:(lia)
       ltac:(vm_compute; reflexivity)
       ltac:(vm_compute; reflexivity)
       ltac:(vm_compute; reflexivity)
       ltac:(discriminate))
    (or_intror eq_refl))).
Defined.

(** C4 (counterexample).  The run ioctl fails with EFAULT (14) while the
    [kvm_run] page shows an INTR exit: [RunOnce] returns (true, nil), and
    the run loop, far from ending with the error, goes on to the next
    step, here a HLT, and returns nil.  The ioctl fails with EAGAIN while
    the page shows a HLT exit: [RunOnce] returns (false, nil), so the loop
    does not go on. *)
Lemma Run_errno_policy_counterexample :
  Booted.step 14 kvm.EXITINTR 0 0 = Ret ((true, None), [ran 5 14])
  /\ observe (RunInfiniteLoop 2 Booted.machine 0
                (Script.world [Script.exits 14 kvm.EXITINTR 0 0;
                               Script.exits 0 kvm.EXITHLT 0 0]))
     = Ret (Some None, [ran 5 14; ran 5 0; EvPrintln "KVM_EXIT_HLT"])
  /\ Booted.step EAGAIN kvm.EXITHLT 0 0
     = Ret ((false, None), [ran 5 EAGAIN; EvPrintln "KVM_EXIT_HLT"]).
Proof. vm_compute. repeat split; reflexivity. Qed.

(** ** The router after [initIOPortHandlers] *)

Section RouterTheorems.
Context `{Platform}.

Lemma initIOPortHandlers_Ret m m' s s' evs :
  initIOPortHandlers m s = Ret (m', s', evs) ->
  exists p t,
    pci m = Some p /\
    block [init_default; init_overrides (Devices p)] (ioportHandlers m) = Ret t /\
    m' = set_ioportHandlers t m /\ s' = s /\ evs = [].
Proof.
  unfold initIOPortHandlers. destruct (pci m) as [p|].
  - unfold bind, lift.
    destruct (block _ (ioportHandlers m)) as [t|] eqn:E; [|discriminate].
    unfold ret. intros [= <- <- <-]. exists p, t. auto.
  - unfold bind, lift, nil_deref, panic, ret.
    destruct (block _ (ioportHandlers m)); discriminate.
Qed.

Lemma initIOPortHandlers_returns m p s :
  pci m = Some p ->
  Forall device_ok (Devices p) ->
  exists t, initIOPortHandlers m s = Ret (set_ioportHandlers t m, s, []).
Proof.
  intros Hp Hok. unfold initIOPortHandlers. rewrite Hp.
  destruct (init_table_returns (Devices p) (ioportHandlers m) Hok) as (t & E).
  exists t. unfold bind, lift. rewrite E. reflexivity.
Qed.

Lemma funcError_spec m port bytes s :
  apply_handler funcError m port bytes s
  = Ret (Some (unexpected_port port), s, []).
Proof. reflexivity. Qed.

Lemma fixed_route_filled_checked :
  all_slots (fun p d => negb (bool_decide (fixed_route p d = nilFunc))) = true.
Proof. vm_compute. reflexivity. Qed.

Lemma route_filled devs p d :
  in_table p d = true -> route devs p d <> nilFunc.
Proof.
  intros Hin. unfold route, by_dir.
  destruct (device_port devs p).
  - destruct (d =? kvm.EXITIOIN); discriminate.
  - pose proof (all_slots_spec _ fixed_route_filled_checked p d Hin) as Hc.
    apply negb_true_iff, bool_decide_eq_false in Hc. exact Hc.
Qed.

(** A port for which [initIOPortHandlers] installs a handler of its own:
    a legacy port or a port of a PCI device. *)
Definition specific_port (devs : list Device) (p : Z) : bool :=
  legacy_port p || device_port devs p.

Lemma route_default devs p d :
  in_table p d = true ->
  (route devs p d = funcError <-> specific_port devs p = false).
Proof.
  intros Hin. unfold route, specific_port, by_dir.
  pose proof (fixed_route_default p d Hin) as Hfix.
  destruct (device_port devs p).
  - rewrite orb_true_r. split; [|discriminate].
    destruct (d =? kvm.EXITIOIN); discriminate.
  - rewrite orb_false_r. exact Hfix.
Qed.

(** C5.  [initIOPortHandlers] returns whenever the I/O ranges of the PCI
    devices lie inside the port space.  After it has run, the table
    answers exactly the 65,536 ports of each of the two directions, every
    slot holds a handler, and a slot holds the default handler exactly
    when its port is neither a legacy port nor the port of a PCI device.
    The default handler returns an error that mentions
    "unexpected io port" and wraps [ErrorUnexpectedEXITReason], and
    leaves the world, hence the bytes of the slice, as they were. *)
Theorem default_deny_table m p s :
  pci m = Some p ->
  (Forall device_ok (Devices p) ->
   exists t, initIOPortHandlers m s = Ret (set_ioportHandlers t m, s, []))
  /\
  (forall m' s' evs,
     initIOPortHandlers m s = Ret (m', s', evs) ->
     (forall port dir,
        (exists f, table_get (ioportHandlers m') port dir = Ret f)
        <-> (0 <= port < 65536 /\ 0 <= dir < 2)) /\
     (forall port dir, 0 <= port < 65536 -> 0 <= dir < 2 ->
        ioportHandlers m' port dir <> nilFunc /\
        (specific_port (Devices p) port = false <->
         ioportHandlers m' port dir = funcError)))
  /\
  (forall mm port bytes st,
     apply_handler funcError mm port bytes st
       = Ret (Some (unexpected_port port), st, []) /\
     mentions "unexpected io port" (unexpected_port port) = true /\
     errors_Is (unexpected_port port) kvm.ErrorUnexpectedEXITReason = true).
Proof.
  intros Hp. split; [|split].
  - apply initIOPortHandlers_returns. exact Hp.
  - intros m' s' evs Hret.
    destruct (initIOPortHandlers_Ret m m' s s' evs Hret)
      as (p' & t & Hp' & Ht & -> & _ & _).
    rewrite Hp in Hp'. injection Hp' as <-. split.
    + intros port dir. unfold table_get. split.
      * intros (f & Hf). destruct (in_table port dir) eqn:Hin; [|discriminate].
        apply in_table_elim in Hin. unfold nPorts, nDirections in Hin. lia.
      * intros Hb. rewrite in_table_intro by (unfold nPorts, nDirections; lia).
        eauto.
    + intros port dir Hport Hdir.
      assert (Hin : in_table port dir = true)
        by (apply in_table_intro; unfold nPorts, nDirections; lia).
      simpl. rewrite (init_table_route (Devices p) _ t Ht port dir Hin).
      split; [apply route_filled; exact Hin|].
      symmetry. apply route_default. exact Hin.
  - intros mm port bytes st. repeat split.
Qed.

End RouterTheorems.

(** C5 (witness): the router of the scripted machine; port 0x1234 in
    direction IN has the default handler. *)
Lemma default_deny_table_witness :
  exists m',
    initIOPortHandlers Script.machine0 (Script.world [])
      = Ret (m', Script.world [], []) /\
    ioportHandlers m' 0x1234 kvm.EXITIOIN = funcError.
Proof.
  destruct (default_deny_table Script.machine0 Script.pci_three
              (Script.world []) eq_refl) as (Hruns & Hafter & _).
  assert (Hok : Forall (@device_ok Script.host) Script.pci_three)
    by (repeat constructor; unfold device_ok, nPorts; simpl; lia).
  destruct (Hruns Hok) as (t & Ht).
  exists (set_ioportHandlers t Script.machine0). split; [exact Ht|].
  destruct (Hafter _ _ _ Ht) as (_ & Hslots).
  apply (Hslots 0x1234 kvm.EXITIOIN); [lia | unfold kvm.EXITIOIN; lia |].
  vm_compute. reflexivity.
Defined.

Section GenuineCalls.
Context `{Platform}.



(** [funcOutbCF9] fails with the power-cycle error whatever it is given. *)
Lemma funcOutbCF9_spec m port bytes s :
  exists e,
    apply_handler funcOutbCF9 m port bytes s = Ret (Some e, s, []) /\
    errors_Is e ErrorWriteToCF9 = true.
Proof.
  simpl. unfold bind, byte_at, get_memory, ret.
  destruct (len bytes =? 1) eqn:Hlen.
  - apply Z.eqb_eq in Hlen. rewrite Hlen. simpl.
    destruct (load8 (memory s) (ptr bytes + 0) =? 14); simpl; eauto.
  - simpl. eauto.
Qed.


End GenuineCalls.


(** A write of 0x00, not the reset value 0x0E, to port 0xCF9 on the
    scripted host ends the step with the power-cycle error. *)
Example cf9_write_on_host :
  Booted.step 0 kvm.EXITIO (Script.io_word 1 1 0xcf9 1) 0x1000
    = Ret ((false,
            Some (Wrapf "write %#x to cf9: %w" ErrorWriteToCF9 [FBytes [0]])),
           [ran 5 0;
            EvCall funcOutbCF9 0xcf9 (mkSlice (Script.run_base + 0x1000) 1 100)
              (Some (Wrapf "write %#x to cf9: %w" ErrorWriteToCF9 [FBytes [0]]))]).
Proof. vm_compute. reflexivity. Qed.

(** ** Interrupt injection *)

Section IRQTheorems.
Context `{Platform}.

(** The IRQ-line ioctl on [vmFd] that sets [irq] to [level]. *)
Definition irq_line (vmFd irq level errno : Z) : Event :=
  EvIoctl vmFd kvm.kvmIRQLine (kvm.ArgIRQLevel (kvm.mkIRQLevel irq level)) errno.

Lemma IRQLine_eq vmFd irq level s res errno out s1 :
  sys_ioctl vmFd kvm.kvmIRQLine
    (kvm.ArgIRQLevel (kvm.mkIRQLevel irq level)) s = ((res, errno, out), s1) ->
  IRQLine vmFd irq level s
  = Ret ((if errno =? 0 then None else Some (Errno errno)), s1,
         [irq_line vmFd irq level errno]).
Proof.
  intros E. unfold IRQLine, ioctl, bind, ext, emit, ret, irq_line.
  rewrite E. simpl. destruct (errno =? 0); reflexivity.
Qed.

(** C8.  [InjectSerialIRQ] always returns, and its system calls are IRQ-line
    operations on line 4 of the VM: either level 0 then level 1, the first
    having succeeded, with nil returned exactly when the second succeeds
    too; or level 0 alone, which failed, with its error returned and no
    second operation issued. *)
Theorem InjectSerialIRQ_edge m s :
  exists r s' evs,
    InjectSerialIRQ m s = Ret (r, s', evs) /\
    ((exists errno2,
        evs = [irq_line (vmFd m) 4 0 0; irq_line (vmFd m) 4 1 errno2] /\
        (r = None <-> errno2 = 0) /\
        (errno2 <> 0 -> r = Some (Errno errno2)))
     \/
     (exists errno1,
        errno1 <> 0 /\
        evs = [irq_line (vmFd m) 4 0 errno1] /\
        r = Some (Errno errno1))).
Proof.
  unfold InjectSerialIRQ, serialIRQ.
  destruct (sys_ioctl (vmFd m) kvm.kvmIRQLine
              (kvm.ArgIRQLevel (kvm.mkIRQLevel 4 0)) s)
    as [[[res1 errno1] out1] s1] eqn:E1.
  unfold bind at 1. rewrite (IRQLine_eq _ _ _ _ _ _ _ _ E1).
  destruct (Z.eqb_spec errno1 0) as [->|Hne1].
  - destruct (sys_ioctl (vmFd m) kvm.kvmIRQLine
                (kvm.ArgIRQLevel (kvm.mkIRQLevel 4 1)) s1)
      as [[[res2 errno2] out2] s2] eqn:E2.
    unfold bind at 1. rewrite (IRQLine_eq _ _ _ _ _ _ _ _ E2).
    destruct (Z.eqb_spec errno2 0) as [->|Hne2]; simpl;
      do 3 eexists; (split; [reflexivity|]); left.
    + exists 0. repeat split; intros; congruence.
    + exists errno2. repeat split; intros; congruence.
  - simpl. do 3 eexists. split; [reflexivity|]. right.
    exists errno1. auto.
Qed.

End IRQTheorems.

(** On the scripted host: both operations succeed; the second fails with
    EINVAL (22); the first fails with EBADF (9) and the second is not
    issued. *)
Example InjectSerialIRQ_on_host :
  observe (InjectSerialIRQ Booted.machine (Script.world []))
    = Ret (None, [irq_line 4 4 0 0; irq_line 4 4 1 0])
  /\ observe (InjectSerialIRQ Booted.machine
                (Script.world [Script.ok; Script.fails 22]))
    = Ret (Some (Errno 22), [irq_line 4 4 0 0; irq_line 4 4 1 22])
  /\ observe (InjectSerialIRQ Booted.machine (Script.world [Script.fails 9]))
    = Ret (Some (Errno 9), [irq_line 4 4 0 9]).
Proof. vm_compute. repeat split; reflexivity. Qed.

(** ** Inversion of the effect monad *)

Section Inversion.
Context `{Platform}.

Lemma bind_Ret {A B} (c : M A) (k : A -> M B) s b s2 t :
  bind c k s = Ret (b, s2, t) ->
  exists a s1 t1 t2,
    c s = Ret (a, s1, t1) /\ k a s1 = Ret (b, s2, t2) /\ t = t1 ++ t2.
Proof.
  unfold bind. destruct (c s) as [[[a s1] t1]|] eqn:Ec; [|discriminate].
  destruct (k a s1) as [[[b' s2'] t2]|] eqn:Ek; [|discriminate].
  intros [= <- <- <-]. exists a, s1, t1, t2. repeat split; assumption.
Qed.

Lemma ret_Ret {A} (a : A) s b s' t :
  ret a s = Ret (b, s', t) -> b = a /\ s' = s /\ t = [].
Proof. unfold ret. intros [= <- <- <-]. repeat split. Qed.

Lemma index_Ret {A} (xs : list A) i s x s' t :
  index xs i s = Ret (x, s', t) ->
  0 <= i /\ xs !! Z.to_nat i = Some x /\ s' = s /\ t = [].
Proof.
  unfold index. destruct (Z.leb_spec 0 i); [|discriminate].
  destruct (xs !! Z.to_nat i); [|discriminate].
  intros [= <- <- <-]. repeat split; assumption.
Qed.

Lemma ext_Ret {A} (f : Sys K -> A * Sys K) s a s' t :
  ext f s = Ret (a, s', t) -> f s = (a, s') /\ t = [].
Proof. unfold ext. destruct (f s). intros [= <- <- <-]. repeat split. Qed.

Lemma slice_from_Ret b lo s d s' t :
  slice_from b lo s = Ret (d, s', t) -> t = [].
Proof.
  unfold slice_from. destruct (_ && _); [|discriminate].
  intros [= _ _ <-]. reflexivity.
Qed.

Lemma copy_Ret dst src s u s' t : copy dst src s = Ret (u, s', t) -> t = [].
Proof. unfold copy, update_memory. intros [= _ _ <-]. reflexivity. Qed.

Lemma set_byte_at_Ret b i v s u s' t :
  set_byte_at b i v s = Ret (u, s', t) -> t = [].
Proof.
  unfold set_byte_at, update_memory. destruct (_ && _); [|discriminate].
  intros [= _ _ <-]. reflexivity.
Qed.

Lemma ioctl_Ret fd op arg s res out err s' t :
  ioctl fd op arg s = Ret ((res, out, err), s', t) ->
  exists errno,
    t = [EvIoctl fd op arg errno] /\
    err = (if errno =? 0 then None else Some (Errno errno)).
Proof.
  unfold ioctl, bind, ext, emit, ret.
  destruct (sys_ioctl fd op arg s) as [[[res0 errno] out0] s1]. simpl.
  destruct (errno =? 0) eqn:E; intros [= <- <- <- <- <-]; exists errno;
    rewrite E; split; reflexivity.
Qed.

Definition errno_error (errno : Z) : option error :=
  if errno =? 0 then None else Some (Errno errno).

Lemma GetRegs_Ret fd s regs err s' t :
  GetRegs fd s = Ret ((regs, err), s', t) ->
  exists errno,
    t = [EvIoctl fd kvm.kvmGetRegs (kvm.ArgRegs kvm.Regs_zero) errno] /\
    err = errno_error errno.
Proof.
  unfold GetRegs. intros Hb. apply bind_Ret in Hb.
  destruct Hb as ([[res out] err0] & s1 & t1 & t2 & Hio & Hret & ->).
  apply ioctl_Ret in Hio. destruct Hio as (errno & -> & ->).
  apply ret_Ret in Hret. destruct Hret as ([= _ ->] & _ & ->).
  exists errno. split; reflexivity.
Qed.

Lemma SetRegs_Ret fd regs s err s' t :
  SetRegs fd regs s = Ret (err, s', t) ->
  exists errno,
    t = [EvIoctl fd kvm.kvmSetRegs (kvm.ArgRegs regs) errno] /\
    err = errno_error errno.
Proof.
  unfold SetRegs. intros Hb. apply bind_Ret in Hb.
  destruct Hb as ([[res out] err0] & s1 & t1 & t2 & Hio & Hret & ->).
  apply ioctl_Ret in Hio. destruct Hio as (errno & -> & ->).
  apply ret_Ret in Hret. destruct Hret as (-> & _ & ->).
  exists errno. split; reflexivity.
Qed.

Lemma GetSregs_Ret fd s sregs err s' t :
  GetSregs fd s = Ret ((sregs, err), s', t) ->
  exists errno,
    t = [EvIoctl fd kvm.kvmGetSregs (kvm.ArgSregs kvm.Sregs_zero) errno] /\
    err = errno_error errno.
Proof.
  unfold GetSregs. intros Hb. apply bind_Ret in Hb.
  destruct Hb as ([[res out] err0] & s1 & t1 & t2 & Hio & Hret & ->).
  apply ioctl_Ret in Hio. destruct Hio as (errno & -> & ->).
  apply ret_Ret in Hret. destruct Hret as ([= _ ->] & _ & ->).
  exists errno. split; reflexivity.
Qed.

Lemma SetSregs_Ret fd sregs s err s' t :
  SetSregs fd sregs s = Ret (err, s', t) ->
  exists errno,
    t = [EvIoctl fd kvm.kvmSetSregs (kvm.ArgSregs sregs) errno] /\
    err = errno_error errno.
Proof.
  unfold SetSregs. intros Hb. apply bind_Ret in Hb.
  destruct Hb as ([[res out] err0] & s1 & t1 & t2 & Hio & Hret & ->).
  apply ioctl_Ret in Hio. destruct Hio as (errno & -> & ->).
  apply ret_Ret in Hret. destruct Hret as (-> & _ & ->).
  exists errno. split; reflexivity.
Qed.

Lemma errno_error_None errno : errno_error errno = None -> errno = 0.
Proof.
  unfold errno_error. destruct (Z.eqb_spec errno 0); [auto|discriminate].
Qed.

End Inversion.

(** ** Initial register state *)

Definition regs_ok (r : kvm.Regs) : Prop :=
  kvm.RFLAGS r = 2 /\ kvm.RIP r = 0x100000 /\ kvm.RSI r = 0x10000.

Definition flat (seg : kvm.Segment) : Prop :=
  kvm.Base seg = 0 /\ kvm.Limit seg = 0xFFFFFFFF /\ kvm.G seg = 1.

Definition sregs_ok (sr : kvm.Sregs) : Prop :=
  flat (kvm.CS sr) /\ flat (kvm.DS sr) /\ flat (kvm.ES sr) /\
  flat (kvm.FS sr) /\ flat (kvm.GS sr) /\ flat (kvm.SS sr) /\
  kvm.DB (kvm.CS sr) = 1 /\ kvm.DB (kvm.SS sr) = 1 /\
  Z.testbit (kvm.CR0 sr) 0 = true.

(** Every register-setting ioctl of a trace carries the boot values. *)
Definition boot_values (ev : Event) : Prop :=
  match ev with
  | EvIoctl _ op arg _ =>
      (op = kvm.kvmSetRegs -> exists r, arg = kvm.ArgRegs r /\ regs_ok r) /\
      (op = kvm.kvmSetSregs -> exists sr, arg = kvm.ArgSregs sr /\ sregs_ok sr)
  | _ => True
  end.

(** The registers of VCPU [fd] were set, successfully, to the boot values. *)
Definition vcpu_booted (fd : Z) (evs : list Event) : Prop :=
  exists r sr,
    In (EvIoctl fd kvm.kvmSetRegs (kvm.ArgRegs r) 0) evs /\ regs_ok r /\
    In (EvIoctl fd kvm.kvmSetSregs (kvm.ArgSregs sr) 0) evs /\ sregs_ok sr.

Section BootRegisters.
Context `{Platform}.

Lemma boot_values_other fd op arg errno :
  op <> kvm.kvmSetRegs -> op <> kvm.kvmSetSregs ->
  boot_values (EvIoctl fd op arg errno).
Proof. intros H1 H2. split; intros E; contradiction. Qed.

Lemma boot_values_regs fd r errno :
  regs_ok r -> boot_values (EvIoctl fd kvm.kvmSetRegs (kvm.ArgRegs r) errno).
Proof. intros Hr. split; [eauto|discriminate]. Qed.

Lemma boot_values_sregs fd sr errno :
  sregs_ok sr -> boot_values (EvIoctl fd kvm.kvmSetSregs (kvm.ArgSregs sr) errno).
Proof. intros Hr. split; [discriminate|eauto]. Qed.

Lemma initRegs_Ret m i s err s' t :
  initRegs m i s = Ret (err, s', t) ->
  Forall boot_values t /\
  (err = None ->
   exists fd r,
     0 <= i /\ vcpuFds m !! Z.to_nat i = Some fd /\ regs_ok r /\
     In (EvIoctl fd kvm.kvmSetRegs (kvm.ArgRegs r) 0) t).
Proof.
  unfold initRegs. intros Hb.
  apply bind_Ret in Hb. destruct Hb as (fd & s1 & t1 & t2 & Hidx & Hb & ->).
  apply index_Ret in Hidx. destruct Hidx as (Hi & Hfd & -> & ->).
  apply bind_Ret in Hb. destruct Hb as ([regs e1] & s2 & t3 & t4 & Hget & Hb & ->).
  apply GetRegs_Ret in Hget. destruct Hget as (errno1 & -> & ->).
  destruct (errno_error errno1) as [e|] eqn:E1.
  - apply ret_Ret in Hb. destruct Hb as (-> & _ & ->). split; [|discriminate].
    repeat constructor; discriminate.
  - apply bind_Ret in Hb. destruct Hb as (fd' & s3 & t5 & t6 & Hidx & Hb & ->).
    apply index_Ret in Hidx. destruct Hidx as (_ & Hfd' & -> & ->).
    rewrite Hfd in Hfd'. injection Hfd' as <-.
    apply bind_Ret in Hb. destruct Hb as (e2 & s4 & t7 & t8 & Hset & Hb & ->).
    apply SetRegs_Ret in Hset. destruct Hset as (errno2 & -> & ->).
    assert (Hok : regs_ok (kvm.set_RSI bootParamAddr
                             (kvm.set_RIP kernelAddr (kvm.set_RFLAGS 2 regs))))
      by (repeat split).
    assert (Ht8 : t8 = []).
    { destruct (errno_error errno2); apply ret_Ret in Hb;
        destruct Hb as (_ & _ & ->); reflexivity. }
    subst t8. split.
    + simpl. repeat constructor; try discriminate. eauto.
    + intros ->. destruct (errno_error errno2) eqn:E2;
        apply ret_Ret in Hb; destruct Hb as (Hn & _ & _); [discriminate|].
      apply errno_error_None in E2. subst errno2.
      eexists fd, _. split; [exact Hi|]. split; [exact Hfd|].
      split; [exact Hok|]. simpl. right. left. reflexivity.
Qed.

Lemma initSregs_Ret m i s err s' t :
  initSregs m i s = Ret (err, s', t) ->
  Forall boot_values t /\
  (err = None ->
   exists fd sr,
     0 <= i /\ vcpuFds m !! Z.to_nat i = Some fd /\ sregs_ok sr /\
     In (EvIoctl fd kvm.kvmSetSregs (kvm.ArgSregs sr) 0) t).
Proof.
  unfold initSregs. intros Hb.
  apply bind_Ret in Hb. destruct Hb as (fd & s1 & t1 & t2 & Hidx & Hb & ->).
  apply index_Ret in Hidx. destruct Hidx as (Hi & Hfd & -> & ->).
  apply bind_Ret in Hb. destruct Hb as ([sregs e1] & s2 & t3 & t4 & Hget & Hb & ->).
  apply GetSregs_Ret in Hget. destruct Hget as (errno1 & -> & ->).
  destruct (errno_error errno1) as [e|] eqn:E1.
  - apply ret_Ret in Hb. destruct Hb as (-> & _ & ->). split; [|discriminate].
    repeat constructor; discriminate.
  - apply bind_Ret in Hb. destruct Hb as (fd' & s3 & t5 & t6 & Hidx & Hb & ->).
    apply index_Ret in Hidx. destruct Hidx as (_ & Hfd' & -> & ->).
    rewrite Hfd in Hfd'. injection Hfd' as <-.
    apply bind_Ret in Hb. destruct Hb as (e2 & s4 & t7 & t8 & Hset & Hb & ->).
    apply SetSregs_Ret in Hset. destruct Hset as (errno2 & -> & ->).
    assert (Ht8 : t8 = []).
    { destruct (errno_error errno2); apply ret_Ret in Hb;
        destruct Hb as (_ & _ & ->); reflexivity. }
    subst t8.
    match goal with
    | |- context [kvm.ArgSregs ?sr] =>
        assert (Hok : sregs_ok sr);
        [ unfold sregs_ok, flat; cbn -[Z.lor Z.testbit];
          repeat split; rewrite Z.lor_spec; apply orb_true_r
        | ]
    end.
    split.
    + simpl. repeat constructor; try discriminate. eauto.
    + intros ->. destruct (errno_error errno2) eqn:E2;
        apply ret_Ret in Hb; destruct Hb as (Hn & _ & _); [discriminate|].
      apply errno_error_None in E2. subst errno2.
      eexists fd, _. split; [exact Hi|]. split; [exact Hfd|].
      split; [exact Hok|]. simpl. right. left. reflexivity.
Qed.

End BootRegisters.

Section LoadLinuxFacts.
Context `{Platform}.

Lemma vcpu_booted_app_l fd t1 t2 : vcpu_booted fd t1 -> vcpu_booted fd (t1 ++ t2).
Proof.
  intros (r & sr & H1 & Hr & H2 & Hs). exists r, sr.
  split; [apply in_or_app; left; exact H1|]. split; [exact Hr|].
  split; [apply in_or_app; left; exact H2|exact Hs].
Qed.

Lemma vcpu_booted_app_r fd t1 t2 : vcpu_booted fd t2 -> vcpu_booted fd (t1 ++ t2).
Proof.
  intros (r & sr & H1 & Hr & H2 & Hs). exists r, sr.
  split; [apply in_or_app; right; exact H1|]. split; [exact Hr|].
  split; [apply in_or_app; right; exact H2|exact Hs].
Qed.

Lemma init_vcpu_Ret m i u s r s' t :
  init_vcpu m i u s = Ret (r, s', t) ->
  Forall boot_values t /\
  (snd r = None ->
   exists fd, 0 <= i /\ vcpuFds m !! Z.to_nat i = Some fd /\ vcpu_booted fd t).
Proof.
  unfold init_vcpu. intros Hb.
  apply bind_Ret in Hb. destruct Hb as (e1 & s1 & t1 & t2 & Hregs & Hb & ->).
  apply initRegs_Ret in Hregs. destruct Hregs as (Hall1 & Hex1).
  destruct e1 as [e|].
  - apply ret_Ret in Hb. destruct Hb as (-> & _ & ->).
    rewrite app_nil_r. split; [exact Hall1|discriminate].
  - apply bind_Ret in Hb. destruct Hb as (e2 & s2 & t3 & t4 & Hsregs & Hb & ->).
    apply initSregs_Ret in Hsregs. destruct Hsregs as (Hall2 & Hex2).
    assert (Ht4 : t4 = [] /\ snd r = e2).
    { destruct e2; apply ret_Ret in Hb; destruct Hb as (-> & _ & ->);
        split; reflexivity. }
    destruct Ht4 as (-> & Hr). rewrite app_nil_r. split.
    + apply Forall_app. split; assumption.
    + rewrite Hr. intros ->.
      destruct (Hex1 eq_refl) as (fd & rg & Hi & Hfd & Hrg & Hin1).
      destruct (Hex2 eq_refl) as (fd' & sr & _ & Hfd' & Hsr & Hin2).
      rewrite Hfd in Hfd'. injection Hfd' as <-.
      exists fd. split; [exact Hi|]. split; [exact Hfd|].
      exists rg, sr.
      split; [apply in_or_app; left; exact Hin1|]. split; [exact Hrg|].
      split; [apply in_or_app; right; exact Hin2|exact Hsr].
Qed.

Lemma vcpu_loop_Ret m n : forall i0 s r s' t,
  0 <= i0 ->
  loop_err n i0 (init_vcpu m) tt s = Ret (r, s', t) ->
  Forall boot_values t /\
  (snd r = None ->
   forall k fd, (k < n)%nat ->
     vcpuFds m !! (Z.to_nat i0 + k)%nat = Some fd -> vcpu_booted fd t).
Proof.
  induction n as [|n IH]; intros i0 s r s' t Hi0.
  - simpl. intros Hr. apply ret_Ret in Hr. destruct Hr as (_ & _ & ->).
    split; [constructor|]. intros _ k fd Hk. lia.
  - simpl. intros Hb.
    apply bind_Ret in Hb. destruct Hb as (r1 & s1 & t1 & t2 & Hbody & Hb & ->).
    destruct r1 as [u e1]. destruct u.
    apply init_vcpu_Ret in Hbody. destruct Hbody as (Hall1 & Hex1).
    simpl in Hb, Hex1. destruct e1 as [e|].
    + apply ret_Ret in Hb. destruct Hb as (-> & _ & ->).
      rewrite app_nil_r. split; [exact Hall1|discriminate].
    + destruct (IH (i0 + 1) s1 r s' t2 ltac:(lia) Hb) as (Hall2 & Hex2).
      split; [apply Forall_app; split; assumption|].
      intros Hr k fd Hk Hfd.
      destruct (Hex1 eq_refl) as (fd0 & _ & Hfd0 & Hboot0).
      destruct k as [|k].
      * rewrite Nat.add_0_r, Hfd0 in Hfd. injection Hfd as <-.
        apply vcpu_booted_app_l. exact Hboot0.
      * apply vcpu_booted_app_r. apply (Hex2 Hr k fd ltac:(lia)).
        replace (Z.to_nat (i0 + 1) + k)%nat
          with (Z.to_nat i0 + Datatypes.S k)%nat by lia.
        exact Hfd.
Qed.

(** A successful [LoadLinux] ran the loop over the VCPUs to its end, and
    its trace is the trace of that loop. *)
Lemma LoadLinux_Ret m kernel initrd params s m' s' evs :
  LoadLinux m kernel initrd params s = Ret ((m', None), s', evs) ->
  exists s0 s1,
    loop_err (length (vcpuFds m)) 0 (init_vcpu m) tt s0
      = Ret ((tt, None), s1, evs).
Proof.
  unfold LoadLinux. intros Hb.
  apply bind_Ret in Hb. destruct Hb as (d1 & s1 & t1 & t1' & Hc & Hb & ->).
  apply slice_from_Ret in Hc. subst t1.
  apply bind_Ret in Hb. destruct Hb as ([initrdSize e1] & s2 & t2 & t2' & Hc & Hb & ->).
  apply ext_Ret in Hc. destruct Hc as (_ & ->).
  match type of Hb with
  | match ?x with Some _ => _ | None => _ end _ = _ => destruct x
  end; [apply ret_Ret in Hb; destruct Hb as (Hb & _); discriminate|].
  apply bind_Ret in Hb. destruct Hb as (d2 & s3 & t3 & t3' & Hc & Hb & ->).
  apply slice_from_Ret in Hc. subst t3.
  apply bind_Ret in Hb. destruct Hb as (u1 & s4 & t4 & t4' & Hc & Hb & ->).
  apply copy_Ret in Hc. subst t4.
  apply bind_Ret in Hb. destruct Hb as (u2 & s5 & t5 & t5' & Hc & Hb & ->).
  apply set_byte_at_Ret in Hc. subst t5.
  apply bind_Ret in Hb. destruct Hb as ([bootParam e2] & s6 & t6 & t6' & Hc & Hb & ->).
  apply ext_Ret in Hc. destruct Hc as (_ & ->).
  destruct e2; [apply ret_Ret in Hb; destruct Hb as (Hb & _); discriminate|].
  match type of Hb with
  | (let (_, _) := ?x in _) _ = _ => destruct x as [bytes e3]
  end.
  destruct e3; [apply ret_Ret in Hb; destruct Hb as (Hb & _); discriminate|].
  apply bind_Ret in Hb. destruct Hb as (d3 & s7 & t7 & t7' & Hc & Hb & ->).
  apply slice_from_Ret in Hc. subst t7.
  apply bind_Ret in Hb. destruct Hb as (u3 & s8 & t8 & t8' & Hc & Hb & ->).
  apply copy_Ret in Hc. subst t8.
  apply bind_Ret in Hb. destruct Hb as (d4 & s9 & t9 & t9' & Hc & Hb & ->).
  apply slice_from_Ret in Hc. subst t9.
  apply bind_Ret in Hb. destruct Hb as ([kernSize e4] & s10 & t10 & t10' & Hc & Hb & ->).
  apply ext_Ret in Hc. destruct Hc as (_ & ->).
  match type of Hb with
  | match ?x with Some _ => _ | None => _ end _ = _ => destruct x
  end; [apply ret_Ret in Hb; destruct Hb as (Hb & _); discriminate|].
  apply bind_Ret in Hb. destruct Hb as ([u4 e5] & s11 & t11 & t11' & Hloop & Hb & ->).
  destruct u4. simpl in Hb.
  destruct e5; [apply ret_Ret in Hb; destruct Hb as (Hb & _); discriminate|].
  apply bind_Ret in Hb. destruct Hb as (m1 & s12 & t12 & t12' & Hc & Hb & ->).
  apply initIOPortHandlers_Ret in Hc.
  destruct Hc as (p & t & _ & _ & _ & _ & ->).
  apply bind_Ret in Hb. destruct Hb as ([sp e6] & s13 & t13 & t13' & Hc & Hb & ->).
  apply ext_Ret in Hc. destruct Hc as (_ & ->).
  destruct e6; apply ret_Ret in Hb; destruct Hb as (Hb & _ & ->);
    [discriminate|].
  simpl. rewrite app_nil_r. eauto.
Qed.

(** C7.  After [LoadLinux] has succeeded, every VCPU of the machine has
    had its general registers set by a successful KVM_SET_REGS with
    RFLAGS = 2, RIP = 0x100000 and RSI = 0x10000, and its special
    registers set by a successful KVM_SET_SREGS with the six segments CS,
    DS, ES, FS, GS, SS at base 0, limit 0xFFFFFFFF, G = 1, with CS.DB = 1
    and SS.DB = 1, and with bit 0 of CR0 set; and [LoadLinux] issued no
    register-setting ioctl with other values. *)
Theorem LoadLinux_registers m kernel initrd params s m' s' evs :
  LoadLinux m kernel initrd params s = Ret ((m', None), s', evs) ->
  (forall i fd, vcpuFds m !! i = Some fd -> vcpu_booted fd evs) /\
  Forall boot_values evs.
Proof.
  intros Hret. apply LoadLinux_Ret in Hret. destruct Hret as (s0 & s1 & Hloop).
  destruct (vcpu_loop_Ret m _ 0 s0 _ s1 evs ltac:(lia) Hloop) as (Hall & Hex).
  split; [|exact Hall].
  intros i fd Hfd. apply (Hex eq_refl i fd).
  - apply lookup_lt_Some in Hfd. exact Hfd.
  - exact Hfd.
Qed.

End LoadLinuxFacts.

Module BootedTrace.
Import Script.

(** The trace of [LoadLinux] on the scripted host. *)
Definition trace : list Event :=
  trace_of (LoadLinux machine0 tt tt "console=ttyS0" (world [])).

End BootedTrace.

(** C7 (witness): [LoadLinux] succeeds on the scripted host and its one
    VCPU, file descriptor 5, has its registers set to the boot values. *)
Lemma LoadLinux_registers_witness : vcpu_booted 5 BootedTrace.trace.
Proof.
  assert (Hobs :
    match LoadLinux Script.machine0 tt tt "console=ttyS0" (Script.world []) with
    | Ret ((_, e), _, _) => e = None
    | Panic _ => False
    end) by (vm_compute; reflexivity).
  unfold BootedTrace.trace, trace_of.
  destruct (LoadLinux Script.machine0 tt tt "console=ttyS0" (Script.world []))
    as [[[[m' e] s'] evs]|] eqn:E; [|contradiction].
  subst e.
  exact (proj1 (LoadLinux_registers _ _ _ _ _ _ _ _ E) 0%nat 5 eq_refl).
Defined.

(** The trace of [LoadLinux] on the scripted host, in full. *)
Example LoadLinux_on_host :
  BootedTrace.trace =
  [EvIoctl 5 kvm.kvmGetRegs (kvm.ArgRegs kvm.Regs_zero) 0;
   EvIoctl 5 kvm.kvmSetRegs
     (kvm.ArgRegs (kvm.mkRegs 0 0 0 0 0x10000 0 0 0 0 0 0 0 0 0 0 0 0x100000 2)) 0;
   EvIoctl 5 kvm.kvmGetSregs (kvm.ArgSregs kvm.Sregs_zero) 0;
   EvIoctl 5 kvm.kvmSetSregs
     (kvm.ArgSregs
        (let code := kvm.mkSegment 0 0xFFFFFFFF 0 0 0 0 1 0 0 1 0 0 in
         let data := kvm.mkSegment 0 0xFFFFFFFF 0 0 0 0 0 0 0 1 0 0 in
         kvm.mkSregs code data data data data code
           kvm.Segment_zero kvm.Segment_zero
           (kvm.mkDescriptor 0 0) (kvm.mkDescriptor 0 0)
           1 0 0 0 0 0 0 [0; 0; 0; 0])) 0].
Proof. vm_compute. reflexivity. Qed.

(** ** Machine creation *)

Section Emits.
Context `{Platform}.

(** Every event of the computation satisfies [P], however it ends. *)
Definition emits (P : Event -> Prop) {A} (c : M A) : Prop :=
  forall s a s' t, c s = Ret (a, s', t) -> Forall P t.

Lemma emits_ret P {A} (a : A) : emits P (ret a).
Proof. intros s b s' t Hr. apply ret_Ret in Hr. destruct Hr as (_ & _ & ->). constructor. Qed.

Lemma emits_panic P {A} why : emits P (@panic _ A why).
Proof. intros s b s' t Hr. discriminate. Qed.

Lemma emits_bind P {A B} (c : M A) (k : A -> M B) :
  emits P c -> (forall a, emits P (k a)) -> emits P (bind c k).
Proof.
  intros Hc Hk s b s' t Hb. apply bind_Ret in Hb.
  destruct Hb as (a & s1 & t1 & t2 & H1 & H2 & ->).
  apply Forall_app. split; [exact (Hc _ _ _ _ H1) | exact (Hk a _ _ _ _ H2)].
Qed.

Lemma emits_emit P e : P e -> emits P (emit e).
Proof. intros He s a s' t [= _ _ <-]. repeat constructor. exact He. Qed.

Lemma emits_ext P {A} (f : Sys K -> A * Sys K) : emits P (ext f).
Proof. intros s a s' t Hr. apply ext_Ret in Hr. destruct Hr as (_ & ->). constructor. Qed.

Lemma emits_index P {A} (xs : list A) i : emits P (index xs i).
Proof.
  intros s a s' t Hr. apply index_Ret in Hr.
  destruct Hr as (_ & _ & _ & ->). constructor.
Qed.

Lemma emits_lift P {A} (o : outcome A) : emits P (lift o).
Proof. destruct o; [apply emits_ret | apply emits_panic]. Qed.

Lemma emits_slice_from P b lo : emits P (slice_from b lo).
Proof. intros s a s' t Hr. apply slice_from_Ret in Hr. subst t. constructor. Qed.

Lemma emits_copy P dst src : emits P (copy dst src).
Proof. intros s a s' t Hr. apply copy_Ret in Hr. subst t. constructor. Qed.

Lemma emits_ioctl P fd op arg :
  (forall errno, P (EvIoctl fd op arg errno)) -> emits P (ioctl fd op arg).
Proof.
  intros HP s [[res out] err] s' t Hr. apply ioctl_Ret in Hr.
  destruct Hr as (errno & -> & _). repeat constructor. apply HP.
Qed.

Lemma emits_loop_err P {S} (body : Z -> S -> M (S * option error)) n :
  (forall i x, emits P (body i x)) ->
  forall i x, emits P (loop_err n i body x).
Proof.
  intros Hbody. induction n as [|n IH]; intros i x.
  - apply emits_ret.
  - simpl. apply emits_bind; [apply Hbody|]. intros [x' [e|]]; simpl.
    + apply emits_ret.
    + apply IH.
Qed.

End Emits.

(** A request that concerns guest RAM asks for exactly 1 GiB: an
    anonymous mapping has that length, and a memory region is slot 0 at
    guest physical 0 with that size. *)
Definition ram_fixed (ev : Event) : Prop :=
  match ev with
  | EvMmap _ length flags =>
      Z.land flags MAP_ANONYMOUS <> 0 -> length = 1073741824
  | EvIoctl _ op arg _ =>
      op = kvm.kvmSetUserMemoryRegion ->
      exists addr, arg = kvm.ArgMemRegion (kvm.mkRegion 0 0 0 1073741824 addr)
  | _ => True
  end.

Ltac emits_step :=
  first
    [ apply emits_ret | apply emits_panic | apply emits_ext
    | apply emits_index | apply emits_lift | apply emits_slice_from
    | apply emits_copy
    | apply emits_emit
    | apply emits_ioctl; intros ?
    | apply emits_loop_err; intros ? ?
    | apply emits_bind; [|intros ?]
    | match goal with
      | |- emits _ (match ?x with _ => _ end) => destruct x
      end
    | progress cbv beta zeta ].

Ltac ram_side :=
  simpl; try exact I;
  try (intros E; vm_compute in E; discriminate E);
  try (intros E; exfalso; apply E; vm_compute; reflexivity);
  try (intros _; eexists; reflexivity);
  try (intros _; reflexivity).

Ltac unfold_kvm :=
  unfold CreateVM, CreateVCPU, GetVCPUMMmapSize, SetUserMemoryRegion,
    SetTSSAddr, SetIdentityMapAddr, CreateIRQChip, CreatePIT2,
    GetSupportedCPUID, SetCPUID2, mmap.

Section NewFacts.
Context `{Platform}.

Lemma initCPUID_ram m i : emits ram_fixed (initCPUID m i).
Proof.
  unfold initCPUID. unfold_kvm.
  repeat emits_step; ram_side.
Qed.

Lemma new_vcpu_ram mmapSize i m : emits ram_fixed (new_vcpu mmapSize i m).
Proof.
  unfold new_vcpu. unfold_kvm.
  repeat first [apply initCPUID_ram | emits_step]; ram_side.
Qed.

Lemma New_ram nCpus tapIfName diskPath :
  emits ram_fixed (New nCpus tapIfName diskPath).
Proof.
  unfold New. unfold_kvm.
  repeat first [apply new_vcpu_ram | emits_step]; ram_side.
Qed.

End NewFacts.

Ltac inv_step Hb :=
  let a := fresh "a" in
  let s1 := fresh "s" in
  let t1 := fresh "t" in
  let t2 := fresh "t" in
  let Hc := fresh "Hc" in
  lazymatch type of Hb with
  | bind _ _ _ = Ret _ =>
      apply bind_Ret in Hb; destruct Hb as (a & s1 & t1 & t2 & Hc & Hb & ->)
  | ret _ _ = Ret _ =>
      apply ret_Ret in Hb; destruct Hb as (Hb & _ & ->)
  | panic _ _ = Ret _ => discriminate Hb
  | (match ?x with _ => _ end) _ = Ret _ => destruct x eqn:?
  end.

Section NewSuccess.
Context `{Platform}.

Lemma mmap_Ret fd length flags s r s' t :
  mmap fd length flags s = Ret (r, s', t) -> t = [EvMmap fd length flags].
Proof.
  unfold mmap. intros Hb. inv_step Hb.
  apply ext_Ret in Hb. destruct Hb as (_ & ->).
  injection Hc as _ _ <-. reflexivity.
Qed.

Lemma SetUserMemoryRegion_Ret fd region s s' t :
  SetUserMemoryRegion fd region s = Ret (None, s', t) ->
  t = [EvIoctl fd kvm.kvmSetUserMemoryRegion (kvm.ArgMemRegion region) 0].
Proof.
  unfold SetUserMemoryRegion. intros Hb. inv_step Hb.
  destruct a as [[res out] err].
  apply ioctl_Ret in Hc. destruct Hc as (errno & -> & ->).
  apply ret_Ret in Hb. destruct Hb as (Hb & _ & ->).
  symmetry in Hb. apply errno_error_None in Hb. subst errno. reflexivity.
Qed.

Lemma new_vcpu_vmFd mmapSize i m s m' e s' t :
  new_vcpu mmapSize i m s = Ret ((m', e), s', t) -> vmFd m' = vmFd m.
Proof.
  unfold new_vcpu. intros Hb.
  repeat inv_step Hb; injection Hb as -> _; reflexivity.
Qed.

Lemma vcpu_loop_vmFd mmapSize n : forall i m s m' e s' t,
  loop_err n i (new_vcpu mmapSize) m s = Ret ((m', e), s', t) ->
  vmFd m' = vmFd m.
Proof.
  induction n as [|n IH]; intros i m s m' e s' t Hb; simpl in Hb.
  - apply ret_Ret in Hb. destruct Hb as ([= -> _] & _). reflexivity.
  - inv_step Hb. destruct a as [m1 e1]. simpl in Hb.
    apply new_vcpu_vmFd in Hc. destruct e1.
    + apply ret_Ret in Hb. destruct Hb as ([= -> _] & _). exact Hc.
    + apply IH in Hb. congruence.
Qed.

(** A successful [New] has mapped [memSize] bytes of anonymous shared
    memory and has installed them as the one memory region of the VM. *)
Lemma New_Ret nCpus tapIfName diskPath s om s' evs :
  New nCpus tapIfName diskPath s = Ret ((om, None), s', evs) ->
  exists m, om = Some m /\
    In (EvMmap (-1) memSize (Z.lor MAP_SHARED MAP_ANONYMOUS)) evs /\
    In (EvIoctl (vmFd m) kvm.kvmSetUserMemoryRegion
          (kvm.ArgMemRegion
             (kvm.mkRegion 0 0 0 (Z.shiftl 1 30) (ptr (mem m)))) 0) evs.
Proof.
  unfold New. intros Hb.
  repeat inv_step Hb; try discriminate Hb.
  injection Hb as ->.
  match goal with
  | Hm : mmap (-1) memSize _ _ = Ret _ |- _ => apply mmap_Ret in Hm; subst
  end.
  match goal with
  | Hr : SetUserMemoryRegion _ _ _ = Ret _ |- _ =>
      apply SetUserMemoryRegion_Ret in Hr; subst
  end.
  match goal with
  | Hl : loop_err _ _ (new_vcpu _) _ _ = Ret _ |- _ =>
      apply vcpu_loop_vmFd in Hl; cbn [vmFd set_vmFd] in Hl
  end.
  eexists. split; [reflexivity|]. cbn [vmFd mem set_pci set_mem] in *.
  split; rewrite !in_app_iff; simpl; tauto.
Qed.

(** C9 (amended).  Machine creation takes no memory size: whatever the
    arguments of [New] and however it ends, every anonymous mapping it
    requests has length 1 GiB and every memory region it installs is slot
    0 at guest physical 0 with size 1 GiB; and when [New] returns a nil
    error it returns a machine for which it has requested one anonymous
    shared mapping of 1 GiB and has installed, by a successful
    KVM_SET_USER_MEMORY_REGION on the VM, the memory of the machine as
    that region.  The size is the constant [memSize]; no size is rejected. *)
Theorem New_memory_fixed nCpus tapIfName diskPath s om err s' evs :
  New nCpus tapIfName diskPath s = Ret ((om, err), s', evs) ->
  memSize = 1073741824 /\
  Forall ram_fixed evs /\
  (err = None ->
   exists m, om = Some m /\
     In (EvMmap (-1) 1073741824 (Z.lor MAP_SHARED MAP_ANONYMOUS)) evs /\
     In (EvIoctl (vmFd m) kvm.kvmSetUserMemoryRegion
           (kvm.ArgMemRegion
              (kvm.mkRegion 0 0 0 1073741824 (ptr (mem m)))) 0) evs).
Proof.
  intros Hret. split; [reflexivity|]. split.
  - exact (New_ram nCpus tapIfName diskPath s _ s' evs Hret).
  - intros ->. exact (New_Ret nCpus tapIfName diskPath s om s' evs Hret).
Qed.

End NewSuccess.

(** Whether an event asks for guest RAM: an anonymous mapping, or a
    memory region of the VM. *)
Definition ram_request (ev : Event) : bool :=
  match ev with
  | EvMmap _ _ flags => negb (Z.land flags MAP_ANONYMOUS =? 0)
  | EvIoctl _ op _ _ => op =? kvm.kvmSetUserMemoryRegion
  | _ => false
  end.

Module Created.
Import Script.

(** [New(1, "tap0", "vda.img")] on the scripted host: its result and its
    trace. *)
Definition result : option Machine * option error :=
  value_or (None, None) (@New host 1 "tap0" "vda.img" (world [])).

Definition trace : list Event :=
  trace_of (@New host 1 "tap0" "vda.img" (world [])).

End Created.

(** C9 (witness): on the scripted host [New] succeeds, and the requests
    for guest RAM in its trace are for 1 GiB. *)
Lemma New_memory_fixed_witness :
  Forall ram_fixed Created.trace /\
  In (EvMmap (-1) 1073741824 (Z.lor MAP_SHARED MAP_ANONYMOUS)) Created.trace.
Proof.
  assert (Hobs :
    match @New Script.host 1 "tap0" "vda.img" (Script.world []) with
    | Ret ((_, e), _, _) => e = None
    | Panic _ => False
    end) by (vm_compute; reflexivity).
  unfold Created.trace, trace_of.
  destruct (@New Script.host 1 "tap0" "vda.img" (Script.world []))
    as [[[[om e] s'] evs]|] eqn:E; [|contradiction].
  destruct (New_memory_fixed _ _ _ _ _ _ _ _ E) as (_ & Hall & Hok).
  destruct (Hok Hobs) as (m & _ & Hmap & _).
  split; [exact Hall | exact Hmap].
Defined.

(** C9 (counterexample).  [New] has no parameter for the memory size: on
    the scripted host [New(1, "tap0", "vda.img")] succeeds, the memory of
    the machine is 1073741824 bytes long, and its only requests for guest
    RAM are one anonymous shared mapping and one memory region of that
    size.  No smaller size can be asked for, and none is refused. *)
Lemma New_memory_fixed_counterexample :
  snd Created.result = None /\
  option_map mem (fst Created.result)
    = Some (mkSlice Script.ram_base 1073741824 1073741824) /\
  List.filter ram_request Created.trace =
    [EvMmap (-1) 1073741824 (Z.lor MAP_SHARED MAP_ANONYMOUS);
     EvIoctl 4 kvm.kvmSetUserMemoryRegion
       (kvm.ArgMemRegion (kvm.mkRegion 0 0 0 1073741824 Script.ram_base)) 0].
Proof. vm_compute. repeat split; reflexivity. Qed.

(** * Further properties of the code *)

(** ** Package kvm *)

(** [IO] loses nothing of [Data[0]]: direction, size, port and count are
    an 8-bit, an 8-bit, a 16-bit and a 32-bit number that put together
    give [Data[0]] back, and the offset is [Data[1]].  In particular the
    port is always below 0x10000, while the direction may be as large as
    255. *)
Theorem IO_decode_lossless mem run :
  let '(direction, size, port, count, offset) := kvm.IO mem run in
  0 <= direction < 2 ^ 8 /\ 0 <= size < 2 ^ 8 /\
  0 <= port < 2 ^ 16 /\ 0 <= count < 2 ^ 32 /\
  kvm.Data mem run 0
    = direction + size * 2 ^ 8 + port * 2 ^ 16 + count * 2 ^ 32 /\
  offset = kvm.Data mem run 1.
Proof.
  rewrite IO_fields. pose proof (Data_range mem run 0) as Hw.
  set (w := kvm.Data mem run 0) in *.
  repeat split; try (apply Z.mod_pos_bound; lia).
  change (2 ^ 64) with 18446744073709551616 in Hw.
  change (2 ^ 8) with 256. change (2 ^ 16) with 65536.
  change (2 ^ 32) with 4294967296.
  Z.to_euclidean_division_equations. lia.
Qed.

(** [SetMemLogDirtyPages] and [SetMemReadonly] set bit 0 and bit 1 of
    [Flags] and nothing else: they commute, each is idempotent, the other
    bits of [Flags] and the other fields of the region are kept, and
    [Flags] stays a 32-bit number. *)
Theorem region_flags_compose (r : kvm.UserspaceMemoryRegion) :
  0 <= kvm.Flags r < 2 ^ 32 ->
  let both := kvm.SetMemReadonly (kvm.SetMemLogDirtyPages r) in
  kvm.SetMemLogDirtyPages (kvm.SetMemReadonly r) = both /\
  kvm.SetMemLogDirtyPages (kvm.SetMemLogDirtyPages r)
    = kvm.SetMemLogDirtyPages r /\
  kvm.SetMemReadonly (kvm.SetMemReadonly r) = kvm.SetMemReadonly r /\
  (forall i, 0 <= i ->
     Z.testbit (kvm.Flags (kvm.SetMemLogDirtyPages r)) i
       = (i =? 0) || Z.testbit (kvm.Flags r) i) /\
  (forall i, 0 <= i ->
     Z.testbit (kvm.Flags (kvm.SetMemReadonly r)) i
       = (i =? 1) || Z.testbit (kvm.Flags r) i) /\
  0 <= kvm.Flags both < 2 ^ 32 /\
  (kvm.Slot both, kvm.GuestPhysAddr both, kvm.MemorySize both,
   kvm.UserspaceAddr both)
  = (kvm.Slot r, kvm.GuestPhysAddr r, kvm.MemorySize r, kvm.UserspaceAddr r).
Proof.
  intros Hr. unfold kvm.SetMemReadonly, kvm.SetMemLogDirtyPages. simpl.
  change (Z.shiftl 1 0) with 1. change (Z.shiftl 1 1) with 2.
  assert (Hbit1 : forall i, 0 <= i -> Z.testbit 1 i = (i =? 0)).
  { intros i Hi. destruct (Z.eqb_spec i 0) as [->|Hn]; [reflexivity|].
    change 1 with (2 ^ 0). apply Z.pow2_bits_false. lia. }
  assert (Hbit2 : forall i, 0 <= i -> Z.testbit 2 i = (i =? 1)).
  { intros i Hi. destruct (Z.eqb_spec i 1) as [->|Hn]; [reflexivity|].
    change 2 with (2 ^ 1). apply Z.pow2_bits_false. lia. }
  split; [f_equal; rewrite <- !Z.lor_assoc; f_equal; apply Z.lor_comm|].
  split; [f_equal; rewrite <- Z.lor_assoc; reflexivity|].
  split; [f_equal; rewrite <- Z.lor_assoc; reflexivity|].
  split; [intros i Hi; rewrite Z.lor_spec, Hbit1 by exact Hi; apply orb_comm|].
  split; [intros i Hi; rewrite Z.lor_spec, Hbit2 by exact Hi; apply orb_comm|].
  split; [|reflexivity].
  rewrite <- Z.lor_assoc. change (Z.lor 1 2) with 3.
  assert (Hnn : 0 <= Z.lor (kvm.Flags r) 3) by (apply Z.lor_nonneg; lia).
  split; [exact Hnn|].
  assert (Hpos : 0 < Z.lor (kvm.Flags r) 3).
  { assert (Z.lor (kvm.Flags r) 3 <> 0) by (rewrite Z.lor_eq_0_iff; lia). lia. }
  apply Z.log2_lt_pow2; [exact Hpos|].
  rewrite Z.log2_lor by lia. change (Z.log2 3) with 1.
  destruct (Z.eq_dec (kvm.Flags r) 0) as [->|Hn]; [simpl; lia|].
  assert (Hlog : Z.log2 (kvm.Flags r) < 32) by (apply Z.log2_lt_pow2; lia).
  lia.
Qed.

(** The flag setters on a region without flags. *)
Lemma region_flags_compose_witness :
  0 <= kvm.Flags (kvm.SetMemReadonly (kvm.SetMemLogDirtyPages
                    (kvm.mkRegion 0 0 0 1073741824 0))) < 2 ^ 32.
Proof.
  exact (proj1 (proj2 (proj2 (proj2 (proj2 (proj2
    (region_flags_compose (kvm.mkRegion 0 0 0 1073741824 0)
       ltac:(simpl; lia)))))))).
Defined.

(** ** Interrupt injection for the virtio devices *)

Section VirtioIRQ.
Context `{Platform}.

(** The edge that the three injection functions raise on a line. *)
Definition raise_edge (vmFd irq : Z) : M (option error) :=
  err <- IRQLine vmFd irq 0 ;;
  match err with
  | Some e => ret (Some e)
  | None =>
      err <- IRQLine vmFd irq 1 ;;
      match err with
      | Some e => ret (Some e)
      | None => ret None
      end
  end.

(** How an edge may end: both levels set, or the first alone, failed. *)
Definition edge_shape (vmFd irq : Z)
  (o : outcome (option error * Sys K * list Event)) : Prop :=
  exists r s' evs,
    o = Ret (r, s', evs) /\
    ((exists errno2,
        evs = [irq_line vmFd irq 0 0; irq_line vmFd irq 1 errno2] /\
        (r = None <-> errno2 = 0) /\
        (errno2 <> 0 -> r = Some (Errno errno2)))
     \/
     (exists errno1,
        errno1 <> 0 /\
        evs = [irq_line vmFd irq 0 errno1] /\
        r = Some (Errno errno1))).

Lemma raise_edge_shape vmFd irq s : edge_shape vmFd irq (raise_edge vmFd irq s).
Proof.
  unfold raise_edge, edge_shape.
  destruct (sys_ioctl vmFd kvm.kvmIRQLine
              (kvm.ArgIRQLevel (kvm.mkIRQLevel irq 0)) s)
    as [[[res1 errno1] out1] s1] eqn:E1.
  unfold bind at 1. rewrite (IRQLine_eq _ _ _ _ _ _ _ _ E1).
  destruct (Z.eqb_spec errno1 0) as [->|Hne1].
  - destruct (sys_ioctl vmFd kvm.kvmIRQLine
                (kvm.ArgIRQLevel (kvm.mkIRQLevel irq 1)) s1)
      as [[[res2 errno2] out2] s2] eqn:E2.
    unfold bind at 1. rewrite (IRQLine_eq _ _ _ _ _ _ _ _ E2).
    destruct (Z.eqb_spec errno2 0) as [->|Hne2]; simpl;
      do 3 eexists; (split; [reflexivity|]); left.
    + exists 0. repeat split; intros; congruence.
    + exists errno2. repeat split; intros; congruence.
  - simpl. do 3 eexists. split; [reflexivity|]. right.
    exists errno1. auto.
Qed.

(** [InjectVirtioNetIRQ] always returns, and its system calls are IRQ-line
    operations on line 10 of the VM: level 0 then level 1, the first
    having succeeded, with nil returned exactly when the second succeeds
    too; or level 0 alone, which failed, with its error returned. *)
Theorem InjectVirtioNetIRQ_edge m s :
  edge_shape (vmFd m) 10 (InjectVirtioNetIRQ m s).
Proof. exact (raise_edge_shape (vmFd m) virtioNetIRQ s). Qed.

(** [InjectVirtioBlkIRQ] always returns, and its system calls are IRQ-line
    operations on line 9 of the VM: level 0 then level 1, the first having
    succeeded, with nil returned exactly when the second succeeds too; or
    level 0 alone, which failed, with its error returned. *)
Theorem InjectVirtioBlkIRQ_edge m s :
  edge_shape (vmFd m) 9 (InjectVirtioBlkIRQ m s).
Proof. exact (raise_edge_shape (vmFd m) virtioBlkIRQ s). Qed.

End VirtioIRQ.

(** ** CPUID set-up *)

(** What the loop of [initCPUID] makes of one entry. *)
Definition patched (e : kvm.CPUIDEntry2) : kvm.CPUIDEntry2 :=
  if kvm.Function e =? kvm.CPUIDFuncPerMon then kvm.set_Eax 0 e
  else if kvm.Function e =? kvm.CPUIDSignature then
    kvm.set_Edx 0x4d (kvm.set_Ecx 0x564b4d56 (kvm.set_Ebx 0x4b4d564b
      (kvm.set_Eax kvm.CPUIDFeatures e)))
  else e.

(** The entry at [k] after the loop has run over the first [nent]
    entries, in terms of the entry before. *)
Definition entry_patched (nent : Z) (k : nat) (e e' : kvm.CPUIDEntry2) : Prop :=
  kvm.Function e' = kvm.Function e /\ kvm.Index e' = kvm.Index e /\
  kvm.EFlags e' = kvm.EFlags e /\
  (Z.of_nat k < nent -> kvm.Function e = 0x0A ->
     kvm.Eax e' = 0 /\ kvm.Ebx e' = kvm.Ebx e /\ kvm.Ecx e' = kvm.Ecx e /\
     kvm.Edx e' = kvm.Edx e) /\
  (Z.of_nat k < nent -> kvm.Function e = 0x40000000 ->
     kvm.Eax e' = 0x40000001 /\ kvm.Ebx e' = 0x4b4d564b /\
     kvm.Ecx e' = 0x564b4d56 /\ kvm.Edx e' = 0x4d) /\
  ((nent <= Z.of_nat k \/
    (kvm.Function e <> 0x0A /\ kvm.Function e <> 0x40000000)) -> e' = e).

Lemma patch_entry_Ret i c :
  0 <= i < 100 ->
  patch_entry i c =
  Ret (kvm.mkCPUID (kvm.Nent c) (kvm.Padding c)
         (<[Z.to_nat i :=
              patched (default kvm.Entry_zero (kvm.Entries c !! Z.to_nat i))]>
            (kvm.Entries c))).
Proof.
  intros Hi. unfold patch_entry, patched.
  rewrite (proj2 (Z.leb_le 0 i)), (proj2 (Z.ltb_lt i 100)) by lia.
  reflexivity.
Qed.

Lemma patch_loop_Ret n : forall i0 c,
  0 <= i0 -> i0 + Z.of_nat n <= 100 ->
  exists c',
    for_loop n i0 patch_entry c = Ret c' /\
    kvm.Nent c' = kvm.Nent c /\ kvm.Padding c' = kvm.Padding c /\
    forall k : nat,
      kvm.Entries c' !! k =
      if bool_decide (i0 <= Z.of_nat k < i0 + Z.of_nat n)
      then patched <$> (kvm.Entries c !! k)
      else kvm.Entries c !! k.
Proof.
  induction n as [|n IH]; intros i0 c Hi0 Hn.
  - exists c. repeat split. intros k.
    rewrite bool_decide_eq_false_2 by lia. reflexivity.
  - simpl for_loop. rewrite patch_entry_Ret by lia.
    set (c1 := kvm.mkCPUID _ _ _).
    destruct (IH (i0 + 1) c1 ltac:(lia) ltac:(lia)) as (c' & E & Hnent & Hpad & Hent).
    exists c'. split; [exact E|]. split; [exact Hnent|]. split; [exact Hpad|].
    intros k. rewrite Hent. subst c1. cbn [kvm.Entries].
    destruct (decide (Z.to_nat i0 = k)) as [<-|Hne].
    + rewrite bool_decide_eq_false_2 by lia.
      rewrite bool_decide_eq_true_2 by lia.
      destruct (kvm.Entries c !! Z.to_nat i0) as [e|] eqn:El.
      * rewrite list_lookup_insert_eq by (apply lookup_lt_Some in El; exact El).
        reflexivity.
      * simpl. apply list_lookup_insert_None. exact El.
    + rewrite list_lookup_insert_ne by exact Hne.
      destruct (bool_decide (i0 + 1 <= Z.of_nat k < i0 + 1 + Z.of_nat n)) eqn:Eb.
      * apply bool_decide_eq_true in Eb.
        rewrite bool_decide_eq_true_2 by lia. reflexivity.
      * apply bool_decide_eq_false in Eb.
        rewrite bool_decide_eq_false_2 by lia. reflexivity.
Qed.

(** The loop runs into the end of the array when told of more than 100
    entries. *)
Lemma patch_loop_Panic n : forall i0 c,
  0 <= i0 <= 100 -> 100 < i0 + Z.of_nat n ->
  for_loop n i0 patch_entry c = Panic "index out of range".
Proof.
  induction n as [|n IH]; intros i0 c Hi0 Hn; [lia|].
  simpl for_loop. destruct (Z.eq_dec i0 100) as [->|Hne].
  - reflexivity.
  - rewrite patch_entry_Ret by lia. apply IH; lia.
Qed.

Lemma patched_spec nent k e :
  entry_patched nent k e (if bool_decide (0 <= Z.of_nat k < 0 + nent)
                          then patched e else e).
Proof.
  unfold entry_patched, patched, kvm.CPUIDFuncPerMon, kvm.CPUIDSignature,
    kvm.CPUIDFeatures.
  destruct (bool_decide _) eqn:Eb.
  - apply bool_decide_eq_true in Eb.
    destruct (Z.eqb_spec (kvm.Function e) 10) as [E1|E1];
      [|destruct (Z.eqb_spec (kvm.Function e) 1073741824) as [E2|E2]];
      simpl; repeat split; intros; try reflexivity; try lia.
  - apply bool_decide_eq_false in Eb.
    repeat split; intros; try reflexivity; lia.
Qed.

Section CPUIDFacts.
Context `{Platform}.

(** The argument that [initCPUID] hands to [KVM_GET_SUPPORTED_CPUID]. *)
Definition cpuid_request : kvm.ioarg :=
  kvm.ArgCPUID (kvm.mkCPUID 100 0 (kvm.Entries kvm.CPUID_zero)).

(** [initCPUID] patches what the kernel supports and hands it to the VCPU:
    when [KVM_GET_SUPPORTED_CPUID] succeeds and reports at most 100
    entries, [initCPUID] issues [KVM_SET_CPUID2] on the VCPU with the
    kernel's table in which, among the reported entries, every entry of
    function 0x0A (performance monitoring) has EAX cleared and every
    entry of function 0x40000000 carries the features leaf 0x40000001 in
    EAX and the signature KVMKVMKVM in EBX, ECX, EDX; every other entry
    and every other field is as the kernel gave it.  It returns the error
    of that ioctl. *)
Theorem initCPUID_patches m i fd s res c0 s1 :
  0 <= i ->
  vcpuFds m !! Z.to_nat i = Some fd ->
  sys_ioctl (kvmFd m) kvm.kvmGetSupportedCPUID cpuid_request s
    = ((res, 0, kvm.ArgCPUID c0), s1) ->
  kvm.Nent c0 <= 100 ->
  exists c,
    (let '((_, errno, _), s2) :=
       sys_ioctl fd kvm.kvmSetCPUID2 (kvm.ArgCPUID c) s1 in
     initCPUID m i s =
     Ret (errno_error errno, s2,
          [EvIoctl (kvmFd m) kvm.kvmGetSupportedCPUID cpuid_request 0;
           EvIoctl fd kvm.kvmSetCPUID2 (kvm.ArgCPUID c) errno])) /\
    kvm.Nent c = kvm.Nent c0 /\ kvm.Padding c = kvm.Padding c0 /\
    length (kvm.Entries c) = length (kvm.Entries c0) /\
    forall k e, kvm.Entries c0 !! k = Some e ->
      exists e', kvm.Entries c !! k = Some e' /\
                 entry_patched (kvm.Nent c0) k e e'.
Proof.
  intros Hi Hfd E Hnent.
  destruct (patch_loop_Ret (Z.to_nat (kvm.Nent c0 - 0)) 0 c0 ltac:(lia)
              ltac:(lia)) as (c & Eloop & Hn & Hp & Hent).
  exists c. split; [|split; [exact Hn|split; [exact Hp|split]]].
  - destruct (sys_ioctl fd kvm.kvmSetCPUID2 (kvm.ArgCPUID c) s1)
      as [[[res2 errno2] out2] s2] eqn:E2.
    unfold initCPUID, GetSupportedCPUID, SetCPUID2, ioctl, for_below.
    fold cpuid_request.
    unfold bind, ext, emit, ret, lift. rewrite E. simpl.
    rewrite Eloop. unfold index.
    rewrite (proj2 (Z.leb_le 0 i) Hi), Hfd. unfold ret. rewrite E2.
    unfold errno_error. destruct (errno2 =? 0); reflexivity.
  - apply Nat.le_antisymm.
    + destruct (kvm.Entries c !! length (kvm.Entries c0)) eqn:El.
      * rewrite Hent in El.
        rewrite (lookup_ge_None_2 (kvm.Entries c0)) in El by lia.
        destruct (bool_decide _); discriminate.
      * apply lookup_ge_None_1 in El. exact El.
    + destruct (kvm.Entries c0 !! length (kvm.Entries c)) eqn:El.
      * pose proof (Hent (length (kvm.Entries c))) as Hk.
        rewrite (lookup_ge_None_2 (kvm.Entries c)) in Hk by lia.
        rewrite El in Hk. destruct (bool_decide _); discriminate.
      * apply lookup_ge_None_1 in El. exact El.
  - intros k e Hk. rewrite Hent, Hk.
    replace (0 + Z.of_nat (Z.to_nat (kvm.Nent c0 - 0)))
      with (0 + Z.max 0 (kvm.Nent c0)) by lia.
    pose proof (patched_spec (kvm.Nent c0) k e) as Hs.
    destruct (bool_decide (0 <= Z.of_nat k < 0 + kvm.Nent c0)) eqn:Eb.
    + apply bool_decide_eq_true in Eb.
      rewrite bool_decide_eq_true_2 by lia. eexists. split; [reflexivity|exact Hs].
    + apply bool_decide_eq_false in Eb.
      rewrite bool_decide_eq_false_2 by lia. eexists. split; [reflexivity|exact Hs].
Qed.

(** The array of entries holds 100: when the kernel reports more,
    [initCPUID] panics on the index check of the loop, before any
    [KVM_SET_CPUID2]. *)
Theorem initCPUID_overrun m i s res c0 s1 :
  sys_ioctl (kvmFd m) kvm.kvmGetSupportedCPUID cpuid_request s
    = ((res, 0, kvm.ArgCPUID c0), s1) ->
  100 < kvm.Nent c0 ->
  initCPUID m i s = Panic "index out of range".
Proof.
  intros E Hnent.
  unfold initCPUID, GetSupportedCPUID, ioctl, for_below. fold cpuid_request.
  unfold bind, ext, emit, ret, lift. rewrite E. simpl.
  rewrite (patch_loop_Panic (Z.to_nat (kvm.Nent c0 - 0)) 0 c0) by lia.
  reflexivity.
Qed.

End CPUIDFacts.

(** ** The router, port by port *)

(** Every panic of a statement over the table is the bounds check. *)
Definition oob (c : Table -> outcome Table) : Prop :=
  forall t why, c t = Panic why -> why = "index out of range".

Lemma oob_set port dir f : oob (table_set port dir f).
Proof.
  intros t why. unfold table_set. destruct (in_table port dir); [discriminate|].
  intros [= <-]. reflexivity.
Qed.

Lemma oob_block stmts : Forall oob stmts -> oob (block stmts).
Proof.
  induction 1 as [|c cs Hc _ IH]; intros t why; simpl; [discriminate|].
  destruct (c t) as [t1|w] eqn:E.
  - apply IH.
  - intros [= <-]. exact (Hc t w E).
Qed.

Lemma oob_loop n : forall i (body : Z -> Table -> outcome Table),
  (forall port, oob (body port)) -> oob (for_loop n i body).
Proof.
  induction n as [|n IH]; intros i body Hbody t why; simpl; [discriminate|].
  destruct (body i t) as [t1|w] eqn:E.
  - apply IH. exact Hbody.
  - intros [= <-]. exact (Hbody i t w E).
Qed.

Lemma oob_below lo hi (body : Z -> Table -> outcome Table) :
  (forall port, oob (body port)) -> oob (for_below lo hi body).
Proof. apply oob_loop. Qed.

Lemma oob_upto lo hi (body : Z -> Table -> outcome Table) :
  (forall port, oob (body port)) -> oob (for_upto lo hi body).
Proof. apply oob_loop. Qed.

Ltac oob_tac :=
  repeat match goal with
         | |- oob (table_set _ _ _) => apply oob_set
         | |- oob (for_below _ _ _) => apply oob_below; intros ?
         | |- oob (for_upto _ _ _) => apply oob_upto; intros ?
         | |- oob (block _) => apply oob_block
         | |- Forall oob (_ :: _) => apply List.Forall_cons
         | |- Forall oob [] => apply List.Forall_nil
         end.

(** A loop that returns has run its body, with success, at every index. *)
Lemma for_loop_Ret_body {S} n : forall i (body : Z -> S -> outcome S) s s',
  for_loop n i body s = Ret s' ->
  forall k, i <= k < i + Z.of_nat n -> exists s1 s2, body k s1 = Ret s2.
Proof.
  induction n as [|n IH]; intros i body s s' E k Hk; [lia|].
  simpl in E. destruct (body i s) as [s1|] eqn:E1; [|discriminate].
  destruct (Z.eq_dec k i) as [->|Hne]; [eauto|].
  apply (IH (i + 1) body s1 s' E). lia.
Qed.

Lemma block_Ret_each {S} (stmts : list (S -> outcome S)) : forall s s',
  block stmts s = Ret s' ->
  forall stmt, In stmt stmts -> exists s1 s2, stmt s1 = Ret s2.
Proof.
  induction stmts as [|c cs IH]; intros s s' E stmt Hin; [destruct Hin|].
  simpl in E. destruct (c s) as [s1|] eqn:E1; [|discriminate].
  destruct Hin as [<-|Hin]; [eauto|]. exact (IH s1 s' E stmt Hin).
Qed.

Lemma table_set_Ret port dir f t t' :
  table_set port dir f t = Ret t' -> in_table port dir = true.
Proof. unfold table_set. destruct (in_table port dir); [auto|discriminate]. Qed.

Section RouterRanges.
Context `{Platform}.

(** [port] lies in the I/O range of [dev]. *)
Definition claims (dev : Device) (port : Z) : Prop :=
  fst (GetIORange dev) <= port < snd (GetIORange dev).

Lemma device_port_true devs port :
  device_port devs port = true <-> exists dev, In dev devs /\ claims dev port.
Proof.
  unfold device_port, claims. rewrite existsb_exists.
  split; intros (dev & Hin & Hc); exists dev; (split; [exact Hin|]);
    unfold in_device in *.
  - apply andb_true_iff in Hc. rewrite Z.leb_le, Z.ltb_lt in Hc. exact Hc.
  - apply andb_true_iff. rewrite Z.leb_le, Z.ltb_lt. exact Hc.
Qed.

Lemma device_port_false devs port :
  (forall dev, In dev devs -> ~ claims dev port) ->
  device_port devs port = false.
Proof.
  intros Hno. destruct (device_port devs port) eqn:E; [|reflexivity].
  apply device_port_true in E. destruct E as (dev & Hin & Hc).
  destruct (Hno dev Hin Hc).
Qed.

Lemma install_device_Ret dev t t' :
  install_device dev t = Ret t' -> device_ok dev.
Proof.
  unfold install_device, device_ok, for_below.
  destruct (GetIORange dev) as [start end_]. simpl. intros E Hlt.
  assert (Hport : forall k, start <= k < end_ -> 0 <= k < nPorts).
  { intros k Hk.
    destruct (for_loop_Ret_body _ _ _ _ _ E k ltac:(lia)) as (t1 & t2 & Eb).
    simpl in Eb.
    destruct (table_set k kvm.EXITIOIN pciInFunc t1) as [t3|] eqn:Es;
      [|discriminate].
    apply table_set_Ret, in_table_elim in Es. tauto. }
  pose proof (Hport start ltac:(lia)). pose proof (Hport (end_ - 1) ltac:(lia)).
  lia.
Qed.

Lemma init_table_Ret devs t t' :
  block [init_default; init_overrides devs] t = Ret t' ->
  Forall device_ok devs.
Proof.
  intros E.
  destruct (block_Ret_each _ _ _ E (init_overrides devs)
              ltac:(right; left; reflexivity)) as (t1 & t2 & Eo).
  unfold init_overrides in Eo.
  destruct (block_Ret_each _ _ _ Eo (block (map install_device devs))
              ltac:(do 6 right; left; reflexivity)) as (t3 & t4 & Ed).
  apply List.Forall_forall. intros dev Hin.
  destruct (block_Ret_each _ _ _ Ed (install_device dev)
              ltac:(apply in_map; exact Hin)) as (t5 & t6 & Ei).
  exact (install_device_Ret dev t5 t6 Ei).
Qed.

Lemma init_table_oob devs : oob (block [init_default; init_overrides devs]).
Proof.
  unfold init_default, init_overrides. oob_tac.
  apply List.Forall_forall. intros c Hc.
  apply in_map_iff in Hc. destruct Hc as (dev & <- & _).
  unfold install_device. destruct (GetIORange dev). oob_tac.
Qed.

(** The table after [initIOPortHandlers], slot by slot. *)
Lemma installed_route m p s m' s' evs :
  pci m = Some p ->
  initIOPortHandlers m s = Ret (m', s', evs) ->
  Forall device_ok (Devices p) /\
  forall port dir, 0 <= port < 65536 -> 0 <= dir < 2 ->
    ioportHandlers m' port dir = route (Devices p) port dir.
Proof.
  intros Hp Hret.
  destruct (initIOPortHandlers_Ret m m' s s' evs Hret)
    as (p' & t & Hp' & Ht & -> & _ & _).
  rewrite Hp in Hp'. injection Hp' as <-.
  split; [exact (init_table_Ret _ _ _ Ht)|].
  intros port dir Hport Hdir. simpl.
  apply (init_table_route (Devices p) _ t Ht).
  apply in_table_intro; unfold nPorts, nDirections; lia.
Qed.

(** The ports of the PCI devices come last in [initIOPortHandlers] and so
    win over every fixed assignment: once it has returned, a port inside
    the I/O range of a device is served by [pciInFunc] and [pciOutFunc],
    also when it is a legacy port such as COM1 or 0xCF9; and such a port
    lies inside the port space. *)
Theorem router_pci_devices_last m p s m' s' evs dev port :
  pci m = Some p ->
  initIOPortHandlers m s = Ret (m', s', evs) ->
  In dev (Devices p) ->
  fst (GetIORange dev) <= port < snd (GetIORange dev) ->
  0 <= port < 65536 /\
  ioportHandlers m' port kvm.EXITIOIN = pciInFunc /\
  ioportHandlers m' port kvm.EXITIOOUT = pciOutFunc.
Proof.
  intros Hp Hret Hin Hc.
  destruct (installed_route m p s m' s' evs Hp Hret) as (Hok & Hroute).
  assert (Hport : 0 <= port < 65536).
  { rewrite List.Forall_forall in Hok. specialize (Hok dev Hin).
    unfold device_ok, nPorts in Hok. lia. }
  assert (Hdev : device_port (Devices p) port = true)
    by (apply device_port_true; exists dev; split; assumption).
  split; [exact Hport|].
  rewrite !Hroute by (unfold kvm.EXITIOIN, kvm.EXITIOOUT; lia).
  unfold route. rewrite Hdev. split; reflexivity.
Qed.

(** [initIOPortHandlers] indexes the table with every port of every
    device range: a device whose range is not empty and ends beyond the
    port space 0..0xFFFF makes it panic on the bounds check. *)
Theorem router_panics_outside_port_space m p s dev :
  pci m = Some p ->
  In dev (Devices p) ->
  fst (GetIORange dev) < snd (GetIORange dev) ->
  0x10000 < snd (GetIORange dev) ->
  initIOPortHandlers m s = Panic "index out of range".
Proof.
  intros Hp Hin Hlt Hout. unfold initIOPortHandlers. rewrite Hp.
  unfold bind, lift.
  destruct (block [init_default; init_overrides (Devices p)] (ioportHandlers m))
    as [t|why] eqn:E.
  - apply init_table_Ret in E. rewrite List.Forall_forall in E.
    specialize (E dev Hin Hlt). unfold nPorts in E. lia.
  - rewrite (init_table_oob _ _ _ E). reflexivity.
Qed.

(** [initIOPortHandlers] assigns every slot: the table it leaves depends
    on the PCI devices only, not on the table before; it issues no system
    call and leaves the world as it was. *)
Theorem router_overwrites_every_slot m1 m2 s1 s2 m1' m2' s1' s2' evs1 evs2 :
  pci m1 = pci m2 ->
  initIOPortHandlers m1 s1 = Ret (m1', s1', evs1) ->
  initIOPortHandlers m2 s2 = Ret (m2', s2', evs2) ->
  (forall port dir, 0 <= port < 65536 -> 0 <= dir < 2 ->
     ioportHandlers m1' port dir = ioportHandlers m2' port dir) /\
  s1' = s1 /\ evs1 = [].
Proof.
  intros Hpci H1 H2.
  destruct (initIOPortHandlers_Ret m1 m1' s1 s1' evs1 H1)
    as (p & t & Hp & _ & _ & Hs & Hevs).
  assert (Hp2 : pci m2 = Some p) by congruence.
  destruct (installed_route m1 p s1 m1' s1' evs1 Hp H1) as (_ & Hr1).
  destruct (installed_route m2 p s2 m2' s2' evs2 Hp2 H2) as (_ & Hr2).
  split; [|split; assumption].
  intros port dir Hport Hdir. rewrite Hr1, Hr2 by assumption. reflexivity.
Qed.

End RouterRanges.

(** *** The fixed ports *)

Ltac decide_route :=
  unfold fixed_route, noop_port, between;
  repeat match goal with
         | |- context [?a <=? ?b] => destruct (Z.leb_spec a b); try lia
         | |- context [?a =? ?b] => destruct (Z.eqb_spec a b); try lia
         end;
  simpl; reflexivity.

Lemma fixed_route_delegated port dir :
  (0x3f8 <= port <= 0x3ff ->
   fixed_route port dir = by_dir dir funcSerialIn funcSerialOut) /\
  (port = 0xcf8 ->
   fixed_route port dir = by_dir dir funcPciConfAddrIn funcPciConfAddrOut) /\
  (0xcfc <= port <= 0xcff ->
   fixed_route port dir = by_dir dir funcPciConfDataIn funcPciConfDataOut).
Proof. split; [|split]; intros Hp; decide_route. Qed.

Lemma fixed_route_inline port dir :
  (0x60 <= port <= 0x6f -> fixed_route port dir = by_dir dir funcPS2In funcNone) /\
  (port = 0xcf9 -> fixed_route port dir = funcOutbCF9) /\
  (0x70 <= port <= 0x71 \/ 0x80 <= port <= 0x9f \/ 0x2e8 <= port <= 0x2ef \/
   0x2f8 <= port <= 0x2ff \/ 0x3b4 <= port <= 0x3b5 \/ 0x3c0 <= port <= 0x3da \/
   0x3e8 <= port <= 0x3ef \/ 0xcfa <= port <= 0xcfb \/
   0xc000 <= port <= 0xcfff -> fixed_route port dir = funcNone).
Proof.
  split; [|split]; [intros Hp; decide_route | intros Hp; decide_route |].
  intros [Hp|[Hp|[Hp|[Hp|[Hp|[Hp|[Hp|[Hp|Hp]]]]]]]]; decide_route.
Qed.

Lemma fixed_route_not_pci port dir :
  fixed_route port dir <> pciInFunc /\ fixed_route port dir <> pciOutFunc.
Proof.
  unfold fixed_route, by_dir.
  repeat match goal with
         | |- context [if ?b then _ else _] => destruct b
         end; split; discriminate.
Qed.

Section RouterPorts.
Context `{Platform}.

(** No PCI device has [port] in its I/O range. *)
Definition unclaimed (devs : list Device) (port : Z) : Prop :=
  forall dev, In dev devs -> ~ claims dev port.

Lemma unclaimed_route devs port dir :
  unclaimed devs port -> route devs port dir = fixed_route port dir.
Proof.
  intros Hno. unfold route. rewrite (device_port_false devs port Hno).
  reflexivity.
Qed.

(** After [initIOPortHandlers], a port that no PCI device claims is
    served, in direction IN and in direction OUT: by the serial device on
    0x3F8..0x3FF (COM1); by the PCI configuration address register on
    0xCF8 and by the PCI configuration data register on 0xCFC..0xCFF,
    port 0xCFE included although an earlier statement gave it the empty
    handler. *)
Theorem router_delegated_ports m p s m' s' evs port :
  pci m = Some p ->
  initIOPortHandlers m s = Ret (m', s', evs) ->
  unclaimed (Devices p) port ->
  (0x3f8 <= port <= 0x3ff ->
   ioportHandlers m' port kvm.EXITIOIN = funcSerialIn /\
   ioportHandlers m' port kvm.EXITIOOUT = funcSerialOut) /\
  (port = 0xcf8 ->
   ioportHandlers m' port kvm.EXITIOIN = funcPciConfAddrIn /\
   ioportHandlers m' port kvm.EXITIOOUT = funcPciConfAddrOut) /\
  (0xcfc <= port <= 0xcff ->
   ioportHandlers m' port kvm.EXITIOIN = funcPciConfDataIn /\
   ioportHandlers m' port kvm.EXITIOOUT = funcPciConfDataOut).
Proof.
  intros Hp Hret Hno.
  destruct (installed_route m p s m' s' evs Hp Hret) as (_ & Hroute).
  pose proof (fixed_route_delegated port kvm.EXITIOIN) as (Hi1 & Hi2 & Hi3).
  pose proof (fixed_route_delegated port kvm.EXITIOOUT) as (Ho1 & Ho2 & Ho3).
  split; [|split]; intros Hport;
    rewrite !Hroute by (unfold kvm.EXITIOIN, kvm.EXITIOOUT; lia);
    rewrite !(unclaimed_route _ _ _ Hno).
  - rewrite (Hi1 Hport), (Ho1 Hport). split; reflexivity.
  - rewrite (Hi2 Hport), (Ho2 Hport). split; reflexivity.
  - rewrite (Hi3 Hport), (Ho3 Hport). split; reflexivity.
Qed.

(** After [initIOPortHandlers], a port that no PCI device claims is
    served without any device: on 0x60..0x6F (PS/2) by the status stub in
    direction IN and by the empty handler in direction OUT; and by the
    empty handler in both directions on 0x70..0x71, 0x80..0x9F,
    0x2E8..0x2EF, 0x2F8..0x2FF, 0x3B4..0x3B5, 0x3C0..0x3DA, 0x3E8..0x3EF,
    0xCFA..0xCFB and 0xC000..0xCFFF.  The empty handler returns nil and
    changes nothing. *)
Theorem router_inline_ports m p s m' s' evs port :
  pci m = Some p ->
  initIOPortHandlers m s = Ret (m', s', evs) ->
  unclaimed (Devices p) port ->
  (0x60 <= port <= 0x6f ->
   ioportHandlers m' port kvm.EXITIOIN = funcPS2In /\
   ioportHandlers m' port kvm.EXITIOOUT = funcNone) /\
  (0x70 <= port <= 0x71 \/ 0x80 <= port <= 0x9f \/ 0x2e8 <= port <= 0x2ef \/
   0x2f8 <= port <= 0x2ff \/ 0x3b4 <= port <= 0x3b5 \/ 0x3c0 <= port <= 0x3da \/
   0x3e8 <= port <= 0x3ef \/ 0xcfa <= port <= 0xcfb \/
   0xc000 <= port <= 0xcfff ->
   ioportHandlers m' port kvm.EXITIOIN = funcNone /\
   ioportHandlers m' port kvm.EXITIOOUT = funcNone) /\
  (forall mm q bytes st,
     apply_handler funcNone mm q bytes st = Ret (None, st, [])).
Proof.
  intros Hp Hret Hno.
  destruct (installed_route m p s m' s' evs Hp Hret) as (_ & Hroute).
  split; [|split; [|reflexivity]].
  - intros Hport.
    rewrite !Hroute by (unfold kvm.EXITIOIN, kvm.EXITIOOUT; lia).
    rewrite !(unclaimed_route _ _ _ Hno).
    rewrite !(proj1 (fixed_route_inline port _) Hport). split; reflexivity.
  - intros Hport.
    assert (0 <= port < 65536) by lia.
    rewrite !Hroute by (unfold kvm.EXITIOIN, kvm.EXITIOOUT; lia).
    rewrite !(unclaimed_route _ _ _ Hno).
    rewrite !(proj2 (proj2 (fixed_route_inline port _)) Hport).
    split; reflexivity.
Qed.

(** The reset port is not only a write port: [initIOPortHandlers] stores
    the handler of 0xCF9 in both directions, so a guest IN from 0xCF9,
    unless a PCI device claims the port, also returns the error that
    wraps [ErrorWriteToCF9], whatever the slice holds. *)
Theorem cf9_read_power_cycles m p s m' s' evs :
  pci m = Some p ->
  initIOPortHandlers m s = Ret (m', s', evs) ->
  unclaimed (Devices p) 0xcf9 ->
  ioportHandlers m' 0xcf9 kvm.EXITIOIN = funcOutbCF9 /\
  forall bytes st,
    exists e,
      apply_handler (ioportHandlers m' 0xcf9 kvm.EXITIOIN) m' 0xcf9 bytes st
        = Ret (Some e, st, []) /\
      errors_Is e ErrorWriteToCF9 = true.
Proof.
  intros Hp Hret Hno.
  destruct (installed_route m p s m' s' evs Hp Hret) as (_ & Hroute).
  assert (Hslot : ioportHandlers m' 0xcf9 kvm.EXITIOIN = funcOutbCF9).
  { rewrite Hroute by (unfold kvm.EXITIOIN; lia).
    rewrite (unclaimed_route _ _ _ Hno).
    exact (proj1 (proj2 (fixed_route_inline 0xcf9 _)) eq_refl). }
  split; [exact Hslot|]. intros bytes st. rewrite Hslot.
  apply funcOutbCF9_spec.
Qed.

End RouterPorts.

(** *** The handlers of the PCI devices *)

Section PciScan.
Context `{Platform}.

Lemma claims_in_device dev port : claims dev port <-> in_device port dev = true.
Proof.
  unfold claims, in_device. rewrite andb_true_iff, Z.leb_le, Z.ltb_lt.
  reflexivity.
Qed.

Lemma pci_scan_found io pre dev post port bytes s :
  unclaimed pre port -> claims dev port ->
  pci_scan io (pre ++ dev :: post) port bytes s
  = (let (r, s') := io dev port bytes s in Ret (r, s', [])).
Proof.
  intros Hpre Hdev. induction pre as [|d pre IH]; simpl.
  - unfold claims in Hdev. destruct (GetIORange dev) as [start end_].
    simpl in Hdev.
    rewrite (proj2 (Z.leb_le start port)), (proj2 (Z.ltb_lt port end_)) by lia.
    reflexivity.
  - assert (Hd : ~ claims d port) by (apply Hpre; left; reflexivity).
    unfold claims in Hd. destruct (GetIORange d) as [start end_].
    simpl in Hd.
    destruct (Z.leb_spec start port), (Z.ltb_spec port end_); simpl;
      try lia; apply IH; intros d' Hin; apply Hpre; right; exact Hin.
Qed.

Lemma pci_scan_not_found io devs port bytes s :
  unclaimed devs port ->
  pci_scan io devs port bytes s
  = Ret (Some errorPCIDeviceNotFoundForPort, s, []).
Proof.
  intros Hno. induction devs as [|d devs IH]; simpl; [reflexivity|].
  assert (Hd : ~ claims d port) by (apply Hno; left; reflexivity).
  unfold claims in Hd. destruct (GetIORange d) as [start end_]. simpl in Hd.
  destruct (Z.leb_spec start port), (Z.ltb_spec port end_); simpl;
    try lia; apply IH; intros d' Hin; apply Hno; right; exact Hin.
Qed.

(** The first device, in the order of [m.pci.Devices], that claims the
    port. *)
Lemma first_claim devs port :
  device_port devs port = true ->
  exists pre dev post,
    devs = pre ++ dev :: post /\ unclaimed pre port /\ claims dev port.
Proof.
  induction devs as [|d devs IH]; simpl; [discriminate|].
  destruct (in_device port d) eqn:Ed; simpl.
  - intros _. exists [], d, devs. split; [reflexivity|].
    split; [intros ? []|]. apply claims_in_device. exact Ed.
  - intros Hrest. destruct (IH Hrest) as (pre & dev & post & -> & Hpre & Hdev).
    exists (d :: pre), dev, post. split; [reflexivity|]. split; [|exact Hdev].
    intros d' [<-|Hin]; [|exact (Hpre d' Hin)].
    rewrite claims_in_device, Ed. discriminate.
Qed.

(** [pciInFunc] and [pciOutFunc] hand the access to the first device, in
    the order of [m.pci.Devices], whose I/O range holds the port, and
    return what its handler returns; devices further down the list are
    not asked, even if their range holds the port too.  When no range
    holds the port they return [errorPCIDeviceNotFoundForPort] and change
    nothing. *)
Theorem pci_handlers_first_match m p port bytes s :
  pci m = Some p ->
  (forall pre dev post,
     Devices p = pre ++ dev :: post ->
     unclaimed pre port -> claims dev port ->
     apply_handler pciInFunc m port bytes s
       = (let (r, s') := IOInHandler dev port bytes s in Ret (r, s', [])) /\
     apply_handler pciOutFunc m port bytes s
       = (let (r, s') := IOOutHandler dev port bytes s in Ret (r, s', []))) /\
  (unclaimed (Devices p) port ->
   apply_handler pciInFunc m port bytes s
     = Ret (Some errorPCIDeviceNotFoundForPort, s, []) /\
   apply_handler pciOutFunc m port bytes s
     = Ret (Some errorPCIDeviceNotFoundForPort, s, [])).
Proof.
  intros Hp. simpl. rewrite Hp. split.
  - intros pre dev post -> Hpre Hdev.
    split; apply pci_scan_found; assumption.
  - intros Hno. split; apply pci_scan_not_found; exact Hno.
Qed.

(** The router and the scan agree: [initIOPortHandlers] stores
    [pciInFunc] and [pciOutFunc] only at ports that some device claims,
    [pciInFunc] only in direction IN and [pciOutFunc] only in direction
    OUT.  So a call that the router sends to one of them reaches the
    handler of a device, the first that claims the port, and never ends
    in [errorPCIDeviceNotFoundForPort] for want of a device. *)
Theorem routed_pci_call_reaches_device m p s m' s' evs port dir bytes st :
  pci m = Some p ->
  initIOPortHandlers m s = Ret (m', s', evs) ->
  0 <= port < 65536 -> 0 <= dir < 2 ->
  ioportHandlers m' port dir = pciInFunc \/
  ioportHandlers m' port dir = pciOutFunc ->
  exists pre dev post,
    Devices p = pre ++ dev :: post /\ unclaimed pre port /\ claims dev port /\
    ioportHandlers m' port dir
      = (if dir =? kvm.EXITIOIN then pciInFunc else pciOutFunc) /\
    apply_handler (ioportHandlers m' port dir) m' port bytes st
      = (let (r, st') :=
           (if dir =? kvm.EXITIOIN then IOInHandler else IOOutHandler)
             dev port bytes st in
         Ret (r, st', [])).
Proof.
  intros Hp Hret Hport Hdir Hslot.
  destruct (installed_route m p s m' s' evs Hp Hret) as (_ & Hroute).
  assert (Hp' : pci m' = Some p).
  { destruct (initIOPortHandlers_Ret m m' s s' evs Hret)
      as (p' & t & Hp' & _ & -> & _). simpl. congruence. }
  rewrite (Hroute port dir Hport Hdir) in Hslot |- *.
  unfold route in *.
  destruct (device_port (Devices p) port) eqn:Edev.
  - destruct (first_claim _ _ Edev) as (pre & dev & post & Hsplit & Hpre & Hdev).
    exists pre, dev, post. split; [exact Hsplit|]. split; [exact Hpre|].
    split; [exact Hdev|]. unfold by_dir. split; [reflexivity|].
    destruct (dir =? kvm.EXITIOIN); simpl; rewrite Hp', Hsplit;
      apply pci_scan_found; assumption.
  - pose proof (fixed_route_not_pci port dir) as (Hn1 & Hn2).
    destruct Hslot; contradiction.
Qed.

End PciScan.

(** *** The PS/2 status stub *)

Section PS2.
Context `{Platform}.

(** What the world is after a store of [v] at address [a]. *)
Definition stored (a v : Z) (before after : Sys K) : Prop :=
  kern after = kern before /\
  load8 (memory after) a = v /\
  forall x, x <> a -> memory after x = memory before x.

Lemma ps2_call m port bytes s :
  0 < len bytes ->
  apply_handler funcPS2In m port bytes s
  = Ret (None, with_memory (fun mem => store8 mem (ptr bytes + 0) 0x20) s, []).
Proof.
  intros Hlen. simpl. unfold bind, set_byte_at, update_memory, ret.
  rewrite (proj2 (Z.ltb_lt 0 (len bytes)) Hlen). reflexivity.
Qed.

Lemma stored_first a s :
  stored a 0x20 s (with_memory (fun mem => store8 mem a 0x20) s).
Proof.
  unfold stored, with_memory, store8, load8. simpl.
  rewrite Z.eqb_refl. repeat split.
  intros x Hx. rewrite (proj2 (Z.eqb_neq x a) Hx). reflexivity.
Qed.

Lemma stored_again a s0 s :
  stored a 0x20 s0 s ->
  stored a 0x20 s0 (with_memory (fun mem => store8 mem a 0x20) s).
Proof.
  intros (Hk & _ & Hother). unfold stored, with_memory, store8, load8. simpl.
  rewrite Z.eqb_refl. repeat split; [exact Hk|].
  intros x Hx. rewrite (proj2 (Z.eqb_neq x a) Hx). exact (Hother x Hx).
Qed.

Lemma ps2_loop m port bytes n : forall i0 s0 s,
  0 < len bytes ->
  s = s0 \/ stored (ptr bytes + 0) 0x20 s0 s ->
  exists s',
    loop_err n i0 (io_body funcPS2In m port bytes) tt s
    = Ret ((tt, None), s', repeat (EvCall funcPS2In port bytes None) n) /\
    ((n = 0%nat /\ s' = s) \/ stored (ptr bytes + 0) 0x20 s0 s').
Proof.
  induction n as [|n IH]; intros i0 s0 s Hlen Hs.
  - exists s. split; [reflexivity|]. left. split; reflexivity.
  - change (loop_err (Datatypes.S n) i0 (io_body funcPS2In m port bytes) tt s)
      with (bind (io_body funcPS2In m port bytes i0 tt)
              (fun r => match snd r with
                        | Some e => ret (fst r, Some e)
                        | None => loop_err n (i0 + 1)
                                    (io_body funcPS2In m port bytes) (fst r)
                        end) s).
    unfold bind. rewrite io_body_eq, (ps2_call m port bytes s Hlen). simpl.
    set (s1 := with_memory _ s).
    assert (Hs1 : stored (ptr bytes + 0) 0x20 s0 s1).
    { destruct Hs as [->|Hs]; [apply stored_first|apply stored_again; exact Hs]. }
    destruct (IH (i0 + 1) s0 s1 Hlen (or_intror Hs1)) as (s' & E & Hs').
    exists s'. rewrite E. split; [reflexivity|]. right.
    destruct Hs' as [[_ ->]|Hs']; assumption.
Qed.

(** A guest IN that the router sends to the PS/2 status stub, of size 1
    to 100: [RunOnce] calls the stub count times and reports continue
    with the error of [Run]; if count is not 0, the first byte of the
    window in the [kvm_run] page is 0x20 afterwards and no other byte of
    memory has changed. *)
Theorem ps2_status_read m i fd run s res errno out s1 :
  0 <= i ->
  vcpuFds m !! Z.to_nat i = Some fd ->
  runs m !! Z.to_nat i = Some run ->
  sys_ioctl fd kvm.kvmRun (kvm.ArgInt 0) s = ((res, errno, out), s1) ->
  kvm.ExitReason (memory s1) run = kvm.EXITIO ->
  let word := kvm.Data (memory s1) run 0 in
  let size := (word / 2 ^ 8) mod 2 ^ 8 in
  let port := (word / 2 ^ 16) mod 2 ^ 16 in
  let count := (word / 2 ^ 32) mod 2 ^ 32 in
  let window := (run + kvm.Data (memory s1) run 1) mod 2 ^ 64 in
  word mod 2 ^ 8 = kvm.EXITIOIN ->
  ioportHandlers m port kvm.EXITIOIN = funcPS2In ->
  1 <= size <= 100 ->
  exists s',
    RunOnce m i s =
    Ret ((true, Run_result errno), s',
         ran fd errno ::
         repeat (EvCall funcPS2In port (mkSlice window size 100) None)
           (Z.to_nat count)) /\
    (count = 0 -> s' = s1) /\
    (0 < count -> stored window 0x20 s1 s').
Proof.
  intros Hi Hfd Hrun E Hreason word size port count window Hdir Hslot Hsize.
  rewrite (RunOnce_eq m i fd run s res errno out s1 Hi Hfd Hrun E).
  rewrite (dispatch_io m run _ s1 _ size port count _ Hreason
             (IO_fields (memory s1) run)).
  fold word. rewrite Hdir.
  assert (Hin : in_table port kvm.EXITIOIN = true).
  { apply in_table_intro; unfold nPorts, nDirections, kvm.EXITIOIN; [|lia].
    subst port. pose proof (Z.mod_pos_bound (word / 2 ^ 16) (2 ^ 16)). lia. }
  unfold table_get. rewrite Hin, Hslot.
  rewrite (proj2 (Z.leb_le size 100)) by lia.
  fold window.
  destruct (ps2_loop m port (mkSlice window size 100) (Z.to_nat count) 0 s1 s1
              ltac:(simpl; lia) (or_introl eq_refl)) as (s' & Eloop & Hs').
  rewrite Eloop. simpl. exists s'. split; [reflexivity|].
  simpl in Hs'. rewrite Z.add_0_r in Hs'.
  assert (Hcount : 0 <= count)
    by (subst count; pose proof (Z.mod_pos_bound (word / 2 ^ 32) (2 ^ 32)); lia).
  split.
  - intros Hz. destruct Hs' as [[_ ->]|Hs']; [reflexivity|].
    (* count = 0: no iteration ran *)
    rewrite Hz in Eloop. simpl in Eloop. unfold ret in Eloop.
    injection Eloop as <-. reflexivity.
  - intros Hpos. destruct Hs' as [[Hn _]|Hs']; [lia|exact Hs'].
Qed.

(** The stub stores into [bytes[0]] without looking at the length: a
    guest IN of size 0 that the router sends to it makes [RunOnce] panic
    on the index, unless count is 0. *)
Theorem ps2_empty_read_panics m i fd run s res errno out s1 :
  0 <= i ->
  vcpuFds m !! Z.to_nat i = Some fd ->
  runs m !! Z.to_nat i = Some run ->
  sys_ioctl fd kvm.kvmRun (kvm.ArgInt 0) s = ((res, errno, out), s1) ->
  kvm.ExitReason (memory s1) run = kvm.EXITIO ->
  let word := kvm.Data (memory s1) run 0 in
  let port := (word / 2 ^ 16) mod 2 ^ 16 in
  word mod 2 ^ 8 = kvm.EXITIOIN ->
  ioportHandlers m port kvm.EXITIOIN = funcPS2In ->
  (word / 2 ^ 8) mod 2 ^ 8 = 0 ->
  0 < (word / 2 ^ 32) mod 2 ^ 32 ->
  RunOnce m i s = Panic "index out of range".
Proof.
  intros Hi Hfd Hrun E Hreason word port Hdir Hslot Hsize Hcount.
  rewrite (RunOnce_eq m i fd run s res errno out s1 Hi Hfd Hrun E).
  rewrite (dispatch_io m run _ s1 _ _ port _ _ Hreason
             (IO_fields (memory s1) run)).
  fold word. rewrite Hdir, Hsize.
  assert (Hin : in_table port kvm.EXITIOIN = true).
  { apply in_table_intro; unfold nPorts, nDirections, kvm.EXITIOIN; [|lia].
    subst port. pose proof (Z.mod_pos_bound (word / 2 ^ 16) (2 ^ 16)). lia. }
  unfold table_get. rewrite Hin, Hslot. simpl (0 <=? 100).
  destruct (Z.to_nat ((word / 2 ^ 32) mod 2 ^ 32)) as [|n] eqn:En; [lia|].
  change (loop_err (Datatypes.S n) 0 ?body tt s1)
    with (bind (body 0 tt)
            (fun r => match snd r with
                      | Some e => ret (fst r, Some e)
                      | None => loop_err n (0 + 1) body (fst r)
                      end) s1).
  unfold bind. rewrite io_body_eq. reflexivity.
Qed.

End PS2.

(** ** The run loop: how it ends *)

Section RunLoopEnds.
Context `{Platform}.

Lemma RunOnce_Ret m i s r s' evs :
  RunOnce m i s = Ret (r, s', evs) ->
  exists fd run res errno out s1 t,
    0 <= i /\ vcpuFds m !! Z.to_nat i = Some fd /\
    runs m !! Z.to_nat i = Some run /\
    sys_ioctl fd kvm.kvmRun (kvm.ArgInt 0) s = ((res, errno, out), s1) /\
    dispatch m run (Run_result errno) s1 = Ret (r, s', t) /\
    evs = ran fd errno :: t.
Proof.
  intros Hret.
  assert (Hidx : exists fd, 0 <= i /\ vcpuFds m !! Z.to_nat i = Some fd).
  { unfold RunOnce in Hret. apply bind_Ret in Hret.
    destruct Hret as (fd & s0 & t0 & t1 & Hc & _).
    apply index_Ret in Hc. destruct Hc as (Hi & Hfd & _). eauto. }
  destruct Hidx as (fd & Hi & Hfd).
  assert (Hrun : exists run, runs m !! Z.to_nat i = Some run).
  { unfold RunOnce in Hret. apply bind_Ret in Hret.
    destruct Hret as (fd' & s0 & t0 & t1 & _ & Hb & _).
    apply bind_Ret in Hb. destruct Hb as (e & s2 & t2 & t3 & _ & Hb & _).
    apply bind_Ret in Hb. destruct Hb as (run & s3 & t4 & t5 & Hc & _).
    apply index_Ret in Hc. destruct Hc as (_ & Hr & _). eauto. }
  destruct Hrun as (run & Hrun).
  destruct (sys_ioctl fd kvm.kvmRun (kvm.ArgInt 0) s)
    as [[[res errno] out] s1] eqn:E.
  rewrite (RunOnce_eq m i fd run s res errno out s1 Hi Hfd Hrun E) in Hret.
  apply after_Ret in Hret. destruct Hret as (t & Hd & ->).
  exists fd, run, res, errno, out, s1, t. repeat split; assumption.
Qed.

(** The switch reports stop without an error only in the HLT case. *)
Lemma dispatch_clean_stop m run err s1 s' t :
  dispatch m run err s1 = Ret ((false, None), s', t) ->
  kvm.ExitReason (memory s1) run = kvm.EXITHLT /\ err = None /\
  s' = s1 /\ t = [EvPrintln "KVM_EXIT_HLT"].
Proof.
  intros Hd.
  destruct (exit_reason_cases (kvm.ExitReason (memory s1) run))
    as [E|[E|[E|E]]].
  - rewrite (dispatch_hlt m run err s1 E) in Hd.
    injection Hd as <- <- <-. auto.
  - rewrite (dispatch_io m run err s1 _ _ _ _ _ E (IO_fields (memory s1) run))
      in Hd.
    destruct (table_get _ _ _) as [f|]; [|discriminate].
    destruct (_ <=? 100); [|discriminate].
    destruct (loop_err _ _ _ _ _) as [[[[u [e|]] s2] t2]|]; discriminate.
  - rewrite (dispatch_benign m run err s1 E) in Hd. discriminate.
  - rewrite (dispatch_default m run err s1 E) in Hd. discriminate.
Qed.

(** A HLT exit ends the run loop: [RunOnce] prints KVM_EXIT_HLT and
    returns isContinue false with the error of [Run], and
    [RunInfiniteLoop] returns that error, nil when the ioctl succeeded or
    failed with EAGAIN or EINTR. *)
Theorem hlt_exit_ends_run m i fd run s res errno out s1 fuel :
  0 <= i ->
  vcpuFds m !! Z.to_nat i = Some fd ->
  runs m !! Z.to_nat i = Some run ->
  sys_ioctl fd kvm.kvmRun (kvm.ArgInt 0) s = ((res, errno, out), s1) ->
  kvm.ExitReason (memory s1) run = kvm.EXITHLT ->
  RunOnce m i s
    = Ret ((false, Run_result errno), s1,
           [ran fd errno; EvPrintln "KVM_EXIT_HLT"]) /\
  RunInfiniteLoop (Datatypes.S fuel) m i s
    = Ret (Some (Run_result errno), s1,
           [ran fd errno; EvPrintln "KVM_EXIT_HLT"]) /\
  (Run_result errno = None <-> errno = 0 \/ errno = EAGAIN \/ errno = EINTR).
Proof.
  intros Hi Hfd Hrun E Hreason.
  assert (Honce : RunOnce m i s
                  = Ret ((false, Run_result errno), s1,
                         [ran fd errno; EvPrintln "KVM_EXIT_HLT"])).
  { rewrite (RunOnce_eq m i fd run s res errno out s1 Hi Hfd Hrun E).
    rewrite (dispatch_hlt m run _ s1 Hreason). reflexivity. }
  split; [exact Honce|]. split.
  - simpl. unfold bind. rewrite Honce.
    destruct (Run_result errno); reflexivity.
  - unfold Run_result.
    destruct (Z.eqb_spec errno 0); [tauto|].
    destruct (Z.eqb_spec errno EAGAIN); [simpl; tauto|].
    destruct (Z.eqb_spec errno EINTR); [simpl; tauto|].
    simpl. split; [discriminate|]. tauto.
Qed.

(** [RunInfiniteLoop] returns nil in one way only: its last step saw a
    HLT exit, with no error from [Run], and printed KVM_EXIT_HLT as its
    last action.  Every other way out of the loop is an error. *)
Theorem clean_stop_only_by_hlt fuel : forall m i s s' evs,
  RunInfiniteLoop fuel m i s = Ret (Some None, s', evs) ->
  exists fd run errno before,
    vcpuFds m !! Z.to_nat i = Some fd /\
    runs m !! Z.to_nat i = Some run /\
    kvm.ExitReason (memory s') run = kvm.EXITHLT /\
    Run_result errno = None /\
    evs = before ++ [ran fd errno; EvPrintln "KVM_EXIT_HLT"].
Proof.
  induction fuel as [|fuel IH]; intros m i s s' evs Hloop.
  - discriminate.
  - simpl in Hloop. apply bind_Ret in Hloop.
    destruct Hloop as ([b err] & s1 & t1 & t2 & Honce & Hrest & ->).
    destruct err as [e|].
    + apply ret_Ret in Hrest. destruct Hrest as (Hr & _). discriminate.
    + destruct b; simpl in Hrest.
      * destruct (IH m i s1 s' t2 Hrest)
          as (fd & run & errno & before & Hfd & Hrun & Hreason & Hres & ->).
        exists fd, run, errno, (t1 ++ before).
        rewrite <- app_assoc. auto.
      * apply ret_Ret in Hrest. destruct Hrest as (_ & -> & ->).
        destruct (RunOnce_Ret m i s _ _ _ Honce)
          as (fd & run & res & errno & out & s0 & t & Hi & Hfd & Hrun & E & Hd & ->).
        destruct (dispatch_clean_stop m run _ s0 s1 t Hd)
          as (Hreason & Hres & -> & ->).
        exists fd, run, errno, []. rewrite app_nil_r. auto.
Qed.

(** The table has two directions and the window 100 bytes, and [RunOnce]
    takes both from the [kvm_run] page unchecked: an I/O exit whose
    decoded direction is 2 or more makes it panic on the table index, and
    one whose direction is IN or OUT but whose decoded size is above 100
    makes it panic on the slice expression; no handler is called. *)
Theorem io_exit_out_of_bounds m i fd run s res errno out s1 :
  0 <= i ->
  vcpuFds m !! Z.to_nat i = Some fd ->
  runs m !! Z.to_nat i = Some run ->
  sys_ioctl fd kvm.kvmRun (kvm.ArgInt 0) s = ((res, errno, out), s1) ->
  kvm.ExitReason (memory s1) run = kvm.EXITIO ->
  let word := kvm.Data (memory s1) run 0 in
  (2 <= word mod 2 ^ 8 -> RunOnce m i s = Panic "index out of range") /\
  (word mod 2 ^ 8 < 2 -> 100 < (word / 2 ^ 8) mod 2 ^ 8 ->
   RunOnce m i s = Panic "slice bounds out of range").
Proof.
  intros Hi Hfd Hrun E Hreason word.
  rewrite (RunOnce_eq m i fd run s res errno out s1 Hi Hfd Hrun E).
  rewrite (dispatch_io m run _ s1 _ _ _ _ _ Hreason (IO_fields (memory s1) run)).
  fold word. unfold table_get, in_table, nDirections.
  split.
  - intros Hdir. rewrite (proj2 (Z.ltb_ge (word mod 2 ^ 8) 2)) by lia.
    rewrite !andb_false_r. reflexivity.
  - intros Hdir Hsize.
    pose proof (Z.mod_pos_bound word (2 ^ 8) ltac:(lia)).
    pose proof (Z.mod_pos_bound (word / 2 ^ 16) (2 ^ 16) ltac:(lia)).
    rewrite (proj2 (Z.leb_le 0 _)), (proj2 (Z.ltb_lt _ nPorts)),
      (proj2 (Z.leb_le 0 (word mod 2 ^ 8))),
      (proj2 (Z.ltb_lt (word mod 2 ^ 8) 2)) by (unfold nPorts; lia).
    simpl. rewrite (proj2 (Z.leb_gt _ 100)) by lia. reflexivity.
Qed.

(** [RunOnce] indexes [m.vcpuFds] before anything else: for an index
    outside the slice it panics without having issued the ioctl. *)
Theorem RunOnce_bad_index m i s :
  i < 0 \/ Z.of_nat (length (vcpuFds m)) <= i ->
  RunOnce m i s = Panic "index out of range".
Proof.
  intros Hi. unfold RunOnce, bind, index.
  destruct (Z.leb_spec 0 i); [|reflexivity].
  rewrite (lookup_ge_None_2 (vcpuFds m) (Z.to_nat i)) by lia. reflexivity.
Qed.

(** A machine whose table has not been filled holds nil functions: on an
    I/O exit that asks for at least one call of such a slot [RunOnce]
    panics on the call, and with count 0 it calls nothing and goes on. *)
Theorem io_exit_on_empty_slot m i fd run s res errno out s1 :
  0 <= i ->
  vcpuFds m !! Z.to_nat i = Some fd ->
  runs m !! Z.to_nat i = Some run ->
  sys_ioctl fd kvm.kvmRun (kvm.ArgInt 0) s = ((res, errno, out), s1) ->
  kvm.ExitReason (memory s1) run = kvm.EXITIO ->
  let word := kvm.Data (memory s1) run 0 in
  let direction := word mod 2 ^ 8 in
  let size := (word / 2 ^ 8) mod 2 ^ 8 in
  let port := (word / 2 ^ 16) mod 2 ^ 16 in
  let count := (word / 2 ^ 32) mod 2 ^ 32 in
  direction < 2 -> size <= 100 ->
  ioportHandlers m port direction = nilFunc ->
  (0 < count -> RunOnce m i s = Panic "nil pointer dereference") /\
  (count = 0 -> RunOnce m i s = Ret ((true, Run_result errno), s1, [ran fd errno])).
Proof.
  intros Hi Hfd Hrun E Hreason word direction size port count Hdir Hsize Hslot.
  rewrite (RunOnce_eq m i fd run s res errno out s1 Hi Hfd Hrun E).
  rewrite (dispatch_io m run _ s1 direction size port count _ Hreason
             (IO_fields (memory s1) run)).
  assert (Hin : in_table port direction = true).
  { apply in_table_intro; unfold nPorts, nDirections.
    - subst port. pose proof (Z.mod_pos_bound (word / 2 ^ 16) (2 ^ 16)). lia.
    - subst direction. pose proof (Z.mod_pos_bound word (2 ^ 8)). lia. }
  unfold table_get. rewrite Hin, Hslot.
  rewrite (proj2 (Z.leb_le size 100) Hsize).
  split.
  - intros Hcount.
    destruct (Z.to_nat count) as [|n] eqn:En; [lia|].
    change (loop_err (Datatypes.S n) 0 ?body tt s1)
      with (bind (body 0 tt)
              (fun r => match snd r with
                        | Some e => ret (fst r, Some e)
                        | None => loop_err n (0 + 1) body (fst r)
                        end) s1).
    unfold bind. rewrite io_body_eq. reflexivity.
  - intros ->. reflexivity.
Qed.

End RunLoopEnds.

(** ** Machine creation and boot: what they leave in the machine *)

Section NewFrame.
Context `{Platform}.







(** [New] sizes its slices with [nCpus] unchecked: once /dev/kvm is open,
    a negative number of VCPUs makes it panic in [make]; no VM has been
    created by then. *)
Theorem New_negative_cpus nCpus tapIfName diskPath s fd s1 :
  sys_open "/dev/kvm" s = ((fd, None), s1) ->
  nCpus < 0 ->
  New nCpus tapIfName diskPath s = Panic "makeslice: len out of range".
Proof.
  intros E Hn. unfold New, bind, emit, ext. rewrite E. simpl.
  rewrite (proj2 (Z.ltb_lt nCpus 0) Hn). reflexivity.
Qed.

End NewFrame.

Section LoadLinuxFrame.
Context `{Platform}.

(** A successful [LoadLinux] has filled the table and attached the serial
    port, and has changed nothing else in the machine. *)
Lemma LoadLinux_machine m kernel initrd params s m' s' evs :
  LoadLinux m kernel initrd params s = Ret ((m', None), s', evs) ->
  exists p t sp,
    pci m = Some p /\
    block [init_default; init_overrides (Devices p)] (ioportHandlers m) = Ret t /\
    m' = set_serial sp (set_ioportHandlers t m).
Proof.
  unfold LoadLinux. intros Hb.
  repeat inv_step Hb; try discriminate Hb.
  injection Hb as ->.
  match goal with
  | Hi : initIOPortHandlers m _ = Ret _ |- _ =>
      apply initIOPortHandlers_Ret in Hi;
      destruct Hi as (p & tab & Hp & Ht & -> & _ & _)
  end.
  exists p, tab. eexists. repeat split; [exact Hp|exact Ht].
Qed.

(** After [LoadLinux] has succeeded the machine differs from the one it
    was given in the table and the serial port only; the table is the one
    [initIOPortHandlers] computes for the machine, so every slot of the
    65,536 ports and two directions holds a function and [RunOnce] cannot
    call a nil one. *)
Theorem LoadLinux_installs_router m kernel initrd params s m' s' evs :
  LoadLinux m kernel initrd params s = Ret ((m', None), s', evs) ->
  (kvmFd m', vmFd m', vcpuFds m', mem m', runs m', pci m')
    = (kvmFd m, vmFd m, vcpuFds m, mem m, runs m, pci m) /\
  (forall s0,
     initIOPortHandlers m s0
       = Ret (set_ioportHandlers (ioportHandlers m') m, s0, [])) /\
  (forall port dir, 0 <= port < 65536 -> 0 <= dir < 2 ->
     ioportHandlers m' port dir <> nilFunc).
Proof.
  intros Hret.
  destruct (LoadLinux_machine _ _ _ _ _ _ _ _ Hret) as (p & t & sp & Hp & Ht & ->).
  split; [reflexivity|]. split.
  - intros s0. unfold initIOPortHandlers. rewrite Hp.
    unfold bind, lift. rewrite Ht. reflexivity.
  - intros port dir Hport Hdir. cbn.
    assert (Hin : in_table port dir = true)
      by (apply in_table_intro; unfold nPorts, nDirections; lia).
    rewrite (init_table_route (Devices p) _ t Ht port dir Hin).
    apply route_filled. exact Hin.
Qed.

End LoadLinuxFrame.

(** ** Register set-up: read, modify, write *)

(** A segment made flat, with the given [DB] bit; its other attributes
    are kept. *)
Definition flattened (db : Z) (seg : kvm.Segment) : kvm.Segment :=
  kvm.mkSegment 0 0xFFFFFFFF (kvm.Selector seg) (kvm.Typ seg)
    (kvm.Present seg) (kvm.DPL seg) db (kvm.S seg) (kvm.L seg) 1
    (kvm.AVL seg) (kvm.Unusable seg).

Section ReadModifyWrite.
Context `{Platform}.

Lemma ioctl_eq fd op arg s res errno out s1 :
  sys_ioctl fd op arg s = ((res, errno, out), s1) ->
  ioctl fd op arg s
  = Ret ((res, out, errno_error errno), s1, [EvIoctl fd op arg errno]).
Proof.
  intros E. unfold ioctl, bind, ext, emit, ret, errno_error. rewrite E.
  simpl. destruct (errno =? 0); reflexivity.
Qed.

Lemma index_eq {A} (xs : list A) i x s :
  0 <= i -> xs !! Z.to_nat i = Some x -> index xs i s = Ret (x, s, []).
Proof.
  intros Hi Hx. unfold index. rewrite (proj2 (Z.leb_le 0 i) Hi), Hx.
  reflexivity.
Qed.

(** [initRegs] reads the registers of the VCPU and writes them back with
    RFLAGS, RIP and RSI replaced: the fifteen other registers reach
    [KVM_SET_REGS] as [KVM_GET_REGS] gave them.  When the read fails
    nothing is written and the error of the read is returned; otherwise
    the error of the write is. *)
Theorem initRegs_read_modify_write m i fd s res errno r0 s1 :
  0 <= i ->
  vcpuFds m !! Z.to_nat i = Some fd ->
  sys_ioctl fd kvm.kvmGetRegs (kvm.ArgRegs kvm.Regs_zero) s
    = ((res, errno, kvm.ArgRegs r0), s1) ->
  (errno <> 0 ->
   initRegs m i s
   = Ret (Some (Errno errno), s1,
          [EvIoctl fd kvm.kvmGetRegs (kvm.ArgRegs kvm.Regs_zero) errno])) /\
  (errno = 0 ->
   let r :=
     kvm.mkRegs (kvm.RAX r0) (kvm.RBX r0) (kvm.RCX r0) (kvm.RDX r0) 0x10000
       (kvm.RDI r0) (kvm.RSP r0) (kvm.RBP r0) (kvm.R8 r0) (kvm.R9 r0)
       (kvm.R10 r0) (kvm.R11 r0) (kvm.R12 r0) (kvm.R13 r0) (kvm.R14 r0)
       (kvm.R15 r0) 0x100000 2 in
   let '((_, errno2, _), s2) :=
     sys_ioctl fd kvm.kvmSetRegs (kvm.ArgRegs r) s1 in
   initRegs m i s
   = Ret (errno_error errno2, s2,
          [EvIoctl fd kvm.kvmGetRegs (kvm.ArgRegs kvm.Regs_zero) 0;
           EvIoctl fd kvm.kvmSetRegs (kvm.ArgRegs r) errno2])).
Proof.
  intros Hi Hfd E.
  assert (Hget : GetRegs fd s
                 = Ret ((r0, errno_error errno), s1,
                        [EvIoctl fd kvm.kvmGetRegs (kvm.ArgRegs kvm.Regs_zero) errno])).
  { unfold GetRegs. cbv zeta. unfold bind.
    rewrite (ioctl_eq _ _ _ _ _ _ _ _ E). reflexivity. }
  split.
  - intros Hne. unfold initRegs, bind.
    rewrite (index_eq _ _ _ _ Hi Hfd), Hget. unfold errno_error.
    rewrite (proj2 (Z.eqb_neq errno 0) Hne). reflexivity.
  - intros Hz r. subst errno.
    destruct (sys_ioctl fd kvm.kvmSetRegs (kvm.ArgRegs r) s1)
      as [[[res2 errno2] out2] s2] eqn:E2.
    assert (Hset : SetRegs fd r s1
                   = Ret (errno_error errno2, s2,
                          [EvIoctl fd kvm.kvmSetRegs (kvm.ArgRegs r) errno2])).
    { unfold SetRegs, bind. rewrite (ioctl_eq _ _ _ _ _ _ _ _ E2). reflexivity. }
    unfold initRegs, bind.
    rewrite (index_eq _ _ _ _ Hi Hfd), Hget. cbn [errno_error Z.eqb].
    rewrite (index_eq _ _ _ _ Hi Hfd).
    match goal with
    | |- context [SetRegs fd ?a] => change a with r
    end.
    rewrite Hset. destruct (errno_error errno2); reflexivity.
Qed.

(** [initSregs] reads the special registers of the VCPU and writes them
    back with the six segments CS, DS, ES, FS, GS, SS made flat (base 0,
    limit 0xFFFFFFFF, G = 1), DB = 1 in CS and SS, and bit 0 of CR0 set:
    the other attributes of the six segments, TR, LDT, GDT, IDT, the
    other bits of CR0, CR2, CR3, CR4, CR8, EFER, the APIC base and the
    interrupt bitmap reach [KVM_SET_SREGS] as [KVM_GET_SREGS] gave them.
    When the read fails nothing is written and its error is returned. *)
Theorem initSregs_read_modify_write m i fd s res errno sr0 s1 :
  0 <= i ->
  vcpuFds m !! Z.to_nat i = Some fd ->
  sys_ioctl fd kvm.kvmGetSregs (kvm.ArgSregs kvm.Sregs_zero) s
    = ((res, errno, kvm.ArgSregs sr0), s1) ->
  (errno <> 0 ->
   initSregs m i s
   = Ret (Some (Errno errno), s1,
          [EvIoctl fd kvm.kvmGetSregs (kvm.ArgSregs kvm.Sregs_zero) errno])) /\
  (errno = 0 ->
   let sr :=
     kvm.mkSregs
       (flattened 1 (kvm.CS sr0))
       (flattened (kvm.DB (kvm.DS sr0)) (kvm.DS sr0))
       (flattened (kvm.DB (kvm.ES sr0)) (kvm.ES sr0))
       (flattened (kvm.DB (kvm.FS sr0)) (kvm.FS sr0))
       (flattened (kvm.DB (kvm.GS sr0)) (kvm.GS sr0))
       (flattened 1 (kvm.SS sr0))
       (kvm.TR sr0) (kvm.LDT sr0) (kvm.GDT sr0) (kvm.IDT sr0)
       (Z.lor (kvm.CR0 sr0) 1) (kvm.CR2 sr0) (kvm.CR3 sr0) (kvm.CR4 sr0)
       (kvm.CR8 sr0) (kvm.EFER sr0) (kvm.ApicBase sr0)
       (kvm.InterruptBitmap sr0) in
   let '((_, errno2, _), s2) :=
     sys_ioctl fd kvm.kvmSetSregs (kvm.ArgSregs sr) s1 in
   initSregs m i s
   = Ret (errno_error errno2, s2,
          [EvIoctl fd kvm.kvmGetSregs (kvm.ArgSregs kvm.Sregs_zero) 0;
           EvIoctl fd kvm.kvmSetSregs (kvm.ArgSregs sr) errno2])).
Proof.
  intros Hi Hfd E.
  assert (Hget : GetSregs fd s
                 = Ret ((sr0, errno_error errno), s1,
                        [EvIoctl fd kvm.kvmGetSregs (kvm.ArgSregs kvm.Sregs_zero) errno])).
  { unfold GetSregs. cbv zeta. unfold bind.
    rewrite (ioctl_eq _ _ _ _ _ _ _ _ E). reflexivity. }
  split.
  - intros Hne. unfold initSregs, bind.
    rewrite (index_eq _ _ _ _ Hi Hfd), Hget. unfold errno_error.
    rewrite (proj2 (Z.eqb_neq errno 0) Hne). reflexivity.
  - intros Hz r. subst errno.
    destruct (sys_ioctl fd kvm.kvmSetSregs (kvm.ArgSregs r) s1)
      as [[[res2 errno2] out2] s2] eqn:E2.
    assert (Hset : SetSregs fd r s1
                   = Ret (errno_error errno2, s2,
                          [EvIoctl fd kvm.kvmSetSregs (kvm.ArgSregs r) errno2])).
    { unfold SetSregs, bind. rewrite (ioctl_eq _ _ _ _ _ _ _ _ E2). reflexivity. }
    unfold initSregs, bind.
    rewrite (index_eq _ _ _ _ Hi Hfd), Hget. cbn [errno_error Z.eqb].
    rewrite (index_eq _ _ _ _ Hi Hfd).
    match goal with
    | |- context [SetSregs fd ?a] => change a with r
    end.
    rewrite Hset. destruct (errno_error errno2); reflexivity.
Qed.

End ReadModifyWrite.

(** ** One system call per step *)

(** An event that is not a system call of the embedded code. *)
Definition no_syscall (ev : Event) : Prop :=
  match ev with
  | EvCall _ _ _ _ | EvPrintln _ => True
  | _ => False
  end.

Section OneRun.
Context `{Platform}.

Lemma dispatch_no_syscall m run err s1 r s' t :
  dispatch m run err s1 = Ret (r, s', t) -> Forall no_syscall t.
Proof.
  intros Hd.
  destruct (exit_reason_cases (kvm.ExitReason (memory s1) run))
    as [E|[E|[E|E]]].
  - rewrite (dispatch_hlt m run err s1 E) in Hd. injection Hd as _ _ <-.
    repeat constructor.
  - rewrite (dispatch_io m run err s1 _ _ _ _ _ E (IO_fields (memory s1) run))
      in Hd.
    destruct (table_get _ _ _) as [f|]; [|discriminate].
    destruct (_ <=? 100); [|discriminate].
    match type of Hd with
    | context [loop_err ?n ?i0 (io_body ?f ?m ?port ?bytes) tt ?s] =>
        pose proof (io_loop_spec f m port bytes n i0 s) as Hloop;
        destruct (loop_err n i0 (io_body f m port bytes) tt s)
          as [[[[u [e'|]] s2] t2]|]; [| |discriminate]
    end.
    + injection Hd as _ _ <-. destruct Hloop as (k & _ & ->).
      apply Forall_app. split; [|repeat constructor].
      apply List.Forall_forall. intros ev Hev.
      apply repeat_spec in Hev. subst ev. exact I.
    + injection Hd as _ _ <-. rewrite Hloop.
      apply List.Forall_forall. intros ev Hev.
      apply repeat_spec in Hev. subst ev. exact I.
  - rewrite (dispatch_benign m run err s1 E) in Hd. injection Hd as _ _ <-.
    constructor.
  - rewrite (dispatch_default m run err s1 E) in Hd. injection Hd as _ _ <-.
    constructor.
Qed.

(** Whatever the exit, a step that returns has issued exactly one system
    call of its own, [KVM_RUN] on the file descriptor of the VCPU, and has
    issued it first: the rest of its trace is calls of port handlers and
    the HLT message. *)
Theorem RunOnce_single_ioctl m i s r s' evs :
  RunOnce m i s = Ret (r, s', evs) ->
  exists fd errno rest,
    0 <= i /\ vcpuFds m !! Z.to_nat i = Some fd /\
    evs = EvIoctl fd kvm.kvmRun (kvm.ArgInt 0) errno :: rest /\
    Forall no_syscall rest.
Proof.
  intros Hret.
  destruct (RunOnce_Ret m i s r s' evs Hret)
    as (fd & run & res & errno & out & s1 & t & Hi & Hfd & _ & _ & Hd & ->).
  exists fd, errno, t. repeat split; try assumption.
  exact (dispatch_no_syscall m run _ s1 r s' t Hd).
Qed.

End OneRun.

(** ** The first step of [LoadLinux] *)

Section InitrdFirst.
Context `{Platform}.

(** [LoadLinux] starts with the initrd, read into guest memory from
    0xF000000 on.  On a machine whose memory is shorter it panics on the
    slice expression.  A read that returns no byte and an error other
    than [io.EOF] ends [LoadLinux] at once, before any register is
    touched, with the error wrapped after ["initrd: "]; the machine is
    unchanged. *)
Theorem LoadLinux_initrd_first m kernel initrd params s :
  (len (mem m) < initrdAddr ->
   LoadLinux m kernel initrd params s = Panic "slice bounds out of range") /\
  (initrdAddr <= len (mem m) ->
   forall e s1,
     ReadAt initrd
       (mkSlice (ptr (mem m) + initrdAddr) (len (mem m) - initrdAddr)
          (cap (mem m) - initrdAddr)) 0 s = ((0, Some e), s1) ->
     errors_Is e io_EOF = false ->
     LoadLinux m kernel initrd params s
     = Ret ((m, Some (Wrapf "initrd: (%v, %w)" e [FInt 0])), s1, [])).
Proof.
  unfold LoadLinux, bind, slice_from, initrdAddr. split.
  - intros Hlen. rewrite (proj2 (Z.leb_gt _ _) Hlen). reflexivity.
  - intros Hlen e s1 E Hnot. rewrite (proj2 (Z.leb_le _ _) Hlen). simpl.
    unfold ext. rewrite E. simpl. rewrite Hnot. reflexivity.
Qed.

End InitrdFirst.

(** ** The order in which [New] creates the VCPUs *)

Definition is_create_vcpu (ev : Event) : bool :=
  match ev with
  | EvIoctl _ op _ _ => op =? kvm.kvmCreateVCPU
  | _ => false
  end.

Definition not_create (ev : Event) : Prop := is_create_vcpu ev = false.

Lemma not_create_filter t :
  Forall not_create t -> List.filter is_create_vcpu t = [].
Proof.
  induction 1 as [|ev t Hev _ IH]; [reflexivity|].
  simpl. unfold not_create in Hev. rewrite Hev. exact IH.
Qed.

Ltac not_create_side :=
  unfold not_create; simpl; try reflexivity.

Section VcpuOrder.
Context `{Platform}.

Lemma quiet_filter {A} (c : M A) s a s' t :
  emits not_create c -> c s = Ret (a, s', t) ->
  List.filter is_create_vcpu t = [].
Proof. intros Hc E. apply not_create_filter. exact (Hc s a s' t E). Qed.

Lemma initCPUID_not_create m i : emits not_create (initCPUID m i).
Proof. unfold initCPUID. unfold_kvm. repeat emits_step; not_create_side. Qed.

(** The successful ioctl that creates VCPU [i] of the VM. *)
Definition created (vmFd i : Z) : Event :=
  EvIoctl vmFd kvm.kvmCreateVCPU (kvm.ArgInt i) 0.

Lemma new_vcpu_creates mmapSize i m s m' s' t :
  new_vcpu mmapSize i m s = Ret ((m', None), s', t) ->
  List.filter is_create_vcpu t = [created (vmFd m) i].
Proof.
  unfold new_vcpu. intros Hb.
  apply bind_Ret in Hb. destruct Hb as ([fd e1] & s1 & t1 & t2 & Hc & Hb & ->).
  unfold CreateVCPU in Hc. apply bind_Ret in Hc.
  destruct Hc as ([[res out] err0] & s0 & t0 & t0' & Hio & Hr & ->).
  apply ioctl_Ret in Hio. destruct Hio as (errno & -> & ->).
  apply ret_Ret in Hr. destruct Hr as ([= -> ->] & _ & ->).
  destruct (Z.eqb_spec errno 0) as [Hz|Hne];
    [subst errno|apply ret_Ret in Hb; destruct Hb as (Hb & _); discriminate].
  cbv beta iota in Hb.
  rewrite !List.filter_app. simpl. f_equal.
  match type of Hb with
  | ?c _ = _ => assert (Hrest : emits not_create c)
  end.
  { unfold_kvm.
    repeat first [apply initCPUID_not_create | emits_step]; not_create_side. }
  exact (quiet_filter _ _ _ _ _ Hrest Hb).
Qed.

Lemma vcpu_loop_creates mmapSize n : forall i m s m' s' t,
  loop_err n i (new_vcpu mmapSize) m s = Ret ((m', None), s', t) ->
  List.filter is_create_vcpu t = map (created (vmFd m)) (count_from n i).
Proof.
  induction n as [|n IH]; intros i m s m' s' t Hb; simpl in Hb.
  - apply ret_Ret in Hb. destruct Hb as (_ & _ & ->). reflexivity.
  - apply bind_Ret in Hb.
    destruct Hb as ([m1 e1] & s1 & t1 & t2 & Hc & Hb & ->). simpl in Hb.
    destruct e1; [apply ret_Ret in Hb; destruct Hb as (Hb & _); discriminate|].
    rewrite List.filter_app, (new_vcpu_creates _ _ _ _ _ _ _ Hc).
    rewrite (IH _ _ _ _ _ _ Hb), (new_vcpu_vmFd _ _ _ _ _ _ _ _ Hc).
    reflexivity.
Qed.

Ltac drop_quiet :=
  repeat match goal with
         | Hc : ?c ?s = Ret (_, _, ?t)
           |- context [List.filter is_create_vcpu ?t] =>
             rewrite (quiet_filter c s _ _ t
                        ltac:(unfold_kvm; repeat emits_step; not_create_side)
                        Hc)
         end.

(** When [New] returns a nil error it has created the VCPUs of the VM one
    by one in the order of their numbers: the [KVM_CREATE_VCPU] ioctls of
    its trace are those of the ids 0, 1, ..., nCpus - 1, in this order,
    all on the VM and all successful. *)
Theorem New_creates_vcpus_in_order nCpus tapIfName diskPath s om s' evs :
  New nCpus tapIfName diskPath s = Ret ((om, None), s', evs) ->
  exists m,
    om = Some m /\
    List.filter is_create_vcpu evs
    = map (fun i => EvIoctl (vmFd m) kvm.kvmCreateVCPU (kvm.ArgInt i) 0)
        (count_from (Z.to_nat nCpus) 0).
Proof.
  unfold New. intros Hb.
  repeat inv_step Hb; try discriminate Hb.
  injection Hb as ->. eexists. split; [reflexivity|].
  cbn [vmFd set_pci set_mem].
  match goal with
  | Hl : loop_err _ _ (new_vcpu _) _ _ = Ret (_, _, ?t) |- _ =>
      pose proof (vcpu_loop_creates _ _ _ _ _ _ _ _ Hl) as Hcreates;
      pose proof (vcpu_loop_vmFd _ _ _ _ _ _ _ _ _ Hl) as Hvm;
      cbn [vmFd set_vmFd] in Hcreates, Hvm;
      rewrite !List.filter_app, Hcreates, Hvm;
      clear Hl
  end.
  drop_quiet. simpl. rewrite app_nil_r. reflexivity.
Qed.

End VcpuOrder.

(** ** The properties above on the scripted host *)

Module CpuidHost.
Import Script.

(** The scripted host, except that [KVM_GET_SUPPORTED_CPUID] answers with
    the table [c]. *)
Definition answer (c : kvm.CPUID) (fd op : Z) (arg : kvm.ioarg)
  (s : Sys (list Step)) : (Z * Z * kvm.ioarg) * Sys (list Step) :=
  if op =? kvm.kvmGetSupportedCPUID then ((0, 0, kvm.ArgCPUID c), s)
  else answer_ioctl fd op arg s.

Definition host (c : kvm.CPUID) : Platform := {|
  K := list Step;
  sys_ioctl := answer c;
  sys_open := @sys_open Script.host;
  sys_mmap := @sys_mmap Script.host;
  PCI := @PCI Script.host;
  Device := @Device Script.host;
  Devices := @Devices Script.host;
  GetIORange := @GetIORange Script.host;
  IOInHandler := @IOInHandler Script.host;
  IOOutHandler := @IOOutHandler Script.host;
  PciConfAddrIn := @PciConfAddrIn Script.host;
  PciConfAddrOut := @PciConfAddrOut Script.host;
  PciConfDataIn := @PciConfDataIn Script.host;
  PciConfDataOut := @PciConfDataOut Script.host;
  pci_NewBridge := @pci_NewBridge Script.host;
  pci_New := @pci_New Script.host;
  Serial := @Serial Script.host;
  serial_New := @serial_New Script.host;
  serial_In := @serial_In Script.host;
  serial_Out := @serial_Out Script.host;
  Tap := @Tap Script.host;
  tap_New := @tap_New Script.host;
  virtio_NewNet := @virtio_NewNet Script.host;
  virtio_NewBlk := @virtio_NewBlk Script.host;
  EBDA := @EBDA Script.host;
  ebda_New := @ebda_New Script.host;
  ebda_Bytes := @ebda_Bytes Script.host;
  BootParam := @BootParam Script.host;
  RealModeIvtBegin := @RealModeIvtBegin Script.host;
  VGARAMBegin := @VGARAMBegin Script.host;
  MBBIOSBegin := @MBBIOSBegin Script.host;
  MBBIOSEnd := @MBBIOSEnd Script.host;
  E820Ram := @E820Ram Script.host;
  E820Reserved := @E820Reserved Script.host;
  CanUseHeap := @CanUseHeap Script.host;
  LoadedHigh := @LoadedHigh Script.host;
  KeepSegments := @KeepSegments Script.host;
  ReaderAt := @ReaderAt Script.host;
  ReadAt := @ReadAt Script.host;
  bootparam_New := @bootparam_New Script.host;
  AddE820Entry := @AddE820Entry Script.host;
  get_Hdr := @get_Hdr Script.host;
  put_Hdr := @put_Hdr Script.host;
  bootparam_Bytes := @bootparam_Bytes Script.host
|}.

(** A table of three entries: performance monitoring, the hypervisor
    signature leaf, and the vendor leaf. *)
Definition perfmon : kvm.CPUIDEntry2 := kvm.mkEntry 0x0A 0 0 0x07300404 1 2 3.
Definition signature : kvm.CPUIDEntry2 := kvm.mkEntry 0x40000000 0 0 0 0 0 0.
Definition vendor : kvm.CPUIDEntry2 :=
  kvm.mkEntry 0 0 0 0x16 0x756e6547 0x6c65746e 0x49656e69.

Definition three : kvm.CPUID :=
  kvm.mkCPUID 3 0 ([perfmon; signature; vendor] ++ replicate 97%nat kvm.Entry_zero).

(** A kernel that claims 101 entries. *)
Definition too_many : kvm.CPUID :=
  kvm.mkCPUID 101 0 (replicate 100%nat kvm.Entry_zero).

Definition machine (c : kvm.CPUID) : @Machine (host c) :=
  @mkMachine (host c) 3 4 [5] (mkSlice ram_base memSize memSize) [run_base]
    (Some pci_three) None (fun _ _ => nilFunc).

End CpuidHost.

(** On a kernel that supports the three entries above, the entry of
    function 0x0A reaches the VCPU with EAX cleared. *)
Lemma initCPUID_patches_witness :
  exists e', entry_patched 3 0 CpuidHost.perfmon e'.
Proof.
  destruct (@initCPUID_patches (CpuidHost.host CpuidHost.three)
              (CpuidHost.machine CpuidHost.three) 0 5 (Script.world []) 0
              CpuidHost.three (Script.world [])
              ltac:(lia) ltac:(reflexivity) ltac:(reflexivity)
              ltac:(simpl; lia))
    as (c & _ & _ & _ & _ & Hent).
  destruct (Hent 0%nat CpuidHost.perfmon eq_refl) as (e' & _ & He').
  exists e'. exact He'.
Defined.

(** What [initCPUID] hands to the VCPU on that kernel. *)
Example initCPUID_on_host :
  trace_of (@initCPUID (CpuidHost.host CpuidHost.three)
              (CpuidHost.machine CpuidHost.three) 0 (Script.world []))
  = [EvIoctl 3 kvm.kvmGetSupportedCPUID cpuid_request 0;
     EvIoctl 5 kvm.kvmSetCPUID2
       (kvm.ArgCPUID
          (kvm.mkCPUID 3 0
             ([kvm.mkEntry 0x0A 0 0 0 1 2 3;
               kvm.mkEntry 0x40000000 0 0 0x40000001 0x4b4d564b 0x564b4d56 0x4d;
               CpuidHost.vendor] ++ replicate 97%nat kvm.Entry_zero))) 0].
Proof. vm_compute. reflexivity. Qed.

Lemma initCPUID_overrun_witness :
  @initCPUID (CpuidHost.host CpuidHost.too_many)
    (CpuidHost.machine CpuidHost.too_many) 0 (Script.world [])
  = Panic "index out of range".
Proof.
  exact (@initCPUID_overrun (CpuidHost.host CpuidHost.too_many)
           (CpuidHost.machine CpuidHost.too_many) 0 (Script.world []) 0
           CpuidHost.too_many (Script.world [])
           ltac:(reflexivity) ltac:(simpl; lia)).
Defined.

(** The router of the scripted machine. *)
Lemma host_router :
  exists t,
    @initIOPortHandlers Script.host Script.machine0 (Script.world [])
    = Ret (set_ioportHandlers t Script.machine0, Script.world [], []).
Proof.
  assert (Hok : Forall (@device_ok Script.host) Script.pci_three)
    by (repeat constructor; unfold device_ok, nPorts; simpl; lia).
  exact (initIOPortHandlers_returns Script.machine0 Script.pci_three
           (Script.world []) eq_refl Hok).
Defined.

(** The devices of the scripted machine sit at 0x6200..0x63FF. *)
Lemma host_unclaimed port :
  port < 0x6200 \/ 0x6400 <= port ->
  @unclaimed Script.host Script.pci_three port.
Proof.
  intros Hport dev [<-|[<-|[<-|[]]]]; unfold claims; simpl; lia.
Defined.

(** Port 0x6310 of the scripted machine belongs to the block device. *)
Lemma router_pci_devices_last_witness :
  exists m',
    @initIOPortHandlers Script.host Script.machine0 (Script.world [])
      = Ret (m', Script.world [], []) /\
    ioportHandlers m' 0x6310 kvm.EXITIOIN = pciInFunc /\
    ioportHandlers m' 0x6310 kvm.EXITIOOUT = pciOutFunc.
Proof.
  destruct host_router as (t & Ht).
  exists (set_ioportHandlers t Script.machine0). split; [exact Ht|].
  exact (proj2 (@router_pci_devices_last Script.host Script.machine0
                  Script.pci_three (Script.world []) _ _ _ (0x6300, 0x6400)
                  0x6310 eq_refl Ht
                  ltac:(simpl; tauto) ltac:(simpl; lia))).
Defined.

(** A machine whose one device claims ports 0xFFF0..0x1000F. *)
Definition machine_astray : @Machine Script.host :=
  @mkMachine Script.host 3 4 [5]
    (mkSlice Script.ram_base memSize memSize) [Script.run_base]
    (Some [(0xfff0, 0x10010)]) None (fun _ _ => nilFunc).

Lemma router_panics_outside_port_space_witness :
  @initIOPortHandlers Script.host machine_astray (Script.world [])
  = Panic "index out of range".
Proof.
  exact (@router_panics_outside_port_space Script.host machine_astray
           [(0xfff0, 0x10010)] (Script.world []) (0xfff0, 0x10010)
           eq_refl ltac:(simpl; tauto) ltac:(simpl; lia) ltac:(simpl; lia)).
Defined.

(** The table of the machine that [LoadLinux] booted, computed again from
    that table, is the same. *)
Lemma router_overwrites_every_slot_witness :
  exists m1 m2,
    @initIOPortHandlers Script.host Script.machine0 (Script.world [])
      = Ret (m1, Script.world [], []) /\
    @initIOPortHandlers Script.host m1 (Script.world [])
      = Ret (m2, Script.world [], []) /\
    ioportHandlers m1 0x3f8 kvm.EXITIOOUT = ioportHandlers m2 0x3f8 kvm.EXITIOOUT.
Proof.
  destruct host_router as (t & Ht).
  assert (Hok : Forall (@device_ok Script.host) Script.pci_three)
    by (repeat constructor; unfold device_ok, nPorts; simpl; lia).
  destruct (initIOPortHandlers_returns (set_ioportHandlers t Script.machine0)
              Script.pci_three (Script.world []) eq_refl Hok) as (t2 & Ht2).
  exists (set_ioportHandlers t Script.machine0).
  exists (set_ioportHandlers t2 (set_ioportHandlers t Script.machine0)).
  split; [exact Ht|]. split; [exact Ht2|].
  exact (proj1 (@router_overwrites_every_slot Script.host Script.machine0
                  (set_ioportHandlers t Script.machine0)
                  (Script.world []) (Script.world []) _ _ _ _ _ _
                  eq_refl Ht Ht2) 0x3f8 kvm.EXITIOOUT
           ltac:(lia) ltac:(unfold kvm.EXITIOOUT; lia)).
Defined.

Lemma router_delegated_ports_witness :
  exists m',
    @initIOPortHandlers Script.host Script.machine0 (Script.world [])
      = Ret (m', Script.world [], []) /\
    ioportHandlers m' 0xcfe kvm.EXITIOIN = funcPciConfDataIn /\
    ioportHandlers m' 0xcfe kvm.EXITIOOUT = funcPciConfDataOut.
Proof.
  destruct host_router as (t & Ht).
  exists (set_ioportHandlers t Script.machine0). split; [exact Ht|].
  exact (proj2 (proj2
    (@router_delegated_ports Script.host Script.machine0 Script.pci_three
       (Script.world []) _ _ _ 0xcfe eq_refl Ht
       (host_unclaimed 0xcfe ltac:(lia)))) ltac:(lia)).
Defined.

Lemma router_inline_ports_witness :
  exists m',
    @initIOPortHandlers Script.host Script.machine0 (Script.world [])
      = Ret (m', Script.world [], []) /\
    ioportHandlers m' 0x64 kvm.EXITIOIN = funcPS2In /\
    ioportHandlers m' 0x64 kvm.EXITIOOUT = funcNone.
Proof.
  destruct host_router as (t & Ht).
  exists (set_ioportHandlers t Script.machine0). split; [exact Ht|].
  exact (proj1
    (@router_inline_ports Script.host Script.machine0 Script.pci_three
       (Script.world []) _ _ _ 0x64 eq_refl Ht
       (host_unclaimed 0x64 ltac:(lia))) ltac:(lia)).
Defined.

Lemma cf9_read_power_cycles_witness :
  exists m',
    @initIOPortHandlers Script.host Script.machine0 (Script.world [])
      = Ret (m', Script.world [], []) /\
    ioportHandlers m' 0xcf9 kvm.EXITIOIN = funcOutbCF9.
Proof.
  destruct host_router as (t & Ht).
  exists (set_ioportHandlers t Script.machine0). split; [exact Ht|].
  exact (proj1
    (@cf9_read_power_cycles Script.host Script.machine0 Script.pci_three
       (Script.world []) _ _ _ eq_refl Ht (host_unclaimed 0xcf9 ltac:(lia)))).
Defined.

(** An IN of one byte from the reset port on the scripted host ends the
    step with the power-cycle error. *)
Example cf9_read_on_host :
  Booted.step 0 kvm.EXITIO (Script.io_word 0 1 0xcf9 1) 0x1000
    = Ret ((false,
            Some (Wrapf "write %#x to cf9: %w" ErrorWriteToCF9 [FBytes [0]])),
           [ran 5 0;
            EvCall funcOutbCF9 0xcf9 (mkSlice (Script.run_base + 0x1000) 1 100)
              (Some (Wrapf "write %#x to cf9: %w" ErrorWriteToCF9 [FBytes [0]]))]).
Proof. vm_compute. reflexivity. Qed.

(** Two devices that both claim port 0x6250: the first one answers. *)
Definition machine_overlap : @Machine Script.host :=
  @mkMachine Script.host 3 4 [5]
    (mkSlice Script.ram_base memSize memSize) [Script.run_base]
    (Some [(0, 0); (0x6200, 0x6300); (0x6240, 0x6400)]) None
    (fun _ _ => nilFunc).

Lemma pci_handlers_first_match_witness :
  @apply_handler Script.host pciInFunc machine_overlap 0x6250
    (mkSlice Script.run_base 1 100) (Script.world [])
  = (let (r, s') :=
       @IOInHandler Script.host (0x6200, 0x6300) 0x6250
         (mkSlice Script.run_base 1 100) (Script.world []) in
     Ret (r, s', [])).
Proof.
  exact (proj1 (proj1
    (@pci_handlers_first_match Script.host machine_overlap
       [(0, 0); (0x6200, 0x6300); (0x6240, 0x6400)] 0x6250
       (mkSlice Script.run_base 1 100) (Script.world []) eq_refl)
    [(0, 0)] (0x6200, 0x6300) [(0x6240, 0x6400)] eq_refl
    ltac:(intros dev [<-|[]]; unfold claims; simpl; lia)
    ltac:(unfold claims; simpl; lia))).
Defined.

Lemma routed_pci_call_reaches_device_witness :
  exists m' pre dev post,
    @initIOPortHandlers Script.host Script.machine0 (Script.world [])
      = Ret (m', Script.world [], []) /\
    Script.pci_three = pre ++ dev :: post /\
    @claims Script.host dev 0x6210.
Proof.
  destruct host_router as (t & Ht).
  assert (Hslot :
    ioportHandlers (set_ioportHandlers t Script.machine0) 0x6210 kvm.EXITIOIN
    = pciInFunc).
  { exact (proj2 (@installed_route Script.host Script.machine0
                    Script.pci_three (Script.world []) _ _ _ eq_refl Ht)
             0x6210 kvm.EXITIOIN ltac:(lia) ltac:(unfold kvm.EXITIOIN; lia)). }
  destruct (@routed_pci_call_reaches_device Script.host Script.machine0
              Script.pci_three (Script.world []) _ _ _ 0x6210 kvm.EXITIOIN
              (mkSlice Script.run_base 1 100) (Script.world [])
              eq_refl Ht ltac:(lia) ltac:(unfold kvm.EXITIOIN; lia)
              (or_introl Hslot))
    as (pre & dev & post & Hsplit & _ & Hdev & _).
  exists (set_ioportHandlers t Script.machine0), pre, dev, post.
  split; [exact Ht|]. split; [exact Hsplit|exact Hdev].
Defined.

(** Two reads of one byte from the PS/2 status port 0x64 on the booted
    machine. *)
Lemma ps2_status_read_witness :
  exists s',
    RunOnce Booted.machine 0
      (before_step 0 kvm.EXITIO (Script.io_word 0 1 0x64 2) 0x1000)
    = Ret ((true, None), s',
           [ran 5 0;
            EvCall funcPS2In 0x64 (mkSlice (Script.run_base + 0x1000) 1 100) None;
            EvCall funcPS2In 0x64 (mkSlice (Script.run_base + 0x1000) 1 100) None])
    /\ load8 (memory s') (Script.run_base + 0x1000) = 0x20.
Proof.
  destruct
    (ps2_status_read Booted.machine 0 5 Script.run_base
       (before_step 0 kvm.EXITIO (Script.io_word 0 1 0x64 2) 0x1000)
       0 0 (kvm.ArgInt 0)
       (after_run 0 kvm.EXITIO (Script.io_word 0 1 0x64 2) 0x1000)
       ltac:(lia)
       ltac:(vm_compute; reflexivity)
       ltac:(vm_compute; reflexivity)
       ltac:(vm_compute; reflexivity)
       ltac:(vm_compute; reflexivity)
       ltac:(vm_compute; reflexivity)
       ltac:(vm_compute; reflexivity)
       ltac:(split; vm_compute; discriminate))
    as (s' & Hret & _ & Hst).
  exists s'. split; [exact Hret|].
  exact (proj1 (proj2 (Hst ltac:(vm_compute; reflexivity)))).
Defined.

Lemma ps2_empty_read_panics_witness :
  RunOnce Booted.machine 0
    (before_step 0 kvm.EXITIO (Script.io_word 0 0 0x64 1) 0x1000)
  = Panic "index out of range".
Proof.
  exact
    (ps2_empty_read_panics Booted.machine 0 5 Script.run_base
       (before_step 0 kvm.EXITIO (Script.io_word 0 0 0x64 1) 0x1000)
       0 0 (kvm.ArgInt 0)
       (after_run 0 kvm.EXITIO (Script.io_word 0 0 0x64 1) 0x1000)
       ltac:(lia)
       ltac:(vm_compute; reflexivity)
       ltac:(vm_compute; reflexivity)
       ltac:(vm_compute; reflexivity)
       ltac:(vm_compute; reflexivity)
       ltac:(vm_compute; reflexivity)
       ltac:(vm_compute; reflexivity)
       ltac:(vm_compute; reflexivity)
       ltac:(vm_compute; reflexivity)).
Defined.

(** A HLT exit on the booted machine. *)
Lemma hlt_exit_ends_run_witness :
  RunInfiniteLoop 1 Booted.machine 0 (before_step 0 kvm.EXITHLT 0 0)
  = Ret (Some None, after_run 0 kvm.EXITHLT 0 0,
         [ran 5 0; EvPrintln "KVM_EXIT_HLT"]).
Proof.
  exact (proj1 (proj2
    (hlt_exit_ends_run Booted.machine 0 5 Script.run_base
       (before_step 0 kvm.EXITHLT 0 0) 0 0 (kvm.ArgInt 0)
       (after_run 0 kvm.EXITHLT 0 0) 0%nat
       ltac:(lia)
       ltac:(vm_compute; reflexivity)
       ltac:(vm_compute; reflexivity)
       ltac:(vm_compute; reflexivity)
       ltac:(vm_compute; reflexivity)))).
Defined.

(** The world in which [KVM_RUN] is answered first with an UNKNOWN exit
    and then with a HLT exit. *)
Definition unknown_then_hlt : Sys (list Script.Step) :=
  Script.world [Script.exits 0 kvm.EXITUNKNOWN 0 0;
                Script.exits 0 kvm.EXITHLT 0 0].

Definition halted : Sys (list Script.Step) :=
  snd (Script.answer_ioctl 5 kvm.kvmRun (kvm.ArgInt 0)
         (snd (Script.answer_ioctl 5 kvm.kvmRun (kvm.ArgInt 0)
                 unknown_then_hlt))).

Lemma clean_stop_only_by_hlt_witness :
  exists fd run errno before,
    vcpuFds Booted.machine !! Z.to_nat 0 = Some fd /\
    runs Booted.machine !! Z.to_nat 0 = Some run /\
    kvm.ExitReason (memory halted) run = kvm.EXITHLT /\
    Run_result errno = None /\
    [ran 5 0; ran 5 0; EvPrintln "KVM_EXIT_HLT"]
      = before ++ [ran fd errno; EvPrintln "KVM_EXIT_HLT"].
Proof.
  exact (clean_stop_only_by_hlt 5 Booted.machine 0 unknown_then_hlt
           halted
           [ran 5 0; ran 5 0; EvPrintln "KVM_EXIT_HLT"]
           ltac:(vm_compute; reflexivity)).
Defined.

Lemma io_exit_out_of_bounds_witness :
  RunOnce Booted.machine 0
    (before_step 0 kvm.EXITIO (Script.io_word 2 1 0x3f8 1) 0x1000)
  = Panic "index out of range".
Proof.
  exact (proj1
    (io_exit_out_of_bounds Booted.machine 0 5 Script.run_base
       (before_step 0 kvm.EXITIO (Script.io_word 2 1 0x3f8 1) 0x1000)
       0 0 (kvm.ArgInt 0)
       (after_run 0 kvm.EXITIO (Script.io_word 2 1 0x3f8 1) 0x1000)
       ltac:(lia)
       ltac:(vm_compute; reflexivity)
       ltac:(vm_compute; reflexivity)
       ltac:(vm_compute; reflexivity)
       ltac:(vm_compute; reflexivity))
    ltac:(vm_compute; discriminate)).
Defined.

(** The booted machine has one VCPU. *)
Lemma RunOnce_bad_index_witness :
  RunOnce Booted.machine 1 (Script.world []) = Panic "index out of range".
Proof.
  exact (RunOnce_bad_index Booted.machine 1 (Script.world [])
           ltac:(right; vm_compute; discriminate)).
Defined.

(** The machine before [LoadLinux]: no handler is installed. *)
Lemma io_exit_on_empty_slot_witness :
  @RunOnce Script.host Script.machine0 0
    (before_step 0 kvm.EXITIO (Script.io_word 1 1 0x3f8 1) 0x1000)
  = Panic "nil pointer dereference".
Proof.
  exact (proj1
    (@io_exit_on_empty_slot Script.host Script.machine0 0 5 Script.run_base
       (before_step 0 kvm.EXITIO (Script.io_word 1 1 0x3f8 1) 0x1000)
       0 0 (kvm.ArgInt 0)
       (after_run 0 kvm.EXITIO (Script.io_word 1 1 0x3f8 1) 0x1000)
       ltac:(lia)
       ltac:(vm_compute; reflexivity)
       ltac:(vm_compute; reflexivity)
       ltac:(vm_compute; reflexivity)
       ltac:(vm_compute; reflexivity)
       ltac:(vm_compute; reflexivity)
       ltac:(vm_compute; discriminate)
       ltac:(vm_compute; reflexivity))
    ltac:(vm_compute; reflexivity)).
Defined.


Lemma New_negative_cpus_witness :
  @New Script.host (-1) "tap0" "vda.img" (Script.world [])
  = Panic "makeslice: len out of range".
Proof.
  exact (@New_negative_cpus Script.host (-1) "tap0" "vda.img"
           (Script.world []) 3 (Script.world []) eq_refl ltac:(lia)).
Defined.

(** The machine that [LoadLinux] booted on the scripted host. *)
Lemma LoadLinux_installs_router_witness :
  (kvmFd Booted.machine, vmFd Booted.machine, vcpuFds Booted.machine,
   mem Booted.machine, runs Booted.machine, pci Booted.machine)
  = (3, 4, [5], mkSlice Script.ram_base memSize memSize, [Script.run_base],
     Some Script.pci_three) /\
  @initIOPortHandlers Script.host Script.machine0 (Script.world [])
  = Ret (set_ioportHandlers (ioportHandlers Booted.machine) Script.machine0,
         Script.world [], []).
Proof.
  assert (Hobs :
    match LoadLinux Script.machine0 tt tt "console=ttyS0" (Script.world []) with
    | Ret ((_, e), _, _) => e = None
    | Panic _ => False
    end) by (vm_compute; reflexivity).
  unfold Booted.machine, value_or.
  destruct (LoadLinux Script.machine0 tt tt "console=ttyS0" (Script.world []))
    as [[[[m' e] s'] evs]|] eqn:E; [|contradiction].
  subst e.
  destruct (LoadLinux_installs_router _ _ _ _ _ _ _ _ E) as (Hsame & Hinit & _).
  split; [exact Hsame | exact (Hinit (Script.world []))].
Defined.

(** The registers of the one VCPU of the scripted machine. *)
Lemma initRegs_read_modify_write_witness :
  @initRegs Script.host Script.machine0 0 (Script.world [])
  = Ret (None, Script.world [],
         [EvIoctl 5 kvm.kvmGetRegs (kvm.ArgRegs kvm.Regs_zero) 0;
          EvIoctl 5 kvm.kvmSetRegs
            (kvm.ArgRegs
               (kvm.mkRegs 0 0 0 0 0x10000 0 0 0 0 0 0 0 0 0 0 0 0x100000 2)) 0]).
Proof.
  exact (proj2
    (@initRegs_read_modify_write Script.host Script.machine0 0 5
       (Script.world []) 0 0 kvm.Regs_zero (Script.world [])
       ltac:(lia) ltac:(reflexivity) ltac:(reflexivity)) eq_refl).
Defined.

Lemma initSregs_read_modify_write_witness :
  exists sr,
    @initSregs Script.host Script.machine0 0 (Script.world [])
    = Ret (None, Script.world [],
           [EvIoctl 5 kvm.kvmGetSregs (kvm.ArgSregs kvm.Sregs_zero) 0;
            EvIoctl 5 kvm.kvmSetSregs (kvm.ArgSregs sr) 0]) /\
    kvm.CS sr = kvm.mkSegment 0 0xFFFFFFFF 0 0 0 0 1 0 0 1 0 0 /\
    kvm.DS sr = kvm.mkSegment 0 0xFFFFFFFF 0 0 0 0 0 0 0 1 0 0 /\
    kvm.CR0 sr = 1.
Proof.
  eexists. split; [|split; [|split]].
  - exact (proj2
      (@initSregs_read_modify_write Script.host Script.machine0 0 5
         (Script.world []) 0 0 kvm.Sregs_zero (Script.world [])
         ltac:(lia) ltac:(reflexivity) ltac:(reflexivity)) eq_refl).
  - reflexivity.
  - reflexivity.
  - reflexivity.
Defined.

Lemma RunOnce_single_ioctl_witness :
  exists fd errno rest,
    0 <= 0 /\ vcpuFds Booted.machine !! Z.to_nat 0 = Some fd /\
    [ran 5 0; EvPrintln "KVM_EXIT_HLT"]
      = EvIoctl fd kvm.kvmRun (kvm.ArgInt 0) errno :: rest /\
    Forall no_syscall rest.
Proof.
  exact (RunOnce_single_ioctl Booted.machine 0
           (before_step 0 kvm.EXITHLT 0 0) (false, None)
           (after_run 0 kvm.EXITHLT 0 0)
           [ran 5 0; EvPrintln "KVM_EXIT_HLT"]
           ltac:(vm_compute; reflexivity)).
Defined.

(** [New(2, "tap0", "vda.img")] on the scripted host. *)
Lemma New_creates_vcpus_in_order_witness :
  exists m : @Machine Script.host,
    List.filter is_create_vcpu
      (trace_of (@New Script.host 2 "tap0" "vda.img" (Script.world [])))
    = [EvIoctl (vmFd m) kvm.kvmCreateVCPU (kvm.ArgInt 0) 0;
       EvIoctl (vmFd m) kvm.kvmCreateVCPU (kvm.ArgInt 1) 0].
Proof.
  assert (Hobs :
    match @New Script.host 2 "tap0" "vda.img" (Script.world []) with
    | Ret ((_, e), _, _) => e = None
    | Panic _ => False
    end) by (vm_compute; reflexivity).
  unfold trace_of.
  destruct (@New Script.host 2 "tap0" "vda.img" (Script.world []))
    as [[[[om e] s'] evs]|] eqn:E; [|contradiction].
  subst e.
  destruct (New_creates_vcpus_in_order _ _ _ _ _ _ _ E) as (m & _ & Hf).
  exists m. exact Hf.
Defined.

Example New_creates_vcpus_on_host :
  List.filter is_create_vcpu
    (trace_of (@New Script.host 2 "tap0" "vda.img" (Script.world [])))
  = [EvIoctl 4 kvm.kvmCreateVCPU (kvm.ArgInt 0) 0;
     EvIoctl 4 kvm.kvmCreateVCPU (kvm.ArgInt 1) 0].
Proof. vm_compute. reflexivity. Qed.

(** ** What a failed [LoadLinux] leaves behind *)

Section LoadLinuxErrors.
Context `{Platform}.

(** When [LoadLinux] returns an error the machine is as it was given,
    with one exception: if the error is that of [serial.New], the last
    step, the table has been filled by then and [m.serial] holds what
    [serial.New] returned. *)
Theorem LoadLinux_error_leaves_machine m kernel initrd params s m' e s' evs :
  LoadLinux m kernel initrd params s = Ret ((m', Some e), s', evs) ->
  m' = m \/
  exists p t sp s0 s1,
    pci m = Some p /\
    block [init_default; init_overrides (Devices p)] (ioportHandlers m) = Ret t /\
    serial_New s0 = ((sp, Some e), s1) /\
    m' = set_serial sp (set_ioportHandlers t m).
Proof.
  unfold LoadLinux. intros Hb.
  repeat inv_step Hb; try discriminate Hb;
    try (injection Hb as -> _; left; reflexivity).
  injection Hb as -> ->. right.
  match goal with
  | Hi : initIOPortHandlers m _ = Ret _ |- _ =>
      apply initIOPortHandlers_Ret in Hi;
      destruct Hi as (p & tab & Hp & Ht & -> & _ & _)
  end.
  match goal with
  | Hs : ext serial_New ?s0 = Ret _ |- _ =>
      apply ext_Ret in Hs; destruct Hs as (Hs & _);
      exists p, tab; eexists; exists s0; eexists
  end.
  repeat split; [exact Hp|exact Ht|eassumption].
Qed.

End LoadLinuxErrors.

(** The world in which the first ioctl fails with EIO (5). *)
Definition first_ioctl_fails : Sys (list Script.Step) :=
  Script.world [Script.fails 5].

Lemma LoadLinux_error_leaves_machine_witness :
  fst (value_or (Script.machine0, None)
         (LoadLinux Script.machine0 tt tt "console=ttyS0" first_ioctl_fails))
  = Script.machine0.
Proof.
  assert (Hobs :
    match LoadLinux Script.machine0 tt tt "console=ttyS0" first_ioctl_fails with
    | Ret ((_, e), _, _) => e = Some (Errno 5)
    | Panic _ => False
    end) by (vm_compute; reflexivity).
  unfold value_or.
  destruct (LoadLinux Script.machine0 tt tt "console=ttyS0" first_ioctl_fails)
    as [[[[m' e] s'] evs]|] eqn:E; [|contradiction].
  subst e. simpl.
  destruct (LoadLinux_error_leaves_machine _ _ _ _ _ _ _ _ _ E)
    as [Hm|(p & t & sp & s0 & s1 & _ & _ & Hser & _)]; [exact Hm|].
  discriminate Hser.
Defined.
